(** * ATFi event backend: status lifecycle, indexer upsert and handlers

    A shallow embedding of the parts of the repository that decide the event
    state reconciliation behaviour:

    - the JavaScript model classes [EventOnchain], [EventMetadata], [Event],
      the [DatabaseService] (indexer upsert, complete-event query) and the
      [EventController] webhook;
    - the Go handlers [CreateEvent], [GetEvents], [SettleEvent],
      [ConfirmSettlement], [ValidateCheckIn] and [GetProfile].

    PostgreSQL, the blockchain node and the clock are external collaborators.
    They appear as section variables: an oracle that says which statement
    fails, the outcome of a contract call, the time read from the clock. *)

From Stdlib Require Import ZArith String Ascii List Bool Lia.
From stdpp Require Import base option list gmap strings pretty fin_maps sorting.

Local Open Scope string_scope.
Local Open Scope list_scope.
Local Open Scope Z_scope.

(** ** JavaScript values

    A property of a JavaScript object is modelled as an [option]: [None] is
    [null] (or [undefined]).  Text columns are strings, integer columns and
    Unix times are integers, flags are booleans. *)

Module Js.

(** Truthiness, as [a || b] tests it. *)
Definition truthy_string (s : string) : bool := negb (String.eqb s "").
Definition truthy_number (n : Z) : bool := negb (n =? 0).
Definition truthy_bool (b : bool) : bool := b.
Definition truthy_array {A : Type} (l : list A) : bool := true.

(** [v || null] *)
Definition or_null {A : Type} (truthy : A -> bool) (v : option A) : option A :=
  match v with
  | Some a => if truthy a then Some a else None
  | None => None
  end.

(** [v || d] for a non-null default [d] *)
Definition or_else {A : Type} (truthy : A -> bool) (v : option A) (d : A) : option A :=
  match v with
  | Some a => if truthy a then Some a else Some d
  | None => Some d
  end.

(** A nullable number in an arithmetic or relational context: [null] is 0. *)
Definition to_number (v : option Z) : Z :=
  match v with
  | Some n => n
  | None => 0
  end.

(** What a template literal prints for a nullable string. *)
Definition template (v : option string) : string :=
  match v with
  | Some s => s
  | None => "undefined"
  end.

(** The outcome of an [async] function: it returns or it throws. *)
Inductive outcome (A : Type) : Type :=
| Returned (a : A)
| Thrown (message : string).
Arguments Returned {A} a.
Arguments Thrown {A} message.

(** A computation over a mutable world [W] that may throw.  The world is
    kept when an exception is thrown: a [catch] block sees every effect
    made before the [throw]. *)
Definition comp (W A : Type) : Type := W -> outcome A * W.

Definition ret {W A : Type} (a : A) : comp W A := fun w => (Returned a, w).

Definition throw {W A : Type} (message : string) : comp W A :=
  fun w => (Thrown message, w).

Definition bind {W A B : Type} (m : comp W A) (k : A -> comp W B) : comp W B :=
  fun w =>
    match m w with
    | (Returned a, w') => k a w'
    | (Thrown e, w') => (Thrown e, w')
    end.

(** Reading a property of [v], which is an object or [null]: reading a
    property of [null] throws a [TypeError]. *)
Definition object_of {W A : Type} (v : option A) : comp W A :=
  match v with
  | Some o => ret o
  | None => throw "Cannot read properties of null"
  end.

(** [try { body } catch (error) { handler error }] *)
Definition try_catch {W A : Type} (body : comp W A) (handler : string -> comp W A)
  : comp W A :=
  fun w =>
    match body w with
    | (Returned a, w') => (Returned a, w')
    | (Thrown e, w') => handler e w'
    end.

End Js.

Notation "'let!' x ':=' m 'in' k" := (Js.bind m (fun x => k))
  (at level 10, x name, m at level 100, k at level 200).
Notation "'do!' m 'in' k" := (Js.bind m (fun _ => k))
  (at level 10, m at level 100, k at level 200).

(** ** models/EventMetadata.js *)

Module EventMetadata.

Definition REGISTRATION_OPEN : string := "REGISTRATION_OPEN".
Definition REGISTRATION_CLOSED : string := "REGISTRATION_CLOSED".
Definition LIVE : string := "LIVE".
Definition SETTLED : string := "SETTLED".
Definition VOIDED : string := "VOIDED".

(** An object with the properties of the class.  The same shape serves for
    the [data] argument of the constructor, for a database row and for an
    instance. *)
Record t : Type := mk {
  event_id : option string;
  title : option string;
  description : option string;
  image_url : option string;
  organizer_profile_id : option string;
  location : option string;
  category : option string;
  tags : option (list string);
  status : option string;
  current_participants : option Z;
  deposited_to_yield : option bool;
  event_settled : option bool;
  total_yield_earned : option Z;
  total_net_yield : option Z;
  created_at : option string;
  updated_at : option string
}.

(** [constructor(data = {})] *)
Definition new (data : t) : t :=
  {| event_id := Js.or_null Js.truthy_string (event_id data);
     title := Js.or_null Js.truthy_string (title data);
     description := Js.or_null Js.truthy_string (description data);
     image_url := Js.or_null Js.truthy_string (image_url data);
     organizer_profile_id := Js.or_null Js.truthy_string (organizer_profile_id data);
     location := Js.or_null Js.truthy_string (location data);
     category := Js.or_null Js.truthy_string (category data);
     tags := Js.or_else Js.truthy_array (tags data) [];
     status := Js.or_else Js.truthy_string (status data) REGISTRATION_OPEN;
     current_participants := Js.or_else Js.truthy_number (current_participants data) 0;
     deposited_to_yield := Js.or_else Js.truthy_bool (deposited_to_yield data) false;
     event_settled := Js.or_else Js.truthy_bool (event_settled data) false;
     total_yield_earned := Js.or_else Js.truthy_number (total_yield_earned data) 0;
     total_net_yield := Js.or_else Js.truthy_number (total_net_yield data) 0;
     created_at := Js.or_null Js.truthy_string (created_at data);
     updated_at := Js.or_null Js.truthy_string (updated_at data) |}.

(** [this.status = s; this.updated_at = stamp] *)
Definition set_status (m : t) (s : string) (stamp : string) : t :=
  {| event_id := event_id m; title := title m; description := description m;
     image_url := image_url m; organizer_profile_id := organizer_profile_id m;
     location := location m; category := category m; tags := tags m;
     status := Some s;
     current_participants := current_participants m;
     deposited_to_yield := deposited_to_yield m; event_settled := event_settled m;
     total_yield_earned := total_yield_earned m; total_net_yield := total_net_yield m;
     created_at := created_at m;
     updated_at := Some stamp |}.

(** [this.current_participants = n; this.updated_at = stamp] *)
Definition set_current_participants (m : t) (n : Z) (stamp : string) : t :=
  {| event_id := event_id m; title := title m; description := description m;
     image_url := image_url m; organizer_profile_id := organizer_profile_id m;
     location := location m; category := category m; tags := tags m;
     status := status m;
     current_participants := Some n;
     deposited_to_yield := deposited_to_yield m; event_settled := event_settled m;
     total_yield_earned := total_yield_earned m; total_net_yield := total_net_yield m;
     created_at := created_at m;
     updated_at := Some stamp |}.

(** The number that [this.current_participants > 0] compares. *)
Definition participants (m : t) : Z := Js.to_number (current_participants m).

(** The object [new EventMetadata()] makes from no data. *)
Definition empty : t :=
  new (mk None None None None None None None None None None None None
          None None None None).

(** [updateStatusBasedOnTime(registrationDeadline, eventDate)].
    [date_now] is what [Date.now()] returns (milliseconds) and [iso_now]
    what [new Date().toISOString()] returns. *)
Definition updateStatusBasedOnTime (date_now : Z) (iso_now : string)
    (registrationDeadline eventDate : Z) (this : t) : t :=
  let now := date_now / 1000 in
  if now <? registrationDeadline then
    set_status this REGISTRATION_OPEN iso_now
  else if now <? eventDate then
    set_status this
      (if 0 <? Js.to_number (current_participants this)
       then REGISTRATION_CLOSED else VOIDED)
      iso_now
  else
    set_status this LIVE iso_now.

(** [incrementParticipantCount()] *)
Definition incrementParticipantCount (iso_now : string) (this : t) : t :=
  set_current_participants this (Js.to_number (current_participants this) + 1) iso_now.

(** [decrementParticipantCount()] *)
Definition decrementParticipantCount (iso_now : string) (this : t) : t :=
  if 0 <? Js.to_number (current_participants this) then
    set_current_participants this (Js.to_number (current_participants this) - 1) iso_now
  else this.

(** [static fromDatabaseRow(row)] *)
Definition fromDatabaseRow (row : t) : t :=
  new {| event_id := event_id row; title := title row;
         description := description row; image_url := image_url row;
         organizer_profile_id := organizer_profile_id row;
         location := location row; category := category row;
         tags := Js.or_else Js.truthy_array (tags row) [];
         status := status row;
         current_participants := current_participants row;
         deposited_to_yield := deposited_to_yield row;
         event_settled := event_settled row;
         total_yield_earned := total_yield_earned row;
         total_net_yield := total_net_yield row;
         created_at := created_at row; updated_at := updated_at row |}.

(** The calls a caller can make on the participant counter, each with the
    time the clock shows when it is made. *)
Inductive counter_call : Type :=
| Increment (iso_now : string)
| Decrement (iso_now : string).

Definition call (c : counter_call) (this : t) : t :=
  match c with
  | Increment stamp => incrementParticipantCount stamp this
  | Decrement stamp => decrementParticipantCount stamp this
  end.

Definition calls (cs : list counter_call) (this : t) : t :=
  fold_left (fun m c => call c m) cs this.

End EventMetadata.

(** ** models/EventOnchain.js *)

Module EventOnchain.

(** The Goldsky fields and the two computed stamps.  An indexer event, a
    row of [events_onchain] and an instance of the class have this shape. *)
Record t : Type := mk {
  vid : option Z;
  block : option Z;
  id : option string;
  block_number : option Z;
  timestamp : option Z;
  transaction_hash : option string;
  contract_id : option string;
  event_id : option string;
  vault : option string;
  organizer : option string;
  stake_amount : option string;
  max_participant : option Z;
  registration_deadline : option Z;
  event_date : option Z;
  _gs_chain : option string;
  _gs_gid : option string;
  created_at : option string;
  updated_at : option string
}.

(** [constructor(data = {})] *)
Definition new (data : t) : t :=
  {| vid := Js.or_null Js.truthy_number (vid data);
     block := Js.or_null Js.truthy_number (block data);
     id := Js.or_null Js.truthy_string (id data);
     block_number := Js.or_null Js.truthy_number (block_number data);
     timestamp := Js.or_null Js.truthy_number (timestamp data);
     transaction_hash := Js.or_null Js.truthy_string (transaction_hash data);
     contract_id := Js.or_null Js.truthy_string (contract_id data);
     event_id := Js.or_null Js.truthy_string (event_id data);
     vault := Js.or_null Js.truthy_string (vault data);
     organizer := Js.or_null Js.truthy_string (organizer data);
     stake_amount := Js.or_null Js.truthy_string (stake_amount data);
     max_participant := Js.or_null Js.truthy_number (max_participant data);
     registration_deadline := Js.or_null Js.truthy_number (registration_deadline data);
     event_date := Js.or_null Js.truthy_number (event_date data);
     _gs_chain := Js.or_null Js.truthy_string (_gs_chain data);
     _gs_gid := Js.or_null Js.truthy_string (_gs_gid data);
     created_at := Js.or_null Js.truthy_string (created_at data);
     updated_at := Js.or_null Js.truthy_string (updated_at data) |}.

(** [static fromDatabaseRow(row)] *)
Definition fromDatabaseRow (row : t) : t :=
  new {| vid := vid row; block := block row; id := id row;
         block_number := block_number row; timestamp := timestamp row;
         transaction_hash := transaction_hash row;
         contract_id := contract_id row; event_id := event_id row;
         vault := vault row; organizer := organizer row;
         stake_amount := stake_amount row;
         max_participant := max_participant row;
         registration_deadline := registration_deadline row;
         event_date := event_date row;
         _gs_chain := _gs_chain row; _gs_gid := _gs_gid row;
         created_at := created_at row; updated_at := updated_at row |}.

(** [row.updated_at = stamp], what [DO UPDATE SET updated_at = NOW()]
    does to a stored row. *)
Definition set_updated_at (stamp : string) (row : t) : t :=
  {| vid := vid row; block := block row; id := id row;
     block_number := block_number row; timestamp := timestamp row;
     transaction_hash := transaction_hash row;
     contract_id := contract_id row; event_id := event_id row;
     vault := vault row; organizer := organizer row;
     stake_amount := stake_amount row;
     max_participant := max_participant row;
     registration_deadline := registration_deadline row;
     event_date := event_date row;
     _gs_chain := _gs_chain row; _gs_gid := _gs_gid row;
     created_at := created_at row; updated_at := Some stamp |}.

End EventOnchain.

(** ** models/Event.js *)

Module Event.

Record t : Type := mk {
  onchain : EventOnchain.t;
  metadata : EventMetadata.t;
  event_id : option string;
  vault_address : option string;
  organizer_address : option string;
  stake_amount : option string;
  max_participants : option Z
}.

(** [constructor(data = {})], for a [data] that carries both an [onchain]
    and a [metadata] object (an object is truthy, so [data.onchain || data]
    is [data.onchain]). *)
Definition new (data_onchain : EventOnchain.t) (data_metadata : EventMetadata.t) : t :=
  let onchain := EventOnchain.new data_onchain in
  let metadata := EventMetadata.new data_metadata in
  {| onchain := onchain;
     metadata := metadata;
     event_id :=
       match Js.or_null Js.truthy_string (EventOnchain.event_id onchain) with
       | Some e => Some e
       | None => EventMetadata.event_id metadata
       end;
     vault_address := EventOnchain.vault onchain;
     organizer_address := EventOnchain.organizer onchain;
     stake_amount := EventOnchain.stake_amount onchain;
     max_participants := EventOnchain.max_participant onchain |}.

(** [static fromDatabaseData(onchainRow, metadataRow)] *)
Definition fromDatabaseData (onchainRow : EventOnchain.t) (metadataRow : EventMetadata.t) : t :=
  new (EventOnchain.fromDatabaseRow onchainRow) (EventMetadata.fromDatabaseRow metadataRow).

End Event.

(** ** services/databaseService.js *)

Module DatabaseService.

(** The tables the service reads and writes.  [events_onchain] is a bag of
    rows (nothing in the service makes [event_id] unique there);
    [events_metadata] has one row per event identifier, the conflict target
    of its [INSERT]; [profiles] maps a wallet address to the profile id.
    The identifier is the text of [events_onchain.event_id]; the cast
    [em.event_id::text] of the join is the identity on it. *)
Record tables : Type := mk_tables {
  events_onchain : list EventOnchain.t;
  events_metadata : gmap string EventMetadata.t;
  profiles : gmap string string
}.

(** What the service sends to the server. *)
Inductive statement : Type :=
| CONNECT
| BEGIN
| COMMIT
| ROLLBACK
| UPSERT_ONCHAIN (onchainValues : EventOnchain.t)
| SELECT_METADATA (event_id : option string)
| SELECT_ORGANIZER (wallet_address : option string)
| INSERT_METADATA (event_id : option string) (title : string)
    (organizer_profile_id : option string)
| SELECT_COMPLETE_EVENT (eventId : string).

(** The database server, as far as the repository leaves it open:
    - [pg_error n s]: the error, if any, with which the [n]-th statement
      sent fails when it is [s] (a constraint of the schema, a lost
      connection, ...);
    - [pg_now n]: what [NOW()] is for the [n]-th statement;
    - [onchain_stamps]: the defaults of [events_onchain.created_at] and
      [updated_at], given [NOW()];
    - [metadata_defaults]: the default of every [events_metadata] column
      that the service's [INSERT] does not list. *)
Record server : Type := mk_server {
  pg_error : nat -> statement -> option string;
  pg_now : nat -> string;
  onchain_stamps : string -> option string * option string;
  metadata_defaults : EventMetadata.t
}.

(** The pool with its client: the committed tables, the working copy of an
    open transaction, and the statements sent so far, oldest first, each
    with the error it failed with. *)
Record world : Type := mk_world {
  committed : tables;
  transaction : option tables;
  sent : list (statement * option string)
}.

Definition issued (w : world) : nat := length (sent w).

(** The tables a statement of the client sees. *)
Definition visible (w : world) : tables :=
  match transaction w with
  | Some working => working
  | None => committed w
  end.

(** A write of the client: into the open transaction, or committed at once
    when there is none. *)
Definition store (t : tables) (w : world) : world :=
  match transaction w with
  | Some _ => {| committed := committed w; transaction := Some t; sent := sent w |}
  | None => {| committed := t; transaction := None; sent := sent w |}
  end.

Definition record (s : statement) (e : option string) (w : world) : world :=
  {| committed := committed w; transaction := transaction w;
     sent := sent w ++ [(s, e)] |}.

Definition close_transaction (w : world) : world :=
  {| committed := committed w; transaction := None; sent := sent w |}.

(** A failed statement changes no table.  A [COMMIT] or [ROLLBACK] that
    fails has lost its session, and the server drops the transaction. *)
Definition after_failure (s : statement) (w : world) : world :=
  match s with
  | COMMIT | ROLLBACK => close_transaction w
  | _ => w
  end.

(** Rows with the transaction hash [h]; [NULL] equals nothing. *)
Definition same_hash (h : option string) (row : EventOnchain.t) : bool :=
  match h, EventOnchain.transaction_hash row with
  | Some a, Some b => String.eqb a b
  | _, _ => false
  end.

Definition same_event (e : option string) (row : EventOnchain.t) : bool :=
  match e, EventOnchain.event_id row with
  | Some a, Some b => String.eqb a b
  | _, _ => false
  end.

(** The row an [INSERT INTO events_onchain] of the sixteen values makes. *)
Definition onchain_row (stamps : option string * option string)
    (v : EventOnchain.t) : EventOnchain.t :=
  {| EventOnchain.vid := EventOnchain.vid v;
     EventOnchain.block := EventOnchain.block v;
     EventOnchain.id := EventOnchain.id v;
     EventOnchain.block_number := EventOnchain.block_number v;
     EventOnchain.timestamp := EventOnchain.timestamp v;
     EventOnchain.transaction_hash := EventOnchain.transaction_hash v;
     EventOnchain.contract_id := EventOnchain.contract_id v;
     EventOnchain.event_id := EventOnchain.event_id v;
     EventOnchain.vault := EventOnchain.vault v;
     EventOnchain.organizer := EventOnchain.organizer v;
     EventOnchain.stake_amount := EventOnchain.stake_amount v;
     EventOnchain.max_participant := EventOnchain.max_participant v;
     EventOnchain.registration_deadline := EventOnchain.registration_deadline v;
     EventOnchain.event_date := EventOnchain.event_date v;
     EventOnchain._gs_chain := EventOnchain._gs_chain v;
     EventOnchain._gs_gid := EventOnchain._gs_gid v;
     EventOnchain.created_at := fst stamps;
     EventOnchain.updated_at := snd stamps |}.

(** [INSERT INTO events_onchain ... ON CONFLICT (transaction_hash) DO UPDATE
    SET updated_at = NOW() RETURNING *]: the table afterwards and the rows
    returned. *)
Definition upsert_onchain (now : string) (stamps : option string * option string)
    (v : EventOnchain.t) (rows : list EventOnchain.t)
  : list EventOnchain.t * list EventOnchain.t :=
  let h := EventOnchain.transaction_hash v in
  if existsb (same_hash h) rows then
    let rows' :=
      map (fun r => if same_hash h r then EventOnchain.set_updated_at now r else r) rows in
    (rows', filter (fun r => same_hash h r = true) rows')
  else
    let row := onchain_row stamps v in
    (rows ++ [row], [row]).

(** The row an [INSERT INTO events_metadata (event_id, title,
    organizer_profile_id)] makes: the other columns take their default. *)
Definition metadata_row (defaults : EventMetadata.t) (event_id : string)
    (title : string) (organizer_profile_id : option string) : EventMetadata.t :=
  {| EventMetadata.event_id := Some event_id;
     EventMetadata.title := Some title;
     EventMetadata.description := EventMetadata.description defaults;
     EventMetadata.image_url := EventMetadata.image_url defaults;
     EventMetadata.organizer_profile_id := organizer_profile_id;
     EventMetadata.location := EventMetadata.location defaults;
     EventMetadata.category := EventMetadata.category defaults;
     EventMetadata.tags := EventMetadata.tags defaults;
     EventMetadata.status := EventMetadata.status defaults;
     EventMetadata.current_participants := EventMetadata.current_participants defaults;
     EventMetadata.deposited_to_yield := EventMetadata.deposited_to_yield defaults;
     EventMetadata.event_settled := EventMetadata.event_settled defaults;
     EventMetadata.total_yield_earned := EventMetadata.total_yield_earned defaults;
     EventMetadata.total_net_yield := EventMetadata.total_net_yield defaults;
     EventMetadata.created_at := EventMetadata.created_at defaults;
     EventMetadata.updated_at := EventMetadata.updated_at defaults |}.

(** [INSERT INTO events_metadata ... ON CONFLICT (event_id) DO NOTHING] *)
Definition insert_metadata (row : EventMetadata.t) (event_id : string)
    (rows : gmap string EventMetadata.t) : gmap string EventMetadata.t :=
  match rows !! event_id with
  | Some _ => rows
  | None => <[event_id := row]> rows
  end.

(** A row of the [LEFT JOIN] of [getCompleteEvent]: the on-chain row and
    the metadata columns, [NULL] when no metadata row joins. *)
Record joined_row : Type := mk_joined {
  eo : EventOnchain.t;
  em : option EventMetadata.t
}.

Definition em_column {A : Type} (column : EventMetadata.t -> option A)
    (row : joined_row) : option A :=
  match em row with
  | Some m => column m
  | None => None
  end.

(** [FROM events_onchain eo LEFT JOIN events_metadata em ON eo.event_id =
    em.event_id::text WHERE eo.event_id = $1] *)
Definition complete_event_rows (eventId : string) (t : tables) : list joined_row :=
  map (fun r => {| eo := r; em := events_metadata t !! eventId |})
      (filter (fun r => same_event (Some eventId) r = true) (events_onchain t)).

Section Service.

Variable pg : server.

(** Send statement [s]; [run] is what the server does with it when the
    oracle lets it through. *)
Definition send {A : Type} (s : statement) (run : nat -> world -> Js.outcome A * world)
  : Js.comp world A :=
  fun w =>
    let n := issued w in
    match pg_error pg n s with
    | Some e => (Js.Thrown e, after_failure s (record s (Some e) w))
    | None =>
        match run n w with
        | (Js.Returned a, w') => (Js.Returned a, record s None w')
        | (Js.Thrown e, w') => (Js.Thrown e, after_failure s (record s (Some e) w'))
        end
    end.

(** [await this.pool.connect()] *)
Definition connect : Js.comp world unit :=
  send CONNECT (fun _ w => (Js.Returned tt, w)).

(** [await client.query('BEGIN')] *)
Definition query_begin : Js.comp world unit :=
  send BEGIN (fun _ w =>
    (Js.Returned tt,
     match transaction w with
     | Some _ => w
     | None => {| committed := committed w; transaction := Some (committed w);
                  sent := sent w |}
     end)).

(** [await client.query('COMMIT')] *)
Definition query_commit : Js.comp world unit :=
  send COMMIT (fun _ w =>
    (Js.Returned tt,
     match transaction w with
     | Some working => {| committed := working; transaction := None; sent := sent w |}
     | None => w
     end)).

(** [await client.query('ROLLBACK')] *)
Definition query_rollback : Js.comp world unit :=
  send ROLLBACK (fun _ w => (Js.Returned tt, close_transaction w)).

(** [await client.query(upsertOnchainQuery, onchainValues)]; the result
    is [onchainResult.rows]. *)
Definition query_upsert_onchain (onchainValues : EventOnchain.t)
  : Js.comp world (list EventOnchain.t) :=
  send (UPSERT_ONCHAIN onchainValues) (fun n w =>
    let t := visible w in
    let (rows', returning) :=
      upsert_onchain (pg_now pg n) (onchain_stamps pg (pg_now pg n))
        onchainValues (events_onchain t) in
    (Js.Returned returning,
     store {| events_onchain := rows'; events_metadata := events_metadata t;
              profiles := profiles t |} w)).

(** [await client.query(metadataCheckQuery, [event_id])] *)
Definition query_select_metadata (event_id : option string)
  : Js.comp world (list EventMetadata.t) :=
  send (SELECT_METADATA event_id) (fun _ w =>
    (Js.Returned
       match event_id with
       | Some e => option_list (events_metadata (visible w) !! e)
       | None => []
       end, w)).

(** [await client.query(organizerProfileQuery, [organizer])]; the result
    is the [id] of each row. *)
Definition query_select_organizer (wallet_address : option string)
  : Js.comp world (list string) :=
  send (SELECT_ORGANIZER wallet_address) (fun _ w =>
    (Js.Returned
       match wallet_address with
       | Some a => option_list (profiles (visible w) !! a)
       | None => []
       end, w)).

(** [await client.query(insertMetadataQuery, [event_id, title,
    organizerProfileId])].  The conflict target [event_id] is the key of
    the table and cannot be [NULL]. *)
Definition query_insert_metadata (event_id : option string) (title : string)
    (organizer_profile_id : option string) : Js.comp world unit :=
  send (INSERT_METADATA event_id title organizer_profile_id) (fun _ w =>
    match event_id with
    | None =>
        (Js.Thrown "null value in column event_id violates not-null constraint", w)
    | Some e =>
        let t := visible w in
        (Js.Returned tt,
         store {| events_onchain := events_onchain t;
                  events_metadata :=
                    insert_metadata
                      (metadata_row (metadata_defaults pg) e title organizer_profile_id)
                      e (events_metadata t);
                  profiles := profiles t |} w)
    end).

(** [async upsertEventFromGoldsky(goldskyEvent)].  The argument is a member
    of the array the webhook received: an object or [null].  Its properties
    are first read where [onchainValues] is built, after [BEGIN]. *)
Definition upsertEventFromGoldsky (member : option EventOnchain.t)
  : Js.comp world EventOnchain.t :=
  do! connect in
  Js.try_catch
    (do! query_begin in
     let! goldskyEvent := Js.object_of member in
     let! onchainResult := query_upsert_onchain goldskyEvent in
     let! metadataResult := query_select_metadata (EventOnchain.event_id goldskyEvent) in
     do! (if (length metadataResult =? 0)%nat then
            let defaultTitle :=
              "Event " +:+ Js.template (EventOnchain.event_id goldskyEvent) in
            let! organizerResult :=
              query_select_organizer (EventOnchain.organizer goldskyEvent) in
            let organizerProfileId :=
              Js.or_null Js.truthy_string (head organizerResult) in
            query_insert_metadata (EventOnchain.event_id goldskyEvent)
              defaultTitle organizerProfileId
          else Js.ret tt) in
     do! query_commit in
     match head onchainResult with
     | Some row => Js.ret (EventOnchain.fromDatabaseRow row)
     | None => Js.throw "Cannot read properties of undefined"
     end)
    (fun error =>
       do! query_rollback in
       Js.throw error).

(** [await this.pool.query(query, [eventId])] of [getCompleteEvent]: a
    statement of the pool, which reads committed rows. *)
Definition query_complete_event (eventId : string) : Js.comp world (list joined_row) :=
  send (SELECT_COMPLETE_EVENT eventId) (fun _ w =>
    (Js.Returned (complete_event_rows eventId (committed w)), w)).

(** [async getCompleteEvent(eventId)] *)
Definition getCompleteEvent (eventId : string) : Js.comp world (option Event.t) :=
  let! rows := query_complete_event eventId in
  match head rows with
  | None => Js.ret None
  | Some row =>
      let onchainData :=
        {| EventOnchain.vid := EventOnchain.vid (eo row);
           EventOnchain.block := EventOnchain.block (eo row);
           EventOnchain.id := EventOnchain.id (eo row);
           EventOnchain.block_number := EventOnchain.block_number (eo row);
           EventOnchain.timestamp := EventOnchain.timestamp (eo row);
           EventOnchain.transaction_hash := EventOnchain.transaction_hash (eo row);
           EventOnchain.contract_id := EventOnchain.contract_id (eo row);
           EventOnchain.event_id := EventOnchain.event_id (eo row);
           EventOnchain.vault := EventOnchain.vault (eo row);
           EventOnchain.organizer := EventOnchain.organizer (eo row);
           EventOnchain.stake_amount := EventOnchain.stake_amount (eo row);
           EventOnchain.max_participant := EventOnchain.max_participant (eo row);
           EventOnchain.registration_deadline :=
             EventOnchain.registration_deadline (eo row);
           EventOnchain.event_date := EventOnchain.event_date (eo row);
           EventOnchain._gs_chain := EventOnchain._gs_chain (eo row);
           EventOnchain._gs_gid := EventOnchain._gs_gid (eo row);
           EventOnchain.created_at := None;
           EventOnchain.updated_at := None |} in
      let metadataData :=
        {| EventMetadata.event_id := EventOnchain.event_id (eo row);
           EventMetadata.title := em_column EventMetadata.title row;
           EventMetadata.description := em_column EventMetadata.description row;
           EventMetadata.image_url := em_column EventMetadata.image_url row;
           EventMetadata.organizer_profile_id :=
             em_column EventMetadata.organizer_profile_id row;
           EventMetadata.location := em_column EventMetadata.location row;
           EventMetadata.category := em_column EventMetadata.category row;
           EventMetadata.tags := em_column EventMetadata.tags row;
           EventMetadata.status := em_column EventMetadata.status row;
           EventMetadata.current_participants :=
             em_column EventMetadata.current_participants row;
           EventMetadata.deposited_to_yield :=
             em_column EventMetadata.deposited_to_yield row;
           EventMetadata.event_settled := em_column EventMetadata.event_settled row;
           EventMetadata.total_yield_earned :=
             em_column EventMetadata.total_yield_earned row;
           EventMetadata.total_net_yield :=
             em_column EventMetadata.total_net_yield row;
           EventMetadata.created_at := em_column EventMetadata.created_at row;
           EventMetadata.updated_at := em_column EventMetadata.updated_at row |} in
      Js.ret (Some (Event.fromDatabaseData onchainData metadataData))
  end.

End Service.

(** *** Vocabulary for the properties of the service *)

(** How many rows of [events_onchain] carry the transaction hash [h]. *)
Definition hash_count (h : string) (t : tables) : nat :=
  length (filter (fun r => same_hash (Some h) r = true) (events_onchain t)).

(** The profile id the upsert links to a new metadata row. *)
Definition organizer_profile (t : tables) (wallet_address : option string)
  : option string :=
  Js.or_null Js.truthy_string
    (head match wallet_address with
          | Some a => option_list (profiles t !! a)
          | None => []
          end).

(** The tables after every statement of one upsert of [ev] has run, the
    on-chain statement being the [n]-th statement sent. *)
Definition upsert_effect (pg : server) (n : nat) (ev : EventOnchain.t) (t : tables)
  : tables :=
  {| events_onchain :=
       fst (upsert_onchain (pg_now pg n) (onchain_stamps pg (pg_now pg n)) ev
              (events_onchain t));
     events_metadata :=
       match EventOnchain.event_id ev with
       | Some e =>
           insert_metadata
             (metadata_row (metadata_defaults pg) e ("Event " +:+ e)
                (organizer_profile t (EventOnchain.organizer ev)))
             e (events_metadata t)
       | None => events_metadata t
       end;
     profiles := profiles t |}.

(** A statement of the log failed; none did. *)
Definition some_failed (log : list (statement * option string)) : Prop :=
  exists s e, In (s, Some e) log.

Definition none_failed (log : list (statement * option string)) : Prop :=
  Forall (fun x => snd x = None) log.

(** The session statements never fail. *)
Definition reliable (pg : server) : Prop :=
  forall n,
    pg_error pg n CONNECT = None /\
    pg_error pg n BEGIN = None /\
    pg_error pg n COMMIT = None.

(** The server never refuses a statement that the upsert sends for [ev]. *)
Definition accepted (pg : server) (ev : EventOnchain.t) : Prop :=
  forall n,
    pg_error pg n (UPSERT_ONCHAIN ev) = None /\
    pg_error pg n (SELECT_METADATA (EventOnchain.event_id ev)) = None /\
    pg_error pg n (SELECT_ORGANIZER (EventOnchain.organizer ev)) = None /\
    forall title o,
      pg_error pg n (INSERT_METADATA (EventOnchain.event_id ev) title o) = None.

(** A valid batch member: it names its event and the server accepts it. *)
Definition valid (pg : server) (ev : EventOnchain.t) : Prop :=
  accepted pg ev /\ EventOnchain.event_id ev <> None.

(** A malformed batch member: the server always refuses its on-chain row,
    or it names no event. *)
Definition malformed (pg : server) (ev : EventOnchain.t) : Prop :=
  (forall n, pg_error pg n (UPSERT_ONCHAIN ev) <> None) \/
  EventOnchain.event_id ev = None.

(** [ev] is stored: an on-chain row has its transaction hash and its event
    has a metadata row. *)
Definition persisted (ev : EventOnchain.t) (t : tables) : Prop :=
  In (EventOnchain.transaction_hash ev)
     (map EventOnchain.transaction_hash (events_onchain t)) /\
  exists e, EventOnchain.event_id ev = Some e /\ is_Some (events_metadata t !! e).

End DatabaseService.

(** ** controllers/eventController.js *)

Module EventController.

(** An element of [processed_events]. *)
Record processed : Type := mk_processed {
  event_id : option string;
  vault : option string;
  status : string;
  error : option string
}.

Inductive body : Type :=
| Failure (error : string) (message : option string)
| Success (processed_events : list processed) (total : nat).

Record response : Type := mk_response {
  code : Z;
  json : body
}.

Section Controller.

Variable pg : DatabaseService.server.

(** The [try]/[catch] inside the loop of [handleGoldskyWebhook], for one
    member of the array.  The [catch] block reads [goldskyEvent.event_id]
    for its log line and for the entry it pushes. *)
Definition process (member : option EventOnchain.t)
  : Js.comp DatabaseService.world processed :=
  Js.try_catch
    (let! savedEvent := DatabaseService.upsertEventFromGoldsky pg member in
     Js.ret {| event_id := EventOnchain.event_id savedEvent;
               vault := EventOnchain.vault savedEvent;
               status := "processed";
               error := None |})
    (fun error =>
       let! goldskyEvent := Js.object_of member in
       Js.ret {| event_id := EventOnchain.event_id goldskyEvent;
                 vault := None;
                 status := "error";
                 error := Some error |}).

(** [for (const goldskyEvent of events) { ... processedEvents.push(...) }] *)
Fixpoint process_all (events : list (option EventOnchain.t))
    (processedEvents : list processed)
  : Js.comp DatabaseService.world (list processed) :=
  match events with
  | [] => Js.ret processedEvents
  | goldskyEvent :: rest =>
      let! entry := process goldskyEvent in
      process_all rest (processedEvents ++ [entry])
  end.

(** [async handleGoldskyWebhook(req, res)].  [events] is [req.body.events]
    when that is an array, and [None] otherwise. *)
Definition handleGoldskyWebhook (events : option (list (option EventOnchain.t)))
  : Js.comp DatabaseService.world response :=
  Js.try_catch
    match events with
    | None => Js.ret {| code := 400; json := Failure "Invalid webhook payload" None |}
    | Some events =>
        let! processedEvents := process_all events [] in
        Js.ret {| code := 200;
                  json := Success processedEvents (length processedEvents) |}
    end
    (fun error =>
       Js.ret {| code := 500;
                 json := Failure "Failed to process webhook" (Some error) |}).

End Controller.

(** The entries of a response that report an error. *)
Definition is_error (p : processed) : bool := String.eqb (status p) "error".

Definition errors (entries : list processed) : list processed :=
  List.filter is_error entries.

End EventController.

(** ** models (Go) *)

Module Models.

Module Profile.
Record t : Type := mk {
  ID : string;
  WalletAddress : string;
  Name : option string;
  Email : option string;
  Balance : string
}.
End Profile.

Module EventMetadata.
Record t : Type := mk {
  EventID : Z;
  Title : string;
  Status : string;
  Description : option string;
  ImageURL : option string
}.
End EventMetadata.

Module EventDetail.
Record t : Type := mk {
  EventID : Z;
  VaultAddress : string;
  OrganizerAddress : string;
  StakeAmount : string;
  MaxParticipants : Z;
  CurrentParticipants : Z;
  RegistrationDeadline : Z;
  EventDate : Z;
  Title : string;
  Status : string;
  Description : option string;
  ImageURL : option string;
  OrganizerName : string
}.
End EventDetail.

Module CheckIn.
Record t : Type := mk {
  ID : string;
  EventID : string;
  UserAddress : string;
  QRData : string;
  CheckedInAt : Z;
  IsValidated : bool;
  ValidatedAt : option Z;
  ValidatedBy : string
}.
End CheckIn.

Module ValidateCheckInRequest.
Record t : Type := mk {
  CheckInID : string;
  IsValid : bool
}.
End ValidateCheckInRequest.

End Models.

(** ** net/http status codes and gin responses *)

Module Http.

Definition StatusOK : Z := 200.
Definition StatusCreated : Z := 201.
Definition StatusBadRequest : Z := 400.
Definition StatusUnauthorized : Z := 401.
Definition StatusForbidden : Z := 403.
Definition StatusNotFound : Z := 404.
Definition StatusConflict : Z := 409.
Definition StatusInternalServerError : Z := 500.

(** The bodies the modelled handlers pass to [c.JSON]. *)
Inductive json : Type :=
| H_error (error : string)
| H_error_details (error details : string)
| H_error_event (error : string) (event_id : Z)
| H_message (message : string)
| H_confirmed (message transaction_hash : string)
| H_events (events : list Models.EventDetail.t) (total page limit : Z)
| H_profile (id wallet_address : string) (name email : option string) (balance : string)
| Metadata (m : Models.EventMetadata.t)
| Detail (d : Models.EventDetail.t)
| CheckIn (c : Models.CheckIn.t).

Record response : Type := JSON {
  code : Z;
  body : json
}.

End Http.

(** ** The relational schema of the Go handlers *)

Module Schema.

(** [events_onchain], keyed by [event_id]. *)
Module EventsOnchain.
Record row : Type := mk {
  vault_address : string;
  organizer_address : string;
  stake_amount : string;
  max_participant : Z;
  registration_deadline : Z;
  event_date : Z
}.
End EventsOnchain.

(** [events_metadata], keyed by [event_id]. *)
Module EventsMetadata.
Record row : Type := mk {
  title : string;
  description : option string;
  image_url : option string;
  status : string;
  updated_at : option Z
}.
End EventsMetadata.

(** [profiles], keyed by [wallet_address] (unique). *)
Module Profiles.
Record row : Type := mk {
  id : string;
  name : option string;
  email : option string
}.
End Profiles.

(** [participant]: [event_id] and [user_id] are each unique. *)
Module Participant.
Record row : Type := mk {
  event_id : Z;
  user_id : string;
  is_attend : bool;
  is_claim : bool
}.
End Participant.

(** [checkins], keyed by [id]. *)
Module Checkins.
Record row : Type := mk {
  event_id : string;
  user_address : string;
  qr_data : string;
  checked_in_at : Z;
  is_validated : bool;
  validated_at : option Z;
  validated_by : option string
}.
End Checkins.

(** The legacy [events] table, keyed by [id]. *)
Module Events.
Record row : Type := mk {
  organizer_address : string;
  status : string
}.
End Events.

Record tables : Type := mk_tables {
  events_onchain : gmap Z EventsOnchain.row;
  events_metadata : gmap Z EventsMetadata.row;
  profiles : gmap string Profiles.row;
  participant : list Participant.row;
  checkins : gmap string Checkins.row;
  events : gmap string Events.row
}.

Definition with_events_metadata (m : gmap Z EventsMetadata.row) (t : tables) : tables :=
  {| events_onchain := events_onchain t; events_metadata := m;
     profiles := profiles t; participant := participant t;
     checkins := checkins t; events := events t |}.

Definition with_participant (p : list Participant.row) (t : tables) : tables :=
  {| events_onchain := events_onchain t; events_metadata := events_metadata t;
     profiles := profiles t; participant := p;
     checkins := checkins t; events := events t |}.

Definition with_checkins (c : gmap string Checkins.row) (t : tables) : tables :=
  {| events_onchain := events_onchain t; events_metadata := events_metadata t;
     profiles := profiles t; participant := participant t;
     checkins := c; events := events t |}.

End Schema.

(** ** handlers (Go) *)

Module Handlers.

Import Http.

(** [int64] arithmetic wraps around. *)
Definition wrap64 (z : Z) : Z := (z + 2 ^ 63) mod 2 ^ 64 - 2 ^ 63.

(** The zero [time.Time], in Unix seconds. *)
Definition zero_time : Z := -62135596800.

(** What [CallContract] and the ABI decoding of its result come to: the
    call fails, or it returns bytes that are empty, undecodable, or a
    [uint256]. *)
Inductive call_result : Type :=
| CallFailed (err : string)
| CallEmpty
| CallUndecodable (err : string)
| CallUint256 (v : Z).

(** What surrounds the handlers:
    - [db_error n]: the error with which the [n]-th statement sent to the
      database fails, if it does;
    - [int8_in]: the server's conversion of a text parameter to [bigint];
    - [time_now n]: [time.Now()] when [n] statements have been sent;
    - [client]: [h.client], [None] for a nil client, else its
      [CallContract] as a function of the target address, the method and
      its arguments;
    - [format_usdc]: the decimal text of a raw token balance divided by
      [10^6] ([big.Float.String], a floating-point rendering). *)
Record environment : Type := mk_environment {
  db_error : nat -> option string;
  int8_in : string -> option Z;
  time_now : nat -> Z;
  client : option (string -> string -> list string -> call_result);
  format_usdc : Z -> string
}.

(** The database, the number of statements sent to it, and the lines
    written with [log.Printf].  [CreateEvent], [ValidateCheckIn] and
    [UpdateEventStatus] write every line the source writes; of the other
    handlers the log holds the lines that report a failure the handler
    goes on after (their trace lines -- request received, query text,
    success notice -- are not kept). *)
Record world : Type := mk_world {
  db : Schema.tables;
  queries : nat;
  logged : list string
}.

(** The [error] of a database call. *)
Inductive result (A : Type) : Type :=
| Ok (a : A)
| ErrNoRows
| Err (e : string).
Arguments Ok {A} a.
Arguments ErrNoRows {A}.
Arguments Err {A} e.

(** [err.Error()] *)
Definition error_text {A : Type} (r : result A) : string :=
  match r with
  | Err e => e
  | _ => "no rows in result set"
  end.

(** A handler runs until it has written its response: a step either
    responds (and the handler returns) or continues with a value. *)
Inductive step (A : Type) : Type :=
| Respond (r : response)
| Continue (a : A).
Arguments Respond {A} r.
Arguments Continue {A} a.

Definition action (A : Type) : Type := world -> step A * world.

Definition continue {A : Type} (a : A) : action A := fun w => (Continue a, w).

(** [c.JSON(code, body); return] *)
Definition respond {A : Type} (code : Z) (body : json) : action A :=
  fun w => (Respond (JSON code body), w).

Definition then_ {A B : Type} (m : action A) (k : A -> action B) : action B :=
  fun w =>
    match m w with
    | (Continue a, w') => k a w'
    | (Respond r, w') => (Respond r, w')
    end.

(** A handler: an action whose last step responds. *)
Definition handler (m : action response) : world -> response * world :=
  fun w =>
    match m w with
    | (Continue r, w') => (r, w')
    | (Respond r, w') => (r, w')
    end.

(** [log.Printf(...)] *)
Definition Printf (line : string) : action unit :=
  fun w => (Continue tt, {| db := db w; queries := queries w;
                            logged := logged w ++ [line] |}).

Notation "'let?' x ':=' m 'in' k" := (then_ m (fun x => k))
  (at level 10, x name, m at level 100, k at level 200).
Notation "'do?' m 'in' k" := (then_ m (fun _ => k))
  (at level 10, m at level 100, k at level 200).

(** The text the binding library gives for a missing required field; no
    handler looks into it. *)
Definition binding_error (field : string) : string :=
  "Key: '" +:+ field +:+ "' Error:Field validation for '" +:+ field +:+
  "' failed on the 'required' tag".

(** [common.IsHexAddress]: forty hexadecimal digits after an optional
    [0x] or [0X]. *)
Definition is_hex_digit (c : Ascii.ascii) : bool :=
  let n := Ascii.nat_of_ascii c in
  ((48 <=? n) && (n <=? 57) || (97 <=? n) && (n <=? 102) ||
   (65 <=? n) && (n <=? 70))%nat.

Fixpoint is_hex (s : string) : bool :=
  match s with
  | EmptyString => true
  | String c rest => is_hex_digit c && is_hex rest
  end.

Definition has0xPrefix (s : string) : bool :=
  match s with
  | String "0"%char (String x _) => Ascii.eqb x "x"%char || Ascii.eqb x "X"%char
  | _ => false
  end.

Definition IsHexAddress (s : string) : bool :=
  let s := if has0xPrefix s then String.substring 2 (String.length s - 2) s else s in
  (String.length s =? 40)%nat && is_hex s.

(** The rows of [events_onchain eo JOIN events_metadata em ON eo.event_id =
    em.event_id], by event identifier. *)
Definition joined (t : Schema.tables)
  : list (Z * (Schema.EventsOnchain.row * Schema.EventsMetadata.row)) :=
  omap (fun '(event_id, eo) =>
          match Schema.events_metadata t !! event_id with
          | Some em => Some (event_id, (eo, em))
          | None => None
          end)
       (map_to_list (Schema.events_onchain t)).

(** [ORDER BY eo.event_id DESC] *)
Definition event_id_desc
    (a b : Z * (Schema.EventsOnchain.row * Schema.EventsMetadata.row)) : Prop :=
  fst b <= fst a.

#[global] Instance event_id_desc_dec : RelDecision event_id_desc :=
  fun a b => decide (fst b <= fst a).

(** What [Scan] fills from one row of the join. *)
Definition scan_detail (event_id : Z) (eo : Schema.EventsOnchain.row)
    (em : Schema.EventsMetadata.row) : Models.EventDetail.t :=
  {| Models.EventDetail.EventID := event_id;
     Models.EventDetail.VaultAddress := Schema.EventsOnchain.vault_address eo;
     Models.EventDetail.OrganizerAddress := Schema.EventsOnchain.organizer_address eo;
     Models.EventDetail.StakeAmount := Schema.EventsOnchain.stake_amount eo;
     Models.EventDetail.MaxParticipants := Schema.EventsOnchain.max_participant eo;
     Models.EventDetail.CurrentParticipants := 0;
     Models.EventDetail.RegistrationDeadline :=
       Schema.EventsOnchain.registration_deadline eo;
     Models.EventDetail.EventDate := Schema.EventsOnchain.event_date eo;
     Models.EventDetail.Title := Schema.EventsMetadata.title em;
     Models.EventDetail.Status := Schema.EventsMetadata.status em;
     Models.EventDetail.Description := Schema.EventsMetadata.description em;
     Models.EventDetail.ImageURL := Schema.EventsMetadata.image_url em;
     Models.EventDetail.OrganizerName := "" |}.

(** [event.CurrentParticipants = n] *)
Definition set_CurrentParticipants (n : Z) (d : Models.EventDetail.t)
  : Models.EventDetail.t :=
  {| Models.EventDetail.EventID := Models.EventDetail.EventID d;
     Models.EventDetail.VaultAddress := Models.EventDetail.VaultAddress d;
     Models.EventDetail.OrganizerAddress := Models.EventDetail.OrganizerAddress d;
     Models.EventDetail.StakeAmount := Models.EventDetail.StakeAmount d;
     Models.EventDetail.MaxParticipants := Models.EventDetail.MaxParticipants d;
     Models.EventDetail.CurrentParticipants := n;
     Models.EventDetail.RegistrationDeadline := Models.EventDetail.RegistrationDeadline d;
     Models.EventDetail.EventDate := Models.EventDetail.EventDate d;
     Models.EventDetail.Title := Models.EventDetail.Title d;
     Models.EventDetail.Status := Models.EventDetail.Status d;
     Models.EventDetail.Description := Models.EventDetail.Description d;
     Models.EventDetail.ImageURL := Models.EventDetail.ImageURL d;
     Models.EventDetail.OrganizerName := Models.EventDetail.OrganizerName d |}.

(** [UPDATE events_metadata SET status = s, updated_at = now WHERE
    event_id = id] *)
Definition set_status (s : string) (now : Z) (r : Schema.EventsMetadata.row)
  : Schema.EventsMetadata.row :=
  {| Schema.EventsMetadata.title := Schema.EventsMetadata.title r;
     Schema.EventsMetadata.description := Schema.EventsMetadata.description r;
     Schema.EventsMetadata.image_url := Schema.EventsMetadata.image_url r;
     Schema.EventsMetadata.status := s;
     Schema.EventsMetadata.updated_at := Some now |}.

(** [INSERT INTO events_metadata (event_id, title, description, image_url,
    status) ... ON CONFLICT (event_id) DO UPDATE SET] the four columns: a
    conflicting row keeps its [updated_at]. *)
Definition upsert_metadata (event_id : Z) (title description image_url status : string)
    (rows : gmap Z Schema.EventsMetadata.row) : gmap Z Schema.EventsMetadata.row :=
  <[event_id :=
      {| Schema.EventsMetadata.title := title;
         Schema.EventsMetadata.description := Some description;
         Schema.EventsMetadata.image_url := Some image_url;
         Schema.EventsMetadata.status := status;
         Schema.EventsMetadata.updated_at :=
           match rows !! event_id with
           | Some old => Schema.EventsMetadata.updated_at old
           | None => None
           end |}]> rows.

(** [UPDATE participant SET is_attend = true WHERE user_id = u] *)
Definition mark_attended (u : string) (r : Schema.Participant.row)
  : Schema.Participant.row :=
  if String.eqb (Schema.Participant.user_id r) u then
    {| Schema.Participant.event_id := Schema.Participant.event_id r;
       Schema.Participant.user_id := Schema.Participant.user_id r;
       Schema.Participant.is_attend := true;
       Schema.Participant.is_claim := Schema.Participant.is_claim r |}
  else r.

(** [UPDATE checkins SET is_validated, validated_at, validated_by] *)
Definition validate_row (is_valid : bool) (validated_at : Z) (validated_by : string)
    (r : Schema.Checkins.row) : Schema.Checkins.row :=
  {| Schema.Checkins.event_id := Schema.Checkins.event_id r;
     Schema.Checkins.user_address := Schema.Checkins.user_address r;
     Schema.Checkins.qr_data := Schema.Checkins.qr_data r;
     Schema.Checkins.checked_in_at := Schema.Checkins.checked_in_at r;
     Schema.Checkins.is_validated := is_valid;
     Schema.Checkins.validated_at := Some validated_at;
     Schema.Checkins.validated_by := Some validated_by |}.

(** What [Scan] fills from a returned [checkins] row; [validated_by] is
    scanned into a [string], which a [NULL] does not fit. *)
Definition scan_checkin (id : string) (r : Schema.Checkins.row)
  : result Models.CheckIn.t :=
  match Schema.Checkins.validated_by r with
  | None => Err "cannot scan NULL into *string"
  | Some by_ =>
      Ok {| Models.CheckIn.ID := id;
            Models.CheckIn.EventID := Schema.Checkins.event_id r;
            Models.CheckIn.UserAddress := Schema.Checkins.user_address r;
            Models.CheckIn.QRData := Schema.Checkins.qr_data r;
            Models.CheckIn.CheckedInAt := Schema.Checkins.checked_in_at r;
            Models.CheckIn.IsValidated := Schema.Checkins.is_validated r;
            Models.CheckIn.ValidatedAt := Schema.Checkins.validated_at r;
            Models.CheckIn.ValidatedBy := by_ |}
  end.

(** The decoded body of [CreateEvent]. *)
Record CreateEventRequest : Type := mk_CreateEventRequest {
  EventID : Z;
  Title : string;
  Description : string;
  ImageURL : string;
  OrganizerAddress : string
}.

(** The decoded body of [ConfirmSettlement]; a missing array is [None]. *)
Record ConfirmSettlementRequest : Type := mk_ConfirmSettlementRequest {
  TransactionHash : string;
  AttendedParticipants : option (list string)
}.

(** The query parameters of [GetEvents], after [strconv.Atoi]. *)
Record GetEventsQuery : Type := mk_GetEventsQuery {
  page : Z;
  limit : Z;
  status : string;
  organizer : string
}.

Section WithEnvironment.

Variable env : environment.

(** One statement sent through [h.db]; [run] is what the server does
    with it when it arrives.  Every statement is its own transaction. *)
Definition statement {A : Type} (run : Schema.tables -> result A * Schema.tables)
  : action (result A) :=
  fun w =>
    match db_error env (queries w) with
    | Some e =>
        (Continue (Err e),
         {| db := db w; queries := S (queries w); logged := logged w |})
    | None =>
        let (r, t) := run (db w) in
        (Continue r, {| db := t; queries := S (queries w); logged := logged w |})
    end.

(** A statement that only reads. *)
Definition read {A : Type} (run : Schema.tables -> result A) : action (result A) :=
  statement (fun t => (run t, t)).

(** [time.Now()] *)
Definition Now : action Z := fun w => (Continue (time_now env (queries w)), w).

(** A text parameter compared with a [bigint] column. *)
Definition as_int8 {A : Type} (text : string) (k : Z -> result A) : result A :=
  match int8_in env text with
  | Some id => k id
  | None => Err "invalid input syntax for type bigint"
  end.

(** *** event.go: CreateEvent *)

(** [c.ShouldBindJSON(&req)]: [None] is a body that does not decode;
    [binding:"required"] rejects a zero [EventID] and an empty [Title]. *)
Definition bind_CreateEvent (body : option CreateEventRequest)
  : result CreateEventRequest :=
  match body with
  | None => Err "invalid request body"
  | Some req =>
      if EventID req =? 0 then Err (binding_error "EventID")
      else if String.eqb (Title req) "" then Err (binding_error "Title")
      else Ok req
  end.

(** The join of [CreateEvent] and [GetEvent], [WHERE eo.event_id = id]. *)
Definition select_detail (id : Z) (t : Schema.tables) : result Models.EventDetail.t :=
  match Schema.events_onchain t !! id, Schema.events_metadata t !! id with
  | Some eo, Some em => Ok (scan_detail id eo em)
  | _, _ => ErrNoRows
  end.

(** The metadata [INSERT ... ON CONFLICT ... RETURNING]; the foreign key
    wants the on-chain row of the identifier. *)
Definition insert_metadata (id : Z) (req : CreateEventRequest) (t : Schema.tables)
  : result Models.EventMetadata.t * Schema.tables :=
  match Schema.events_onchain t !! id with
  | None =>
      (Err "violates foreign key constraint events_metadata_event_id_fkey", t)
  | Some _ =>
      (Ok {| Models.EventMetadata.EventID := id;
             Models.EventMetadata.Title := Title req;
             Models.EventMetadata.Status := "REGISTRATION_OPEN";
             Models.EventMetadata.Description := Some (Description req);
             Models.EventMetadata.ImageURL := Some (ImageURL req) |},
       Schema.with_events_metadata
         (upsert_metadata id (Title req) (Description req) (ImageURL req)
            "REGISTRATION_OPEN" (Schema.events_metadata t)) t)
  end.

(** [func (h *EventHandler) CreateEvent(c *gin.Context)], the variant
    that leaves the on-chain row to the indexer. *)
Definition CreateEvent (body : option CreateEventRequest) : world -> response * world :=
  handler
    (let? req :=
       match bind_CreateEvent body with
       | Ok req => continue req
       | r => respond StatusBadRequest (H_error (error_text r))
       end in
     do? Printf ("Creating event metadata for EventID: " +:+ pretty (EventID req) +:+
                 ", Title: " +:+ Title req +:+ ", Organizer: " +:+
                 OrganizerAddress req) in
     let? r :=
       read (fun t =>
         Ok (bool_decide
               (is_Some (Schema.events_onchain t !! wrap64 (EventID req + 1))))) in
     let? onchainExists :=
       match r with
       | Ok b => continue b
       | _ => respond StatusInternalServerError
                (H_error_details "Failed to verify on-chain event data" (error_text r))
       end in
     if negb onchainExists then
       respond StatusBadRequest
         (H_error_event
            "On-chain event data not found. Make sure the smart contract transaction is confirmed and indexed."
            (EventID req))
     else
       let? r := statement (insert_metadata (wrap64 (EventID req + 1)) req) in
       let? metadata :=
         match r with
         | Ok m => continue m
         | _ =>
             do? Printf ("Failed to create event metadata: " +:+ error_text r) in
             respond StatusInternalServerError
               (H_error_details "Failed to create event metadata" (error_text r))
         end in
       let? r := read (select_detail (EventID req)) in
       match r with
       | Ok eventDetail =>
           do? Printf ("Successfully created complete event for EventID: " +:+
                       pretty (EventID req)) in
           continue (JSON StatusCreated (Detail eventDetail))
       | _ =>
           do? Printf ("Failed to retrieve complete event details: " +:+ error_text r) in
           continue (JSON StatusCreated (Metadata metadata))
       end).

(** *** event.go: GetEvents *)

(** [h.getParticipantCountFromContract(vaultAddress)] *)
Definition getParticipantCountFromContract (vaultAddress : string) : result Z :=
  match client env with
  | None => Err "ethereum client not initialized"
  | Some CallContract =>
      match CallContract vaultAddress "getParticipantCount" [] with
      | CallFailed e => Err ("failed to call getParticipantCount: " +:+ e)
      | CallEmpty =>
          Err "failed to unpack result: abi: attempting to unmarshal an empty string while arguments are expected"
      | CallUndecodable e => Err ("failed to unpack result: " +:+ e)
      | CallUint256 participantCount => Ok participantCount
      end
  end.

(** The [WHERE] clause built from the [status] and [organizer]
    parameters. *)
Definition selected (q : GetEventsQuery)
    (row : Z * (Schema.EventsOnchain.row * Schema.EventsMetadata.row)) : bool :=
  (String.eqb (status q) "" ||
   String.eqb (Schema.EventsMetadata.status (snd (snd row))) (status q)) &&
  (String.eqb (organizer q) "" ||
   String.eqb (Schema.EventsOnchain.organizer_address (fst (snd row))) (organizer q)).

(** [ORDER BY eo.event_id DESC LIMIT limit OFFSET offset] *)
Definition select_events (q : GetEventsQuery) (t : Schema.tables)
  : result (list (Z * (Schema.EventsOnchain.row * Schema.EventsMetadata.row))) :=
  let offset := wrap64 (wrap64 (page q - 1) * limit q) in
  if limit q <? 0 then Err "LIMIT must not be negative"
  else if offset <? 0 then Err "OFFSET must not be negative"
  else
    Ok (take (Z.to_nat (limit q))
          (drop (Z.to_nat offset)
             (merge_sort event_id_desc
                (List.filter (selected q) (joined t))))).

(** [SELECT COUNT( * )] with the same [WHERE] clause. *)
Definition count_events (q : GetEventsQuery) (t : Schema.tables) : result Z :=
  Ok (Z.of_nat (length (List.filter (selected q) (joined t)))).

(** The participant count put into one event of the listing. *)
Definition current_participants (event : Models.EventDetail.t) : action Z :=
  if negb (String.eqb (Models.EventDetail.VaultAddress event) "") then
    match getParticipantCountFromContract (Models.EventDetail.VaultAddress event) with
    | Ok participantCount => continue (wrap64 participantCount)
    | r =>
        do? Printf ("Failed to get participant count for event " +:+
                    pretty (Models.EventDetail.EventID event) +:+ ": " +:+
                    error_text r) in
        continue 0
    end
  else continue 0.

(** [for rows.Next() { ... events = append(events, event) }] *)
Fixpoint scan_events
    (rows : list (Z * (Schema.EventsOnchain.row * Schema.EventsMetadata.row)))
    (events : list Models.EventDetail.t) : action (list Models.EventDetail.t) :=
  match rows with
  | [] => continue events
  | (event_id, (eo, em)) :: rest =>
      let event := scan_detail event_id eo em in
      let? currentParticipants := current_participants event in
      scan_events rest (events ++ [set_CurrentParticipants currentParticipants event])
  end.

(** [func (h *EventHandler) GetEvents(c *gin.Context)] *)
Definition GetEvents (q : GetEventsQuery) : world -> response * world :=
  handler
    (let? r := read (select_events q) in
     let? rows :=
       match r with
       | Ok rows => continue rows
       | _ => respond StatusInternalServerError
                (H_error_details "Database error" (error_text r))
       end in
     let? events := scan_events rows [] in
     let? r := read (count_events q) in
     match r with
     | Ok total => continue (JSON StatusOK (H_events events total (page q) (limit q)))
     | _ => respond StatusInternalServerError
              (H_error_details "Failed to get total count" (error_text r))
     end).

(** *** event.go: SettleEvent and ConfirmSettlement *)

(** [UPDATE events_metadata SET status = 'SETTLED', updated_at = $1 WHERE
    event_id = $2] *)
Definition update_settled (now : Z) (eventID : string) (t : Schema.tables)
  : result unit * Schema.tables :=
  match int8_in env eventID with
  | None => (Err "invalid input syntax for type bigint", t)
  | Some id =>
      (Ok tt,
       Schema.with_events_metadata
         (alter (set_status "SETTLED" now) id (Schema.events_metadata t)) t)
  end.

(** [func (h *EventHandler) SettleEvent(c *gin.Context)];
    [eventID] is [c.Param("id")]. *)
Definition SettleEvent (eventID : string) : world -> response * world :=
  handler
    (let? r :=
       read (fun t =>
         as_int8 eventID (fun id =>
           match Schema.events_metadata t !! id with
           | Some row => Ok (Schema.EventsMetadata.status row)
           | None => ErrNoRows
           end)) in
     let? status :=
       match r with
       | Ok status => continue status
       | ErrNoRows => respond StatusNotFound (H_error "Event not found")
       | Err _ => respond StatusInternalServerError (H_error "Database error")
       end in
     if negb (String.eqb status "LIVE") then
       respond StatusBadRequest (H_error "Event is not live")
     else
       let? now := Now in
       let? r := statement (update_settled now eventID) in
       match r with
       | Ok _ => continue (JSON StatusOK (H_message "Event settled successfully"))
       | _ => respond StatusInternalServerError (H_error "Failed to update event status")
       end).

(** [c.ShouldBindJSON(&req)] of [ConfirmSettlement]: both fields are
    required. *)
Definition bind_ConfirmSettlement (body : option ConfirmSettlementRequest)
  : result ConfirmSettlementRequest :=
  match body with
  | None => Err "invalid request body"
  | Some req =>
      if String.eqb (TransactionHash req) "" then Err (binding_error "TransactionHash")
      else match AttendedParticipants req with
           | None => Err (binding_error "AttendedParticipants")
           | Some _ => Ok req
           end
  end.

(** [func (h *EventHandler) ConfirmSettlement(c *gin.Context)] *)
Definition ConfirmSettlement (eventID : string) (body : option ConfirmSettlementRequest)
  : world -> response * world :=
  handler
    (let? req :=
       match bind_ConfirmSettlement body with
       | Ok req => continue req
       | r => respond StatusBadRequest (H_error (error_text r))
       end in
     let? now := Now in
     let? r := statement (update_settled now eventID) in
     match r with
     | Ok _ =>
         continue (JSON StatusOK
                     (H_confirmed "Event settlement confirmed successfully"
                        (TransactionHash req)))
     | _ => respond StatusInternalServerError
              (H_error_details "Failed to update event status" (error_text r))
     end).

(** *** checkin.go: ValidateCheckIn *)

Definition bind_ValidateCheckIn (body : option Models.ValidateCheckInRequest.t)
  : result Models.ValidateCheckInRequest.t :=
  match body with
  | None => Err "invalid request body"
  | Some req =>
      if String.eqb (Models.ValidateCheckInRequest.CheckInID req) ""
      then Err (binding_error "CheckInID")
      else Ok req
  end.

(** [UPDATE checkins SET ... WHERE id = $4 RETURNING ...] *)
Definition update_checkin (is_valid : bool) (validatedAt : Z) (organizerAddress : string)
    (id : string) (t : Schema.tables) : result Models.CheckIn.t * Schema.tables :=
  match Schema.checkins t !! id with
  | None => (ErrNoRows, t)
  | Some row =>
      let row' := validate_row is_valid validatedAt organizerAddress row in
      (scan_checkin id row',
       Schema.with_checkins (<[id := row']> (Schema.checkins t)) t)
  end.

(** [UPDATE participant SET is_attend = true WHERE user_id = $1]; the
    result is [RowsAffected()]. *)
Definition update_participant (userID : string) (t : Schema.tables)
  : result Z * Schema.tables :=
  (Ok (Z.of_nat
         (length (List.filter
                    (fun r => String.eqb (Schema.Participant.user_id r) userID)
                    (Schema.participant t)))),
   Schema.with_participant (map (mark_attended userID) (Schema.participant t)) t).

(** [INSERT INTO participant (event_id, user_id, is_attend, is_claim)
    VALUES ($1, $2, true, false)], under the unique and foreign keys of
    the table. *)
Definition insert_participant (eventID userID : string) (t : Schema.tables)
  : result unit * Schema.tables :=
  match int8_in env eventID with
  | None => (Err "invalid input syntax for type bigint", t)
  | Some id =>
      if existsb (fun r => Schema.Participant.event_id r =? id) (Schema.participant t)
      then (Err "duplicate key value violates unique constraint participant_event_id_key",
            t)
      else if existsb (fun r => String.eqb (Schema.Participant.user_id r) userID)
                (Schema.participant t)
      then (Err "duplicate key value violates unique constraint participant_user_id_key",
            t)
      else if negb (bool_decide (is_Some (Schema.events_onchain t !! id)))
      then (Err "violates foreign key constraint participant_event_id_fkey", t)
      else
        (Ok tt,
         Schema.with_participant
           (Schema.participant t ++
            [{| Schema.Participant.event_id := id;
                Schema.Participant.user_id := userID;
                Schema.Participant.is_attend := true;
                Schema.Participant.is_claim := false |}]) t)
  end.

(** The block under [if req.IsValid]: the attendance mark is carried to
    the [participant] table; each of its five ways out writes one log
    line, a warning for the three failures and a notice for the two
    successes. *)
Definition propagate_attendance (checkin : Models.CheckIn.t) : action unit :=
  let? r :=
    read (fun t =>
      match Schema.profiles t !! Models.CheckIn.UserAddress checkin with
      | Some row => Ok (Schema.Profiles.id row)
      | None => ErrNoRows
      end) in
  match r with
  | Ok userID =>
      let? r := statement (update_participant userID) in
      match r with
      | Ok rowsAffected =>
          if rowsAffected =? 0 then
            let? r :=
              statement (insert_participant (Models.CheckIn.EventID checkin) userID) in
            match r with
            | Ok _ =>
                Printf ("Successfully inserted participant record: event " +:+
                        Models.CheckIn.EventID checkin +:+ ", user " +:+ userID +:+
                        " marked as attended")
            | _ =>
                Printf ("Warning: Failed to insert participant record for event " +:+
                        Models.CheckIn.EventID checkin +:+ ", user " +:+ userID +:+
                        ": " +:+ error_text r)
            end
          else
            Printf ("Successfully updated participant record: user " +:+ userID +:+
                    " marked as attended")
      | _ =>
          Printf ("Warning: Failed to update participant record for user " +:+
                  userID +:+ ": " +:+ error_text r)
      end
  | _ =>
      Printf ("Warning: Could not find user profile for wallet address " +:+
              Models.CheckIn.UserAddress checkin +:+ ": " +:+ error_text r)
  end.

(** [func (h *CheckinHandler) ValidateCheckIn(c *gin.Context)];
    [user_address] is [c.GetString("user_address")]. *)
Definition ValidateCheckIn (user_address : string)
    (body : option Models.ValidateCheckInRequest.t) : world -> response * world :=
  handler
    (let? req :=
       match bind_ValidateCheckIn body with
       | Ok req => continue req
       | r => respond StatusBadRequest (H_error (error_text r))
       end in
     let organizerAddress := user_address in
     if String.eqb organizerAddress "" then
       respond StatusUnauthorized (H_error "Unauthorized")
     else
       let? r :=
         read (fun t =>
           match Schema.checkins t !! Models.ValidateCheckInRequest.CheckInID req with
           | Some row => Ok (Schema.Checkins.event_id row)
           | None => ErrNoRows
           end) in
       let? eventID :=
         match r with
         | Ok eventID => continue eventID
         | ErrNoRows => respond StatusNotFound (H_error "Check-in not found")
         | Err _ => respond StatusInternalServerError (H_error "Database error")
         end in
       let? r :=
         read (fun t =>
           match Schema.events t !! eventID with
           | Some row => Ok (Schema.Events.organizer_address row)
           | None => ErrNoRows
           end) in
       let? organizer :=
         match r with
         | Ok organizer => continue organizer
         | _ => respond StatusInternalServerError (H_error "Database error")
         end in
       if negb (String.eqb organizer organizerAddress) then
         respond StatusForbidden (H_error "Not authorized to validate this check-in")
       else
         let? validatedAt :=
           if Models.ValidateCheckInRequest.IsValid req then Now
           else continue zero_time in
         let? r :=
           statement
             (update_checkin (Models.ValidateCheckInRequest.IsValid req) validatedAt
                organizerAddress (Models.ValidateCheckInRequest.CheckInID req)) in
         let? checkin :=
           match r with
           | Ok checkin => continue checkin
           | _ => respond StatusInternalServerError (H_error "Failed to update check-in")
           end in
         do? (if Models.ValidateCheckInRequest.IsValid req
              then propagate_attendance checkin
              else continue tt) in
         continue (JSON StatusOK (CheckIn checkin))).

(** *** user.go: GetProfile *)

(** The USDC contract on Base Sepolia. *)
Definition usdcAddress : string := "0x036CbD53842c5426634e7929541eC2318f3dCF7e".

(** [h.getUSDCBalanceFromContract(walletAddress)] *)
Definition getUSDCBalanceFromContract (walletAddress : string) : result string :=
  match client env with
  | None => Err "ethereum client not initialized"
  | Some CallContract =>
      if negb (IsHexAddress walletAddress) then
        Err ("invalid wallet address: " +:+ walletAddress)
      else
        match CallContract usdcAddress "balanceOf" [walletAddress] with
        | CallFailed e => Err ("failed to call balanceOf: " +:+ e)
        | CallEmpty => Err "empty result from contract call"
        | CallUndecodable e => Err ("failed to unpack balanceOf result: " +:+ e)
        | CallUint256 balance => Ok (format_usdc env balance)
        end
  end.

(** [func (h *UserHandler) GetProfile(c *gin.Context)] *)
Definition GetProfile (walletAddress : string) : world -> response * world :=
  handler
    (let? r :=
       read (fun t =>
         match Schema.profiles t !! walletAddress with
         | Some row => Ok row
         | None => ErrNoRows
         end) in
     let? profile :=
       match r with
       | Ok profile => continue profile
       | ErrNoRows => respond StatusNotFound (H_error "Profile not found")
       | Err e => respond StatusInternalServerError (H_error_details "Database error" e)
       end in
     let? balance :=
       match getUSDCBalanceFromContract walletAddress with
       | Ok usdcBalance => continue usdcBalance
       | r =>
           do? Printf ("Failed to get USDC balance for " +:+ walletAddress +:+ ": " +:+
                       error_text r) in
           continue "0"
       end in
     continue (JSON StatusOK
                 (H_profile (Schema.Profiles.id profile) walletAddress
                    (Schema.Profiles.name profile) (Schema.Profiles.email profile)
                    balance))).

End WithEnvironment.

(** *** Vocabulary for the properties of the handlers *)

(** The two kinds of line the propagation writes. *)
Definition is_warning (line : string) : bool := String.prefix "Warning: " line.

Definition is_notice (line : string) : bool := String.prefix "Successfully " line.

(** What has become of the attendance mark after [propagate_attendance]:
    either a [participant] row of the user carries it and the one line
    logged is the notice of it, or the one line logged is a warning and
    the table is as it was. *)
Definition carried_or_logged (checkin : Models.CheckIn.t) (w w' : world) : Prop :=
  (exists p r line,
     Schema.profiles (db w) !! Models.CheckIn.UserAddress checkin = Some p /\
     In r (Schema.participant (db w')) /\
     Schema.Participant.user_id r = Schema.Profiles.id p /\
     Schema.Participant.is_attend r = true /\
     logged w' = logged w ++ [line] /\
     is_notice line = true) \/
  (exists line,
     logged w' = logged w ++ [line] /\
     is_warning line = true /\
     Schema.participant (db w') = Schema.participant (db w)).

(** The events of a listing whose contract call fails report no
    participant. *)
Definition degraded_counts (env : environment) (events : list Models.EventDetail.t)
  : Prop :=
  Forall (fun event =>
            (exists e, getParticipantCountFromContract env
                         (Models.EventDetail.VaultAddress event) = Err e) ->
            Models.EventDetail.CurrentParticipants event = 0) events.

End Handlers.

(** ** Sample servers and data *)

Module Sample.

Import DatabaseService.

(** A server that accepts every statement. *)
Definition calm : server :=
  {| pg_error := fun _ _ => None;
     pg_now := fun _ => "2025-01-01 00:00:00+00";
     onchain_stamps := fun now => (Some now, Some now);
     metadata_defaults := EventMetadata.mk None None None None None None None None
                            (Some "REGISTRATION_OPEN") (Some 0) (Some false) (Some false)
                            (Some 0) (Some 0) None None |}.

(** A server whose [events_onchain.transaction_hash] is [NOT NULL]. *)
Definition strict : server :=
  {| pg_error := fun _ s =>
       match s with
       | UPSERT_ONCHAIN v =>
           match EventOnchain.transaction_hash v with
           | Some _ => None
           | None =>
               Some "null value in column transaction_hash violates not-null constraint"
           end
       | _ => None
       end;
     pg_now := pg_now calm;
     onchain_stamps := onchain_stamps calm;
     metadata_defaults := metadata_defaults calm |}.

(** A server that loses the metadata [INSERT]. *)
Definition flaky : server :=
  {| pg_error := fun _ s =>
       match s with
       | INSERT_METADATA _ _ _ => Some "connection terminated unexpectedly"
       | _ => None
       end;
     pg_now := pg_now calm;
     onchain_stamps := onchain_stamps calm;
     metadata_defaults := metadata_defaults calm |}.

(** The indexer event of the transaction [hash] for the event [event_id]. *)
Definition delivery (hash : option string) (event_id : string) : EventOnchain.t :=
  {| EventOnchain.vid := Some 7;
     EventOnchain.block := Some 31337;
     EventOnchain.id := Some "0x01-0";
     EventOnchain.block_number := Some 31337;
     EventOnchain.timestamp := Some 1735689600;
     EventOnchain.transaction_hash := hash;
     EventOnchain.contract_id := Some "0xfactory";
     EventOnchain.event_id := Some event_id;
     EventOnchain.vault := Some "0xvault";
     EventOnchain.organizer := Some "0xorganizer";
     EventOnchain.stake_amount := Some "1000000";
     EventOnchain.max_participant := Some 10;
     EventOnchain.registration_deadline := Some 1735776000;
     EventOnchain.event_date := Some 1735862400;
     EventOnchain._gs_chain := Some "base-sepolia";
     EventOnchain._gs_gid := Some "gid";
     EventOnchain.created_at := None;
     EventOnchain.updated_at := None |}.

Definition no_tables : tables :=
  {| events_onchain := []; events_metadata := ∅; profiles := ∅ |}.

Definition fresh : world :=
  {| committed := no_tables; transaction := None; sent := [] |}.

(** The on-chain row of event 42 is stored, its metadata row is not. *)
Definition indexed_only : world :=
  {| committed := {| events_onchain := [delivery (Some "0xaa") "42"];
                     events_metadata := ∅; profiles := ∅ |};
     transaction := None; sent := [] |}.

(** Ten deliveries; the fourth has no transaction hash. *)
Definition batch : list EventOnchain.t :=
  [ delivery (Some "0xa1") "1"; delivery (Some "0xa2") "2";
    delivery (Some "0xa3") "3"; delivery None "4";
    delivery (Some "0xa5") "5"; delivery (Some "0xa6") "6";
    delivery (Some "0xa7") "7"; delivery (Some "0xa8") "8";
    delivery (Some "0xa9") "9"; delivery (Some "0xaa") "10" ].

(** The same ten deliveries, a [null] in place of the fourth. *)
Definition batch_with_null : list (option EventOnchain.t) :=
  [ Some (delivery (Some "0xa1") "1"); Some (delivery (Some "0xa2") "2");
    Some (delivery (Some "0xa3") "3"); None;
    Some (delivery (Some "0xa5") "5"); Some (delivery (Some "0xa6") "6");
    Some (delivery (Some "0xa7") "7"); Some (delivery (Some "0xa8") "8");
    Some (delivery (Some "0xa9") "9"); Some (delivery (Some "0xaa") "10") ].

Definition lacks_hash (ev : EventOnchain.t) : bool :=
  match EventOnchain.transaction_hash ev with
  | Some _ => false
  | None => true
  end.

End Sample.

(** ** Sample environment and data for the Go handlers *)

Module GoSample.

Import Handlers.

(** The identifiers the sample uses, as the server reads them. *)
Definition int8_of_text (s : string) : option Z :=
  if String.eqb s "7" then Some 7
  else if String.eqb s "42" then Some 42
  else None.

(** A node that refuses every call. *)
Definition node_down (to method : string) (args : list string) : call_result :=
  CallFailed "dial tcp: connection refused".

(** A database that answers every statement, a node that is down. *)
Definition offline : environment :=
  {| db_error := fun _ => None;
     int8_in := int8_of_text;
     time_now := fun n => 1735689600 + Z.of_nat n;
     client := Some node_down;
     format_usdc := fun _ => "0" |}.

(** The same, with a database that loses the fourth statement and every
    later one. *)
Definition degraded : environment :=
  {| db_error := fun n => if (3 <=? n)%nat then Some "connection reset by peer" else None;
     int8_in := int8_of_text;
     time_now := time_now offline;
     client := Some node_down;
     format_usdc := format_usdc offline |}.

Definition onchain (vault : string) : Schema.EventsOnchain.row :=
  {| Schema.EventsOnchain.vault_address := vault;
     Schema.EventsOnchain.organizer_address := "0xorganizer";
     Schema.EventsOnchain.stake_amount := "1000000";
     Schema.EventsOnchain.max_participant := 10;
     Schema.EventsOnchain.registration_deadline := 1735776000;
     Schema.EventsOnchain.event_date := 1735862400 |}.

Definition metadata (status : string) : Schema.EventsMetadata.row :=
  {| Schema.EventsMetadata.title := "Meetup";
     Schema.EventsMetadata.description := None;
     Schema.EventsMetadata.image_url := None;
     Schema.EventsMetadata.status := status;
     Schema.EventsMetadata.updated_at := None |}.

Definition alice : Schema.Profiles.row :=
  {| Schema.Profiles.id := "5b1c1f0e-0000-4000-8000-000000000001";
     Schema.Profiles.name := Some "Alice";
     Schema.Profiles.email := None |}.

Definition alice_wallet : string := "0x00000000000000000000000000000000000a11ce".

Definition checkin_of_alice : Schema.Checkins.row :=
  {| Schema.Checkins.event_id := "7";
     Schema.Checkins.user_address := alice_wallet;
     Schema.Checkins.qr_data := "qr";
     Schema.Checkins.checked_in_at := 1735689000;
     Schema.Checkins.is_validated := false;
     Schema.Checkins.validated_at := None;
     Schema.Checkins.validated_by := None |}.

(** Events 7 and 42 are indexed; 7 has metadata and is open for
    registration; Alice has a profile and a check-in for event 7. *)
Definition stored : Schema.tables :=
  {| Schema.events_onchain := {[ 7 := onchain "0xvault7"; 42 := onchain "0xvault42" ]};
     Schema.events_metadata := {[ 7 := metadata "REGISTRATION_OPEN" ]};
     Schema.profiles := {[ alice_wallet := alice ]};
     Schema.participant := [];
     Schema.checkins := {[ "c1" := checkin_of_alice ]};
     Schema.events :=
       {[ "7" := {| Schema.Events.organizer_address := "0xorganizer";
                    Schema.Events.status := "active" |} ]} |}.

Definition start : world := {| db := stored; queries := 0; logged := [] |}.

Definition create_41 : CreateEventRequest :=
  {| EventID := 41; Title := "Meetup"; Description := "Monthly meetup";
     ImageURL := ""; OrganizerAddress := "0xorganizer" |}.

Definition confirm : ConfirmSettlementRequest :=
  {| TransactionHash := "0xsettle"; AttendedParticipants := Some [] |}.

Definition validate_c1 : Models.ValidateCheckInRequest.t :=
  {| Models.ValidateCheckInRequest.CheckInID := "c1";
     Models.ValidateCheckInRequest.IsValid := true |}.

Definition first_page : GetEventsQuery :=
  {| page := 1; limit := 10; status := ""; organizer := "" |}.

End GoSample.

(** ** models/EventMetadata.js: the other methods *)

Module EventMetadataMethods.

Import EventMetadata.

(** What [validate()] returns. *)
Record validation : Type := mk_validation {
  isValid : bool;
  errors : list string
}.

(** [!v] for a nullable string *)
Definition not_string (v : option string) : bool :=
  match v with
  | Some s => negb (Js.truthy_string s)
  | None => true
  end.

(** [if (c) errors.push(e)] *)
Definition push_when (c : bool) (e : string) (errors : list string) : list string :=
  if c then errors ++ [e] else errors.

Definition validStatuses : list string :=
  [REGISTRATION_OPEN; REGISTRATION_CLOSED; LIVE; SETTLED; VOIDED].

(** [l.includes(v)] *)
Definition includes (l : list string) (v : option string) : bool :=
  match v with
  | Some s => existsb (String.eqb s) l
  | None => false
  end.

(** [validate()] *)
Definition validate (this : t) : validation :=
  let errors := [] in
  let errors := push_when (not_string (event_id this)) "event_id is required" errors in
  let errors := push_when (not_string (title this)) "title is required" errors in
  let errors :=
    push_when (not_string (organizer_profile_id this))
      "organizer_profile_id is required" errors in
  let errors :=
    push_when (negb (includes validStatuses (status this)))
      ("Invalid status. Must be one of: " +:+ String.concat ", " validStatuses)
      errors in
  {| isValid := (length errors =? 0)%nat; errors := errors |}.

(** [markAsDepositedToYield()] *)
Definition markAsDepositedToYield (iso_now : string) (this : t) : t :=
  {| event_id := event_id this; title := title this; description := description this;
     image_url := image_url this; organizer_profile_id := organizer_profile_id this;
     location := location this; category := category this; tags := tags this;
     status := status this;
     current_participants := current_participants this;
     deposited_to_yield := Some true;
     event_settled := event_settled this;
     total_yield_earned := total_yield_earned this;
     total_net_yield := total_net_yield this;
     created_at := created_at this;
     updated_at := Some iso_now |}.

(** [markAsSettled(totalYieldEarned, totalNetYield)] *)
Definition markAsSettled (totalYieldEarned totalNetYield : option Z) (iso_now : string)
    (this : t) : t :=
  {| event_id := event_id this; title := title this; description := description this;
     image_url := image_url this; organizer_profile_id := organizer_profile_id this;
     location := location this; category := category this; tags := tags this;
     status := Some SETTLED;
     current_participants := current_participants this;
     deposited_to_yield := deposited_to_yield this;
     event_settled := Some true;
     total_yield_earned := totalYieldEarned;
     total_net_yield := totalNetYield;
     created_at := created_at this;
     updated_at := Some iso_now |}.

(** [static fromApiRequest(eventId, requestData)]: the object handed to
    the constructor has the eight properties listed and no other. *)
Definition fromApiRequest (eventId : option string) (requestData : t) : t :=
  new {| event_id := eventId;
         title := title requestData;
         description := description requestData;
         image_url := image_url requestData;
         organizer_profile_id := organizer_profile_id requestData;
         location := location requestData;
         category := category requestData;
         tags := Js.or_else Js.truthy_array (tags requestData) [];
         status := None;
         current_participants := None;
         deposited_to_yield := None;
         event_settled := None;
         total_yield_earned := None;
         total_net_yield := None;
         created_at := None;
         updated_at := None |}.

(** The calls that change an instance, each with what the clock shows
    when it is made. *)
Inductive method : Type :=
| UpdateStatusBasedOnTime (date_now : Z) (iso_now : string)
    (registrationDeadline eventDate : Z)
| MarkAsDepositedToYield (iso_now : string)
| MarkAsSettled (totalYieldEarned totalNetYield : option Z) (iso_now : string)
| IncrementParticipantCount (iso_now : string)
| DecrementParticipantCount (iso_now : string).

Definition invoke (m : method) (this : t) : t :=
  match m with
  | UpdateStatusBasedOnTime date_now iso_now registrationDeadline eventDate =>
      updateStatusBasedOnTime date_now iso_now registrationDeadline eventDate this
  | MarkAsDepositedToYield iso_now => markAsDepositedToYield iso_now this
  | MarkAsSettled totalYieldEarned totalNetYield iso_now =>
      markAsSettled totalYieldEarned totalNetYield iso_now this
  | IncrementParticipantCount iso_now => incrementParticipantCount iso_now this
  | DecrementParticipantCount iso_now => decrementParticipantCount iso_now this
  end.

Definition invoke_all (ms : list method) (this : t) : t :=
  fold_left (fun o m => invoke m o) ms this.

End EventMetadataMethods.

(** ** models/EventOnchain.js and models/Event.js: the time and capacity
    checks *)

Module EventMethods.

(** A [Date]: its time value in milliseconds, [None] for an invalid
    date. *)
Record Date : Type := mk_Date {
  getTime : option Z
}.

(** [new Date(value)]: a time value beyond 8.64e15 ms on either side
    makes an invalid date. *)
Definition new_Date (value : Z) : Date :=
  {| getTime := if Z.abs value <=? 8640000000000000 then Some value else None |}.

(** [EventOnchain.getRegistrationDeadline()] *)
Definition getRegistrationDeadline (this : EventOnchain.t) : option Date :=
  match Js.or_null Js.truthy_number (EventOnchain.registration_deadline this) with
  | Some registration_deadline => Some (new_Date (registration_deadline * 1000))
  | None => None
  end.

(** [EventOnchain.getEventDate()] *)
Definition getEventDate (this : EventOnchain.t) : option Date :=
  match Js.or_null Js.truthy_number (EventOnchain.event_date this) with
  | Some event_date => Some (new_Date (event_date * 1000))
  | None => None
  end.

(** [Event.isRegistrationOpen()]; a comparison with [NaN] is false. *)
Definition isRegistrationOpen (date_now : Z) (this : Event.t) : bool :=
  let now := date_now in
  match getRegistrationDeadline (Event.onchain this) with
  | Some deadline =>
      match getTime deadline with
      | Some time => now <? time
      | None => false
      end
  | None => false
  end.

(** [Event.isEventFull()] *)
Definition isEventFull (this : Event.t) : bool :=
  Js.to_number (Event.max_participants this) <=?
  Js.to_number (EventMetadata.current_participants (Event.metadata this)).

(** [Event.canUserRegister()] *)
Definition canUserRegister (date_now : Z) (this : Event.t) : bool :=
  isRegistrationOpen date_now this && negb (isEventFull this) &&
  match EventMetadata.status (Event.metadata this) with
  | Some status => String.eqb status "REGISTRATION_OPEN"
  | None => false
  end.

End EventMethods.

(** ** Sample instances *)

Module ModelCases.

(** The data of a metadata object that has no property. *)
Definition no_properties : EventMetadata.t :=
  EventMetadata.mk None None None None None None None None None None None None
    None None None None.

(** Event 42 as indexed, with no metadata row. *)
Definition indexed : Event.t :=
  Event.new (Sample.delivery (Some "0xaa") "42") no_properties.

(** An indexer event that reports no capacity. *)
Definition no_seats : EventOnchain.t :=
  {| EventOnchain.vid := Some 8;
     EventOnchain.block := Some 31338;
     EventOnchain.id := Some "0x02-0";
     EventOnchain.block_number := Some 31338;
     EventOnchain.timestamp := Some 1735689700;
     EventOnchain.transaction_hash := Some "0xcc";
     EventOnchain.contract_id := Some "0xfactory";
     EventOnchain.event_id := Some "44";
     EventOnchain.vault := Some "0xvault44";
     EventOnchain.organizer := Some "0xorganizer";
     EventOnchain.stake_amount := Some "1000000";
     EventOnchain.max_participant := Some 0;
     EventOnchain.registration_deadline := Some 1735776000;
     EventOnchain.event_date := Some 1735862400;
     EventOnchain._gs_chain := Some "base-sepolia";
     EventOnchain._gs_gid := Some "gid";
     EventOnchain.created_at := None;
     EventOnchain.updated_at := None |}.

End ModelCases.

(** ** Further sample data for the Go handlers *)

Module GoCases.

Import Handlers.

(** The sample tables with event 7 live. *)
Definition live : world :=
  {| db := Schema.with_events_metadata {[ 7 := GoSample.metadata "LIVE" ]} GoSample.stored;
     queries := 0; logged := [] |}.

(** A request for the metadata of event 7. *)
Definition create_7 : CreateEventRequest :=
  {| EventID := 7; Title := "Meetup"; Description := ""; ImageURL := "";
     OrganizerAddress := "0xorganizer" |}.

(** A request with the identifier 0, and tables in which event 1 is
    indexed and has no metadata. *)
Definition create_0 : CreateEventRequest :=
  {| EventID := 0; Title := "First"; Description := ""; ImageURL := "";
     OrganizerAddress := "0xorganizer" |}.

Definition first_indexed : world :=
  {| db := {| Schema.events_onchain := {[ 1 := GoSample.onchain "0xvault1" ]};
              Schema.events_metadata := ∅;
              Schema.profiles := ∅;
              Schema.participant := [];
              Schema.checkins := ∅;
              Schema.events := ∅ |};
     queries := 0; logged := [] |}.


(** The sample tables with event 7 settled. *)
Definition settled : world :=
  {| db := Schema.with_events_metadata {[ 7 := GoSample.metadata "SETTLED" ]}
             GoSample.stored;
     queries := 0; logged := [] |}.

End GoCases.


(** ** event.go: UpdateEventStatus *)

Module EventStatus.

Import Http Handlers.

(** The decoded body of [UpdateEventStatus]. *)
Record UpdateEventStatusRequest : Type := mk_UpdateEventStatusRequest {
  Status : string
}.

Definition validStatuses : list string :=
  ["REGISTRATION_OPEN"; "REGISTRATION_CLOSED"; "LIVE"; "SETTLED"; "VOIDED"].

(** [c.ShouldBindJSON(&req)]: [binding:"required"] rejects an empty
    [Status]. *)
Definition bind_UpdateEventStatus (body : option UpdateEventStatusRequest)
  : result UpdateEventStatusRequest :=
  match body with
  | None => Err "invalid request body"
  | Some req =>
      if String.eqb (Status req) "" then Err (binding_error "Status")
      else Ok req
  end.

Section WithEnvironment.

Variable env : environment.

(** [UPDATE events_metadata SET status = $1, updated_at = $2 WHERE
    event_id = $3]; the result is [RowsAffected()]. *)
Definition update_status (status : string) (now : Z) (eventID : string)
    (t : Schema.tables) : result Z * Schema.tables :=
  match int8_in env eventID with
  | None => (Err "invalid input syntax for type bigint", t)
  | Some id =>
      (Ok (match Schema.events_metadata t !! id with
           | Some _ => 1
           | None => 0
           end),
       Schema.with_events_metadata
         (alter (set_status status now) id (Schema.events_metadata t)) t)
  end.

(** [func (h *EventHandler) UpdateEventStatus(c *gin.Context)];
    [eventID] is [c.Param("id")]. *)
Definition UpdateEventStatus (eventID : string) (body : option UpdateEventStatusRequest)
  : world -> response * world :=
  handler
    (let? req :=
       match bind_UpdateEventStatus body with
       | Ok req => continue req
       | r => respond StatusBadRequest (H_error (error_text r))
       end in
     let isValid := existsb (String.eqb (Status req)) validStatuses in
     if negb isValid then
       respond StatusBadRequest (H_error "Invalid status")
     else
       let? now := Now env in
       let? r := statement env (update_status (Status req) now eventID) in
       match r with
       | Ok rowsAffected =>
           if rowsAffected =? 0 then
             respond StatusNotFound (H_error "Event not found")
           else
             do? Printf ("Event " +:+ eventID +:+ " status updated to " +:+ Status req) in
             continue (JSON StatusOK (H_message "Event status updated successfully"))
       | _ => respond StatusInternalServerError (H_error "Failed to update event status")
       end).

End WithEnvironment.

(** Every stored status is one of the five. *)
Definition statuses_valid (t : Schema.tables) : Prop :=
  forall id row,
    Schema.events_metadata t !! id = Some row ->
    In (Schema.EventsMetadata.status row) validStatuses.

(** The requests that write [events_metadata]. *)
Inductive request : Type :=
| POST_events (body : option CreateEventRequest)
| PUT_status (eventID : string) (body : option UpdateEventStatusRequest)
| POST_settle (eventID : string)
| POST_confirm (eventID : string) (body : option ConfirmSettlementRequest).

Definition serve (env : environment) (r : request) : world -> response * world :=
  match r with
  | POST_events body => CreateEvent env body
  | PUT_status eventID body => UpdateEventStatus env eventID body
  | POST_settle eventID => SettleEvent env eventID
  | POST_confirm eventID body => ConfirmSettlement env eventID body
  end.

(** The world after a sequence of requests, served one after the other. *)
Definition serve_all (env : environment) (rs : list request) (w : world) : world :=
  fold_left (fun w r => snd (serve env r w)) rs w.

(** Two bodies for the sample: a status of the five, and one that is
    not. *)
Definition reopen : UpdateEventStatusRequest := {| Status := "REGISTRATION_OPEN" |}.

Definition cancel : UpdateEventStatusRequest := {| Status := "CANCELLED" |}.

End EventStatus.


(** ** Vocabulary for ValidateCheckIn *)

Module CheckInAuthority.

Import Handlers.

(** The caller has an address and it is the organizer address of the
    event of the check-in that the body names. *)
Definition organizer_of_checkin (user_address : string)
    (body : option Models.ValidateCheckInRequest.t) (t : Schema.tables) : Prop :=
  user_address <> "" /\
  exists req row ev,
    body = Some req /\
    Schema.checkins t !! Models.ValidateCheckInRequest.CheckInID req = Some row /\
    Schema.events t !! Schema.Checkins.event_id row = Some ev /\
    Schema.Events.organizer_address ev = user_address.

End CheckInAuthority.


(** ** Vocabulary for what the indexer path keeps *)

Module Indexed.

Import DatabaseService.

(** An on-chain row without its [updated_at], the one column the upsert
    rewrites. *)
Definition unstamped (r : EventOnchain.t) : EventOnchain.t :=
  {| EventOnchain.vid := EventOnchain.vid r;
     EventOnchain.block := EventOnchain.block r;
     EventOnchain.id := EventOnchain.id r;
     EventOnchain.block_number := EventOnchain.block_number r;
     EventOnchain.timestamp := EventOnchain.timestamp r;
     EventOnchain.transaction_hash := EventOnchain.transaction_hash r;
     EventOnchain.contract_id := EventOnchain.contract_id r;
     EventOnchain.event_id := EventOnchain.event_id r;
     EventOnchain.vault := EventOnchain.vault r;
     EventOnchain.organizer := EventOnchain.organizer r;
     EventOnchain.stake_amount := EventOnchain.stake_amount r;
     EventOnchain.max_participant := EventOnchain.max_participant r;
     EventOnchain.registration_deadline := EventOnchain.registration_deadline r;
     EventOnchain.event_date := EventOnchain.event_date r;
     EventOnchain._gs_chain := EventOnchain._gs_chain r;
     EventOnchain._gs_gid := EventOnchain._gs_gid r;
     EventOnchain.created_at := EventOnchain.created_at r;
     EventOnchain.updated_at := None |}.

(** [t'] holds whatever [t] held: the on-chain rows of [t], in their
    order and up to [updated_at], followed by the rows added; every
    metadata row of [t], unchanged; the same profiles. *)
Definition extends (t t' : tables) : Prop :=
  (exists added,
     map unstamped (events_onchain t') = map unstamped (events_onchain t) ++ added) /\
  (forall e m, events_metadata t !! e = Some m -> events_metadata t' !! e = Some m) /\
  profiles t' = profiles t.

(** A batch member that is [null]. *)
Definition is_null (member : option EventOnchain.t) : bool :=
  match member with
  | Some _ => false
  | None => true
  end.

End Indexed.

(** * Properties *)

(** ** The status derived from the clock *)

Section StatusByTime.

Import EventMetadata.

Lemma status_set_status m s stamp : status (set_status m s stamp) = Some s.
Proof. reflexivity. Qed.

Lemma status_before_deadline date_now iso rd ed m :
  date_now / 1000 < rd ->
  status (updateStatusBasedOnTime date_now iso rd ed m) = Some REGISTRATION_OPEN.
Proof.
  intros Hlt. unfold updateStatusBasedOnTime.
  destruct (Z.ltb_spec (date_now / 1000) rd) as [_ | Hge]; [reflexivity | lia].
Qed.

Lemma status_between date_now iso rd ed m :
  rd <= date_now / 1000 < ed ->
  status (updateStatusBasedOnTime date_now iso rd ed m) =
    Some (if 0 <? participants m then REGISTRATION_CLOSED else VOIDED).
Proof.
  intros [Hrd Hed]. unfold updateStatusBasedOnTime.
  destruct (Z.ltb_spec (date_now / 1000) rd) as [Hlt | _]; [lia |].
  destruct (Z.ltb_spec (date_now / 1000) ed) as [_ | Hge]; [reflexivity | lia].
Qed.

Lemma status_from_event_date date_now iso rd ed m :
  rd < ed -> ed <= date_now / 1000 ->
  status (updateStatusBasedOnTime date_now iso rd ed m) = Some LIVE.
Proof.
  intros Horder Hed. unfold updateStatusBasedOnTime.
  destruct (Z.ltb_spec (date_now / 1000) rd) as [Hlt | _]; [lia |].
  destruct (Z.ltb_spec (date_now / 1000) ed) as [Hlt | _]; [lia | reflexivity].
Qed.

(** C1, as stated, fails: with deadline [T0 = 100] and event date
    [T1 = 101 > T0] and no participant, the status derived at [T0 + 1] is
    [LIVE], not [VOIDED], because [T0 + 1] is the event date already. *)
Lemma C1_voided_needs_gap :
  100 < 101 /\
  participants empty = 0 /\
  status (updateStatusBasedOnTime ((100 + 1) * 1000) "2025-01-01T00:00:00.000Z"
            100 101 empty) = Some LIVE /\
  Some LIVE <> Some VOIDED.
Proof.
  split; [lia |]. split; [reflexivity |]. split; [reflexivity | discriminate].
Qed.

(** C1 (amended): for a deadline [rd] before the event date [ed], the
    status written at time [now] (the clock in whole seconds) is
    [REGISTRATION_OPEN] when [now < rd]; [REGISTRATION_CLOSED] with a
    positive participant count and [VOIDED] with a zero count when
    [rd <= now < ed]; [LIVE] when [ed <= now].  So it is
    [REGISTRATION_OPEN] at [rd - 1], [LIVE] at [ed + 1], and [VOIDED] at
    [rd + 1] with no participant provided [rd + 1] is still before [ed]. *)
Theorem C1_status_by_time date_now iso rd ed m :
  rd < ed ->
  let now := date_now / 1000 in
  let derived := status (updateStatusBasedOnTime date_now iso rd ed m) in
  (now < rd -> derived = Some REGISTRATION_OPEN) /\
  (rd <= now < ed -> 0 < participants m -> derived = Some REGISTRATION_CLOSED) /\
  (rd <= now < ed -> participants m = 0 -> derived = Some VOIDED) /\
  (ed <= now -> derived = Some LIVE) /\
  (now = rd - 1 -> derived = Some REGISTRATION_OPEN) /\
  (now = rd + 1 -> rd + 1 < ed -> participants m = 0 -> derived = Some VOIDED) /\
  (now = ed + 1 -> derived = Some LIVE).
Proof.
  intros Horder now derived. subst now derived.
  repeat split.
  - apply status_before_deadline.
  - intros Hin Hpos. rewrite status_between by assumption.
    destruct (Z.ltb_spec 0 (participants m)); [reflexivity | lia].
  - intros Hin Hzero. rewrite status_between by assumption.
    rewrite Hzero. reflexivity.
  - apply status_from_event_date; assumption.
  - intros Hnow. apply status_before_deadline. lia.
  - intros Hnow Hgap Hzero. rewrite status_between by lia.
    rewrite Hzero. reflexivity.
  - intros Hnow. apply status_from_event_date; [assumption | lia].
Qed.

Lemma C1_status_by_time_witness :
  1000 < 2000 /\
  status (updateStatusBasedOnTime 1001999 "2025-01-01T00:00:00.000Z" 1000 2000 empty)
    = Some VOIDED.
Proof.
  split; [lia |].
  apply (C1_status_by_time 1001999 "2025-01-01T00:00:00.000Z" 1000 2000 empty);
    [lia | reflexivity | lia | reflexivity].
Defined.

End StatusByTime.

(** ** The participant counter *)

Section ParticipantCounter.

Import EventMetadata.

Lemma increment_counter stamp m :
  participants (incrementParticipantCount stamp m) = participants m + 1.
Proof. reflexivity. Qed.

Lemma decrement_counter stamp m :
  participants (decrementParticipantCount stamp m) =
    if 0 <? participants m then participants m - 1 else participants m.
Proof.
  unfold decrementParticipantCount, participants.
  destruct (0 <? Js.to_number (current_participants m)); reflexivity.
Qed.

Lemma call_nonnegative c m : 0 <= participants m -> 0 <= participants (call c m).
Proof.
  intros Hm. destruct c as [stamp | stamp]; simpl.
  - rewrite increment_counter. lia.
  - rewrite decrement_counter.
    destruct (Z.ltb_spec 0 (participants m)); lia.
Qed.

Lemma calls_nonnegative cs : forall m,
  0 <= participants m -> 0 <= participants (calls cs m).
Proof.
  induction cs as [| c cs IH]; intros m Hm; simpl.
  - exact Hm.
  - apply IH, call_nonnegative, Hm.
Qed.

(** C10: starting from a count that is not negative, no sequence of
    [incrementParticipantCount] and [decrementParticipantCount] calls makes
    it negative; a decrement at count zero changes neither the count nor
    [updated_at]. *)
Theorem C10_counter_never_negative cs stamp m :
  0 <= participants m ->
  0 <= participants (calls cs m) /\
  (participants m = 0 ->
   current_participants (decrementParticipantCount stamp m) = current_participants m /\
   updated_at (decrementParticipantCount stamp m) = updated_at m).
Proof.
  intros Hm. split.
  - apply calls_nonnegative, Hm.
  - intros Hzero. unfold decrementParticipantCount.
    unfold participants in Hzero. rewrite Hzero. split; reflexivity.
Qed.

Lemma C10_counter_never_negative_witness :
  0 <= participants empty /\
  0 <= participants
         (calls [Decrement "t1"; Increment "t2"; Decrement "t3"; Decrement "t4"] empty).
Proof.
  assert (H : 0 <= participants empty) by (vm_compute; discriminate).
  split; [exact H |].
  apply (C10_counter_never_negative
           [Decrement "t1"; Increment "t2"; Decrement "t3"; Decrement "t4"] "t0" empty H).
Defined.

End ParticipantCounter.

(** ** The indexer upsert *)

Section IndexerUpsert.

Import DatabaseService.

Variable pg : server.

(** The [RETURNING] clause of the on-chain upsert always yields a row, so
    [onchainResult.rows[0]] is defined. *)
Lemma upsert_onchain_returning now stamps v rows :
  snd (upsert_onchain now stamps v rows) <> [].
Proof.
  unfold upsert_onchain.
  destruct (existsb (same_hash (EventOnchain.transaction_hash v)) rows) eqn:Hex; simpl.
  - apply existsb_exists in Hex as (r & Hin & Hr).
    intros Hnil.
    assert (Hin' : In (EventOnchain.set_updated_at now r)
      (filter (fun r0 => same_hash (EventOnchain.transaction_hash v) r0 = true)
        (map (fun r0 => if same_hash (EventOnchain.transaction_hash v) r0
                        then EventOnchain.set_updated_at now r0 else r0) rows))).
    { apply list_elem_of_In, list_elem_of_filter. split.
      - destruct r; exact Hr.
      - apply list_elem_of_In, in_map_iff. exists r. rewrite Hr. auto. }
    rewrite Hnil in Hin'. destruct Hin'.
  - discriminate.
Qed.

Ltac answer s :=
  match goal with
  | |- context [pg_error pg ?n s] => destruct (pg_error pg n s) eqn:?; simpl
  end.
Ltac answer_upsert :=
  match goal with
  | |- context [pg_error pg ?n (UPSERT_ONCHAIN ?v)] =>
      destruct (pg_error pg n (UPSERT_ONCHAIN v)) eqn:?; simpl
  end.
Ltac answer_select_metadata :=
  match goal with
  | |- context [pg_error pg ?n (SELECT_METADATA ?v)] =>
      destruct (pg_error pg n (SELECT_METADATA v)) eqn:?; simpl
  end.
Ltac answer_select_organizer :=
  match goal with
  | |- context [pg_error pg ?n (SELECT_ORGANIZER ?v)] =>
      destruct (pg_error pg n (SELECT_ORGANIZER v)) eqn:?; simpl
  end.
Ltac answer_insert_metadata :=
  match goal with
  | |- context [pg_error pg ?n (INSERT_METADATA ?a ?b ?c)] =>
      destruct (pg_error pg n (INSERT_METADATA a b c)) eqn:?; simpl
  end.

Ltac unfold_upsert :=
  unfold upsertEventFromGoldsky, connect, query_begin, query_upsert_onchain,
    query_select_metadata, query_select_organizer, query_insert_metadata,
    query_commit, query_rollback, Js.bind, Js.try_catch, Js.object_of, Js.ret, Js.throw,
  send, issued,
    visible, store, record, close_transaction, after_failure; simpl.

Ltac close_log :=
  eexists; split; [simpl; rewrite <- ?app_assoc; reflexivity |];
  split; [reflexivity |].

Ltac rolled_back :=
  answer ROLLBACK; close_log; (split; [| reflexivity]);
  eexists _, _; simpl; eauto 12.

(** One upsert either runs all its statements and commits their effect, or
    has a failed statement and leaves the committed tables as they were.
    In both cases no transaction stays open. *)
Lemma upsert_all_or_nothing ev w :
  transaction w = None ->
  exists log,
    sent (snd (upsertEventFromGoldsky pg (Some ev) w)) = sent w ++ log /\
    transaction (snd (upsertEventFromGoldsky pg (Some ev) w)) = None /\
    match fst (upsertEventFromGoldsky pg (Some ev) w) with
    | Js.Thrown _ =>
        some_failed log /\
        committed (snd (upsertEventFromGoldsky pg (Some ev) w)) = committed w
    | Js.Returned _ =>
        none_failed log /\
        EventOnchain.event_id ev <> None /\
        pg_error pg (S (S (issued w))) (UPSERT_ONCHAIN ev) = None /\
        committed (snd (upsertEventFromGoldsky pg (Some ev) w)) =
          upsert_effect pg (S (S (issued w))) ev (committed w)
    end.
Proof.
  intros Hclean. destruct w as [t tx log0]. simpl in Hclean. subst tx.
  unfold_upsert.
  answer CONNECT.
  { close_log. split; [| reflexivity]. eexists _, _. left. reflexivity. }
  answer BEGIN; [rolled_back |].
  answer_upsert; [rolled_back |].
  match goal with
  | |- context [upsert_onchain ?a ?b ?c ?d] =>
      destruct (upsert_onchain a b c d) as [rows' returning] eqn:Hup
  end. simpl.
  answer_select_metadata; [rolled_back |].
  unfold upsert_effect, organizer_profile.
  rewrite !length_app in *. cbn in *.
  replace (length log0 + 1 + 1)%nat with (S (S (length log0))) in * by lia.
  rewrite Hup. simpl.
  destruct (EventOnchain.event_id ev) as [e |] eqn:He; simpl.
  - destruct (events_metadata t !! e) as [m |] eqn:Hm; simpl.
    + answer COMMIT; [rolled_back |].
      destruct returning as [| row more]; simpl.
      { exfalso. eapply upsert_onchain_returning. rewrite Hup. reflexivity. }
      close_log. split; [repeat constructor |].
      split; [discriminate |]. split; [assumption |].
      unfold insert_metadata. rewrite Hm. reflexivity.
    + answer_select_organizer; [rolled_back |].
      answer_insert_metadata; [rolled_back |].
      answer COMMIT; [rolled_back |].
      destruct returning as [| row more]; simpl.
      { exfalso. eapply upsert_onchain_returning. rewrite Hup. reflexivity. }
      close_log. split; [repeat constructor |].
      split; [discriminate |]. split; [assumption |].
      unfold insert_metadata. rewrite Hm. reflexivity.
  - answer_select_organizer; [rolled_back |].
    answer_insert_metadata; [rolled_back |].
    rolled_back.
Qed.

Lemma some_and_none_failed log : some_failed log -> none_failed log -> False.
Proof.
  intros (s & e & Hin) Hnone.
  unfold none_failed in Hnone. rewrite List.Forall_forall in Hnone.
  specialize (Hnone _ Hin). discriminate.
Qed.

(** The upsert of a [null] member throws once the transaction is open, and
    the [catch] block rolls back. *)
Lemma upsert_of_null w :
  transaction w = None ->
  (exists e, fst (upsertEventFromGoldsky pg None w) = Js.Thrown e) /\
  transaction (snd (upsertEventFromGoldsky pg None w)) = None /\
  committed (snd (upsertEventFromGoldsky pg None w)) = committed w.
Proof.
  intros Hclean. destruct w as [t tx log0]. simpl in Hclean. subst tx.
  unfold_upsert.
  answer CONNECT; [split; [eauto | split; reflexivity] |].
  answer BEGIN; (answer ROLLBACK; (split; [eauto | split; reflexivity])).
Qed.

(** C4: the upsert of one indexer event is atomic.  Whatever the member and
    whatever the server answers, the call leaves no transaction open, and
    when it throws the committed tables are what they were before the call:
    no on-chain row and no metadata row of this call remains.  For a member
    that is an object, the call throws as soon as one of its statements
    fails, and when none fails it returns and the effect of all its
    statements is committed. *)
Theorem C4_upsert_atomic member w :
  transaction w = None ->
  transaction (snd (upsertEventFromGoldsky pg member w)) = None /\
  (forall e,
     fst (upsertEventFromGoldsky pg member w) = Js.Thrown e ->
     committed (snd (upsertEventFromGoldsky pg member w)) = committed w) /\
  forall ev,
    member = Some ev ->
    exists log,
      sent (snd (upsertEventFromGoldsky pg member w)) = sent w ++ log /\
      (some_failed log ->
       (exists e, fst (upsertEventFromGoldsky pg member w) = Js.Thrown e) /\
       committed (snd (upsertEventFromGoldsky pg member w)) = committed w) /\
      (none_failed log ->
       (exists row, fst (upsertEventFromGoldsky pg member w) = Js.Returned row) /\
       committed (snd (upsertEventFromGoldsky pg member w)) =
         upsert_effect pg (S (S (issued w))) ev (committed w)).
Proof.
  intros Hclean. destruct member as [ev |].
  - destruct (upsert_all_or_nothing ev w Hclean) as (log & Hlog & Htx & Hcase).
    split; [exact Htx |]. split.
    + intros e He. rewrite He in Hcase. apply Hcase.
    + intros ev' Hev. injection Hev as <-.
      exists log. split; [exact Hlog |].
      destruct (fst (upsertEventFromGoldsky pg (Some ev) w)) as [row | e].
      * destruct Hcase as (Hnone & _ & _ & Hc). split.
        -- intros Hsome. destruct (some_and_none_failed log Hsome Hnone).
        -- intros _. split; [exists row; reflexivity | exact Hc].
      * destruct Hcase as (Hsome & Hc). split.
        -- intros _. split; [exists e; reflexivity | exact Hc].
        -- intros Hnone. destruct (some_and_none_failed log Hsome Hnone).
  - destruct (upsert_of_null w Hclean) as (_ & Htx & Hc).
    split; [exact Htx |]. split; [intros e _; exact Hc | intros ev Hev; discriminate].
Qed.

(** *** Re-delivery of the same event *)

Lemma same_hash_set_updated_at h now r :
  same_hash h (EventOnchain.set_updated_at now r) = same_hash h r.
Proof. destruct r; reflexivity. Qed.

Lemma filter_hash_touch h h' now rows :
  length (filter (fun r => same_hash h r = true)
            (map (fun r => if same_hash h' r then EventOnchain.set_updated_at now r else r)
               rows)) =
  length (filter (fun r => same_hash h r = true) rows).
Proof.
  induction rows as [| r rows IH]; [reflexivity |].
  cbn [map]. rewrite !filter_cons.
  assert (Hsame : same_hash h (if same_hash h' r
                               then EventOnchain.set_updated_at now r else r)
                  = same_hash h r).
  { destruct (same_hash h' r); [apply same_hash_set_updated_at | reflexivity]. }
  rewrite Hsame.
  destruct (decide (same_hash h r = true)); simpl; rewrite IH; reflexivity.
Qed.

Lemma filter_hash_absent h rows :
  existsb (same_hash h) rows = false ->
  filter (fun r => same_hash h r = true) rows = [].
Proof.
  induction rows as [| r rows IH]; [reflexivity |].
  simpl. intros Hex. apply orb_false_iff in Hex as [Hr Hrows].
  rewrite filter_cons. rewrite decide_False by (rewrite Hr; discriminate).
  apply IH, Hrows.
Qed.

Lemma filter_hash_present h rows :
  existsb (same_hash h) rows = true ->
  (0 < length (filter (fun r => same_hash h r = true) rows))%nat.
Proof.
  induction rows as [| r rows IH]; [discriminate |].
  simpl. intros Hex. rewrite filter_cons.
  destruct (decide (same_hash h r = true)) as [Hr | Hr]; [simpl; lia |].
  apply not_true_is_false in Hr. rewrite Hr in Hex. apply IH, Hex.
Qed.

(** The on-chain upsert keeps the number of rows with the hash of the
    event when there is one already, and makes it one when there is none. *)
Lemma hash_count_upsert_effect n ev h t :
  EventOnchain.transaction_hash ev = Some h ->
  hash_count h (upsert_effect pg n ev t) =
    if (hash_count h t =? 0)%nat then 1%nat else hash_count h t.
Proof.
  intros Hh. unfold hash_count, upsert_effect, upsert_onchain. cbn [events_onchain].
  rewrite Hh.
  destruct (existsb (same_hash (Some h)) (events_onchain t)) eqn:Hex; cbn [fst].
  - rewrite filter_hash_touch.
    pose proof (filter_hash_present _ _ Hex) as Hpos.
    destruct (Nat.eqb_spec
      (length (filter (fun r => same_hash (Some h) r = true) (events_onchain t))) 0);
      [lia | reflexivity].
  - rewrite filter_app, (filter_hash_absent _ _ Hex). cbn [app].
    rewrite filter_cons, decide_True.
    { destruct (Nat.eqb_spec (length (@nil EventOnchain.t)) 0); [reflexivity | simpl in *; lia]. }
    unfold same_hash, onchain_row. simpl. rewrite Hh. apply String.eqb_refl.
Qed.

Lemma metadata_after_upsert_effect n ev e t :
  EventOnchain.event_id ev = Some e ->
  is_Some (events_metadata (upsert_effect pg n ev t) !! e).
Proof.
  intros He. unfold upsert_effect, insert_metadata. simpl. rewrite He.
  destruct (events_metadata t !! e) eqn:Hm.
  - rewrite Hm. eauto.
  - rewrite lookup_insert_eq. eauto.
Qed.

Lemma metadata_kept_by_upsert_effect n ev e t :
  EventOnchain.event_id ev = Some e ->
  is_Some (events_metadata t !! e) ->
  events_metadata (upsert_effect pg n ev t) = events_metadata t.
Proof.
  intros He [m Hm]. unfold upsert_effect, insert_metadata. simpl.
  rewrite He, Hm. reflexivity.
Qed.

Lemma hashes_of_touched h now rows :
  map EventOnchain.transaction_hash
      (map (fun r => if same_hash h r then EventOnchain.set_updated_at now r else r) rows) =
  map EventOnchain.transaction_hash rows.
Proof.
  induction rows as [| r rows IH]; [reflexivity |].
  cbn [map]. rewrite IH. f_equal.
  destruct (same_hash h r); [destruct r |]; reflexivity.
Qed.

(** When a row with the hash of the event is stored, the upsert adds no
    on-chain row: the table keeps its rows, hash by hash. *)
Lemma hashes_kept_when_present n ev h t :
  EventOnchain.transaction_hash ev = Some h ->
  hash_count h t <> 0%nat ->
  map EventOnchain.transaction_hash (events_onchain (upsert_effect pg n ev t)) =
  map EventOnchain.transaction_hash (events_onchain t).
Proof.
  intros Hh Hcount. unfold upsert_effect, upsert_onchain. cbn [events_onchain].
  rewrite Hh.
  destruct (existsb (same_hash (Some h)) (events_onchain t)) eqn:Hex; cbn [fst].
  - apply hashes_of_touched.
  - exfalso. apply Hcount. unfold hash_count.
    rewrite (filter_hash_absent _ _ Hex). reflexivity.
Qed.

(** C3: delivering the same event twice.  After a first upsert that
    returned, a second upsert of the same event (whether it returns or
    throws) adds no on-chain row -- the table has the same rows, hash by
    hash, so the number of rows with the transaction hash of the event is
    unchanged, and it is exactly one when the hash was not duplicated at the
    start -- and it leaves the metadata table, which has a row for the event,
    as it was.  (What the second upsert does change is [updated_at] of the
    on-chain row.) *)
Theorem C3_redelivery_idempotent ev h w row :
  transaction w = None ->
  EventOnchain.transaction_hash ev = Some h ->
  fst (upsertEventFromGoldsky pg (Some ev) w) = Js.Returned row ->
  let w1 := snd (upsertEventFromGoldsky pg (Some ev) w) in
  let w2 := snd (upsertEventFromGoldsky pg (Some ev) w1) in
  map EventOnchain.transaction_hash (events_onchain (committed w2)) =
    map EventOnchain.transaction_hash (events_onchain (committed w1)) /\
  hash_count h (committed w2) = hash_count h (committed w1) /\
  ((hash_count h (committed w) <= 1)%nat -> hash_count h (committed w2) = 1%nat) /\
  (exists e, EventOnchain.event_id ev = Some e /\
             is_Some (events_metadata (committed w1) !! e)) /\
  events_metadata (committed w2) = events_metadata (committed w1).
Proof.
  intros Hclean Hh Hfirst w1 w2.
  destruct (upsert_all_or_nothing ev w Hclean) as (log1 & _ & Htx1 & Hcase1).
  rewrite Hfirst in Hcase1. destruct Hcase1 as (_ & Hid & _ & Hc1).
  fold w1 in Htx1, Hc1.
  destruct (EventOnchain.event_id ev) as [e |] eqn:He; [clear Hid | congruence].
  assert (Hmeta1 : is_Some (events_metadata (committed w1) !! e)).
  { rewrite Hc1. apply metadata_after_upsert_effect, He. }
  assert (Hcount1 : hash_count h (committed w1) =
                    if (hash_count h (committed w) =? 0)%nat
                    then 1%nat else hash_count h (committed w)).
  { rewrite Hc1. apply hash_count_upsert_effect, Hh. }
  assert (Hpos1 : (hash_count h (committed w1) <> 0)%nat).
  { rewrite Hcount1. destruct (Nat.eqb_spec (hash_count h (committed w)) 0); lia. }
  destruct (upsert_all_or_nothing ev w1 Htx1) as (log2 & _ & _ & Hcase2).
  fold w2 in Hcase2.
  assert (Hsecond :
    map EventOnchain.transaction_hash (events_onchain (committed w2)) =
      map EventOnchain.transaction_hash (events_onchain (committed w1)) /\
    hash_count h (committed w2) = hash_count h (committed w1) /\
    events_metadata (committed w2) = events_metadata (committed w1)).
  { destruct (fst (upsertEventFromGoldsky pg (Some ev) w1)).
    - destruct Hcase2 as (_ & _ & _ & Hc2). rewrite Hc2. split; [| split].
      + apply (hashes_kept_when_present _ _ h); assumption.
      + rewrite (hash_count_upsert_effect _ _ _ _ Hh).
        destruct (Nat.eqb_spec (hash_count h (committed w1)) 0); [lia | reflexivity].
      + apply (metadata_kept_by_upsert_effect _ _ e); assumption.
    - destruct Hcase2 as (_ & Hc2). rewrite Hc2. repeat split. }
  destruct Hsecond as (Hrows2 & Hcount2 & Hmeta2).
  split; [exact Hrows2 |]. split; [exact Hcount2 |].
  split; [| split; [exists e; split; [reflexivity | exact Hmeta1] | exact Hmeta2]].
  intros Hunique. rewrite Hcount2, Hcount1.
  destruct (Nat.eqb_spec (hash_count h (committed w)) 0); lia.
Qed.

End IndexerUpsert.

(** ** The webhook batch *)

Section WebhookBatch.

Import DatabaseService EventController.

Variable pg : server.

(** A valid member is upserted when the session statements work. *)
Lemma upsert_valid_returns ev w :
  reliable pg -> valid pg ev ->
  exists row, fst (upsertEventFromGoldsky pg (Some ev) w) = Js.Returned row.
Proof.
  intros Hrel [Hacc Hid]. destruct w as [t tx log0].
  destruct (EventOnchain.event_id ev) as [e |] eqn:He; [clear Hid | congruence].
  assert (Hup : forall n, pg_error pg n (UPSERT_ONCHAIN ev) = None)
    by (intros n; destruct (Hacc n) as (H & _); exact H).
  assert (Hsel : forall n, pg_error pg n (SELECT_METADATA (Some e)) = None)
    by (intros n; destruct (Hacc n) as (_ & H & _); rewrite <- He; exact H).
  assert (Horg : forall n,
    pg_error pg n (SELECT_ORGANIZER (EventOnchain.organizer ev)) = None)
    by (intros n; destruct (Hacc n) as (_ & _ & H & _); exact H).
  assert (Hins : forall n title o, pg_error pg n (INSERT_METADATA (Some e) title o) = None)
    by (intros n title o; destruct (Hacc n) as (_ & _ & _ & H); rewrite <- He; apply H).
  assert (Hcon : forall n, pg_error pg n CONNECT = None)
    by (intros n; destruct (Hrel n) as (H & _); exact H).
  assert (Hbeg : forall n, pg_error pg n BEGIN = None)
    by (intros n; destruct (Hrel n) as (_ & H & _); exact H).
  assert (Hcom : forall n, pg_error pg n COMMIT = None)
    by (intros n; destruct (Hrel n) as (_ & _ & H); exact H).
  clear Hacc Hrel.
  unfold upsertEventFromGoldsky, connect, query_begin, query_upsert_onchain,
    query_select_metadata, query_select_organizer, query_insert_metadata,
    query_commit, query_rollback, Js.bind, Js.try_catch, Js.object_of, Js.ret, Js.throw,
  send, issued.
  rewrite He. cbn [sent].
  rewrite Hcon. cbn [record sent].
  rewrite Hbeg. cbn [record sent].
  rewrite Hup.
  match goal with
  | |- context [upsert_onchain ?a ?b ?c ?d] =>
      pose proof (upsert_onchain_returning a b c d) as Hret;
      destruct (upsert_onchain a b c d) as [rows' returning]
  end.
  cbn [snd] in Hret. cbn [record sent store].
  rewrite Hsel.
  match goal with
  | |- context [events_metadata ?t !! e] => destruct (events_metadata t !! e) eqn:Hm
  end; simpl.
  - rewrite Hcom.
    destruct returning as [| row more]; [congruence |]. simpl. eauto.
  - rewrite Horg. simpl.
    rewrite Hins. simpl.
    rewrite Hcom.
    destruct returning as [| row more]; [congruence |]. simpl. eauto.
Qed.

(** A malformed member makes the upsert throw. *)
Lemma upsert_malformed_throws ev w :
  transaction w = None -> malformed pg ev ->
  exists e, fst (upsertEventFromGoldsky pg (Some ev) w) = Js.Thrown e.
Proof.
  intros Hclean Hbad.
  destruct (upsert_all_or_nothing pg ev w Hclean) as (log & _ & _ & Hcase).
  destruct (fst (upsertEventFromGoldsky pg (Some ev) w)) as [row | e]; [| eauto].
  destruct Hcase as (_ & Hid & Hok & _).
  destruct Hbad as [Hrej | Hnone]; [| congruence].
  destruct (Hrej _ Hok).
Qed.

(** What the loop body does for one member. *)
Lemma process_one ev w :
  transaction w = None ->
  exists p,
    fst (process pg (Some ev) w) = Js.Returned p /\
    transaction (snd (process pg (Some ev) w)) = None /\
    match fst (upsertEventFromGoldsky pg (Some ev) w) with
    | Js.Returned _ =>
        status p = "processed" /\
        committed (snd (process pg (Some ev) w)) =
          upsert_effect pg (S (S (issued w))) ev (committed w)
    | Js.Thrown e =>
        status p = "error" /\ error p = Some e /\
        event_id p = EventOnchain.event_id ev /\
        committed (snd (process pg (Some ev) w)) = committed w
    end.
Proof.
  intros Hclean.
  destruct (upsert_all_or_nothing pg ev w Hclean) as (log & _ & Htx & Hcase).
  unfold process, Js.try_catch, Js.bind, Js.object_of, Js.ret.
  destruct (upsertEventFromGoldsky pg (Some ev) w) as [[row | e] w']; simpl in *.
  - eexists. split; [reflexivity |]. split; [exact Htx |].
    split; [reflexivity | apply Hcase].
  - eexists. split; [reflexivity |]. split; [exact Htx |].
    repeat split. apply Hcase.
Qed.

(** The stored members stay stored under later upserts. *)
Lemma hashes_kept now stamps v rows h :
  In h (map EventOnchain.transaction_hash rows) ->
  In h (map EventOnchain.transaction_hash (fst (upsert_onchain now stamps v rows))).
Proof.
  intros Hin. unfold upsert_onchain.
  destruct (existsb (same_hash (EventOnchain.transaction_hash v)) rows); cbn [fst].
  - rewrite map_map. apply in_map_iff in Hin as (r & Hr & Hin).
    apply in_map_iff. exists r. split; [| exact Hin].
    destruct (same_hash (EventOnchain.transaction_hash v) r); [| exact Hr].
    destruct r; exact Hr.
  - rewrite map_app. apply in_or_app. left. exact Hin.
Qed.

Lemma hash_stored now stamps v rows :
  In (EventOnchain.transaction_hash v)
     (map EventOnchain.transaction_hash (fst (upsert_onchain now stamps v rows))).
Proof.
  destruct (existsb (same_hash (EventOnchain.transaction_hash v)) rows) eqn:Hex.
  - apply hashes_kept.
    apply existsb_exists in Hex as (r & Hin & Hr).
    apply in_map_iff. exists r. split; [| exact Hin].
    unfold same_hash in Hr.
    destruct (EventOnchain.transaction_hash v) as [a |]; [| discriminate].
    destruct (EventOnchain.transaction_hash r) as [b |]; [| discriminate].
    apply String.eqb_eq in Hr. congruence.
  - unfold upsert_onchain. rewrite Hex. cbn [fst].
    rewrite map_app. apply in_or_app. right. left. reflexivity.
Qed.

Lemma persisted_by_own_upsert n ev t :
  EventOnchain.event_id ev <> None -> persisted ev (upsert_effect pg n ev t).
Proof.
  intros Hid. destruct (EventOnchain.event_id ev) as [e |] eqn:He; [| congruence].
  split.
  - apply hash_stored.
  - exists e. split; [exact He |]. apply metadata_after_upsert_effect, He.
Qed.

Lemma persisted_kept n ev ev' t :
  persisted ev t -> persisted ev (upsert_effect pg n ev' t).
Proof.
  intros [Hhash (e & He & Hm)]. split.
  - apply hashes_kept, Hhash.
  - exists e. split; [exact He |].
    unfold upsert_effect, insert_metadata. cbn [events_metadata].
    destruct (EventOnchain.event_id ev') as [e' |]; [| exact Hm].
    destruct (events_metadata t !! e') eqn:Hm'; [exact Hm |].
    destruct (decide (e' = e)) as [-> | Hne].
    + rewrite lookup_insert_eq. eauto.
    + rewrite lookup_insert_ne by exact Hne. exact Hm.
Qed.

(** The loop never stops early: it appends one entry per member, whatever
    the server answers. *)
Lemma process_all_total events : forall acc w,
  transaction w = None ->
  exists entries,
    fst (process_all pg (map Some events) acc w) = Js.Returned (acc ++ entries) /\
    transaction (snd (process_all pg (map Some events) acc w)) = None /\
    length entries = length events /\
    Forall (fun p => status p = "processed" \/ status p = "error") entries.
Proof.
  induction events as [| ev events IH]; intros acc w Hclean.
  - exists []. simpl. rewrite app_nil_r. repeat split; [exact Hclean | constructor].
  - destruct (process_one ev w Hclean) as (p & Hp & Htx & Hcase).
    cbn [map process_all]. unfold Js.bind.
    destruct (process pg (Some ev) w) as [r w1]. simpl in Hp, Htx. subst r.
    destruct (IH (acc ++ [p]) w1 Htx) as (entries & Hr & Htx' & Hlen & Hall).
    exists (p :: entries). rewrite <- app_assoc in Hr.
    split; [exact Hr |]. split; [exact Htx' |]. split; [simpl; congruence |].
    constructor; [| exact Hall].
    destruct (fst (upsertEventFromGoldsky pg (Some ev) w)); [left | right]; apply Hcase.
Qed.

(** With a reliable session, a member gets an error entry exactly when it
    is malformed, and every valid member is stored at the end. *)
Lemma process_all_classified (bad : EventOnchain.t -> bool) events :
  reliable pg ->
  forall acc w,
    transaction w = None ->
    (forall ev, In ev events -> if bad ev then malformed pg ev else valid pg ev) ->
    exists entries,
      fst (process_all pg (map Some events) acc w) = Js.Returned (acc ++ entries) /\
      map status entries =
        map (fun ev => if bad ev then "error" else "processed") events /\
      (forall ev, persisted ev (committed w) ->
                  persisted ev (committed (snd (process_all pg (map Some events) acc w)))) /\
      (forall ev, In ev events -> bad ev = false ->
                  persisted ev (committed (snd (process_all pg (map Some events) acc w)))).
Proof.
  intros Hrel. induction events as [| ev events IH]; intros acc w Hclean Hclass.
  - exists []. simpl. rewrite app_nil_r.
    split; [reflexivity |]. split; [reflexivity |]. split; [auto |]. intros ev' [].
  - destruct (process_one ev w Hclean) as (p & Hp & Htx & Hcase).
    cbn [map process_all]. unfold Js.bind.
    destruct (process pg (Some ev) w) as [r w1] eqn:Hproc. simpl in Hp, Htx, Hcase. subst r.
    assert (Hrest : forall ev', In ev' events ->
              if bad ev' then malformed pg ev' else valid pg ev')
      by (intros ev' Hin; apply Hclass; right; exact Hin).
    destruct (IH (acc ++ [p]) w1 Htx Hrest) as (entries & Hr & Hst & Hkeep & Hgood).
    exists (p :: entries). rewrite <- app_assoc in Hr.
    split; [exact Hr |].
    pose proof (Hclass ev (or_introl eq_refl)) as Hev.
    destruct (bad ev) eqn:Hbad.
    + destruct (upsert_malformed_throws ev w Hclean Hev) as (e & He).
      rewrite He in Hcase. destruct Hcase as (Hs & _ & _ & Hc).
      split; [cbn [map]; rewrite ?Hbad, Hs; f_equal; exact Hst |].
      split.
      * intros ev' Hev'. apply Hkeep. rewrite Hc. exact Hev'.
      * intros ev' [<- | Hin] Hgood'; [congruence | apply Hgood; assumption].
    + destruct (upsert_valid_returns ev w Hrel Hev) as (row & Hrow).
      rewrite Hrow in Hcase. destruct Hcase as (Hs & Hc).
      split; [cbn [map]; rewrite ?Hbad, Hs; f_equal; exact Hst |].
      split.
      * intros ev' Hev'. apply Hkeep. rewrite Hc. apply persisted_kept, Hev'.
      * intros ev' [<- | Hin] Hgood'; [| apply Hgood; assumption].
        apply Hkeep. rewrite Hc. apply persisted_by_own_upsert, Hev.
Qed.

Lemma errors_counted (bad : EventOnchain.t -> bool) events : forall entries,
  map status entries = map (fun ev => if bad ev then "error" else "processed") events ->
  length (errors entries) = length (List.filter bad events).
Proof.
  induction events as [| ev events IH]; intros [| p entries] Hmap;
    try discriminate; [reflexivity |].
  cbn [map] in Hmap. injection Hmap as Hp Hrest.
  unfold errors in *. cbn [List.filter]. unfold is_error at 1. rewrite Hp.
  destruct (bad ev); simpl; rewrite (IH _ Hrest); reflexivity.
Qed.

(** What holds of the webhook for a batch whose members are all objects: the
    response is a success with one entry per member, each either processed or
    an error, and no transaction stays open.  When moreover the session
    statements work and each member is either valid or malformed, the entries
    report an error exactly for the malformed members, in order, so there are
    as many error entries as malformed members, and every valid member is
    stored at the end. *)
Theorem batch_of_objects_members_independent events w :
  transaction w = None ->
  exists entries,
    fst (handleGoldskyWebhook pg (Some (map Some events)) w) =
      Js.Returned {| code := 200; json := Success entries (length entries) |} /\
    transaction (snd (handleGoldskyWebhook pg (Some (map Some events)) w)) = None /\
    length entries = length events /\
    Forall (fun p => status p = "processed" \/ status p = "error") entries /\
    forall bad : EventOnchain.t -> bool,
      reliable pg ->
      (forall ev, In ev events -> if bad ev then malformed pg ev else valid pg ev) ->
      map status entries =
        map (fun ev => if bad ev then "error" else "processed") events /\
      length (errors entries) = length (List.filter bad events) /\
      forall ev, In ev events -> bad ev = false ->
        persisted ev
          (committed (snd (handleGoldskyWebhook pg (Some (map Some events)) w))).
Proof.
  intros Hclean.
  destruct (process_all_total events [] w Hclean) as (entries & Hr & Htx & Hlen & Hall).
  exists entries.
  assert (Hrun : handleGoldskyWebhook pg (Some (map Some events)) w =
                 (Js.Returned {| code := 200; json := Success entries (length entries) |},
                  snd (process_all pg (map Some events) [] w))).
  { unfold handleGoldskyWebhook, Js.try_catch, Js.bind, Js.ret.
    destruct (process_all pg (map Some events) [] w) as [r w1]. simpl in Hr. subst r.
    reflexivity. }
  rewrite Hrun. cbn [fst snd].
  split; [reflexivity |]. split; [exact Htx |]. split; [exact Hlen |].
  split; [exact Hall |].
  intros bad Hrel Hclass.
  destruct (process_all_classified bad events Hrel [] w Hclean Hclass)
    as (entries' & Hr' & Hst & _ & Hgood).
  rewrite Hr in Hr'. injection Hr' as <-.
  split; [exact Hst |]. split; [apply errors_counted, Hst | exact Hgood].
Qed.

End WebhookBatch.

(** ** The complete-event query *)

Section CompleteEvent.

Import DatabaseService.

Variable pg : server.

Lemma complete_event_rows_unjoined eventId t r :
  In r (events_onchain t) ->
  EventOnchain.event_id r = Some eventId ->
  events_metadata t !! eventId = None ->
  exists row, head (complete_event_rows eventId t) = Some row /\
              EventOnchain.event_id (eo row) = Some eventId /\ em row = None.
Proof.
  intros Hin Hid Hnone. unfold complete_event_rows. rewrite Hnone.
  assert (Hr : same_event (Some eventId) r = true)
    by (unfold same_event; rewrite Hid; apply String.eqb_refl).
  induction (events_onchain t) as [| r0 rows IH]; [destruct Hin |].
  rewrite filter_cons.
  destruct (decide (same_event (Some eventId) r0 = true)) as [Hr0 | Hr0].
  - eexists. split; [reflexivity |]. split; [| reflexivity]. simpl.
    unfold same_event in Hr0.
    destruct (EventOnchain.event_id r0) as [b |]; [| discriminate].
    apply String.eqb_eq in Hr0. congruence.
  - destruct Hin as [-> | Hin]; [congruence | apply IH, Hin].
Qed.

(** C2, as stated, fails on the title: for the stored on-chain event 42
    that has no metadata row the query returns an event, with status
    [REGISTRATION_OPEN], whose title is [null]. *)
Lemma C2_title_is_null :
  exists ev,
    fst (getCompleteEvent Sample.calm "42" Sample.indexed_only) = Js.Returned (Some ev) /\
    EventMetadata.status (Event.metadata ev) = Some EventMetadata.REGISTRATION_OPEN /\
    EventMetadata.title (Event.metadata ev) = None.
Proof. eexists. split; [reflexivity |]. split; reflexivity. Qed.

(** C2 (amended): when an on-chain row of the event is stored, no metadata
    row is, and the server answers the query, [getCompleteEvent] returns a
    combined event (it neither throws nor returns [null]) whose metadata has
    status [REGISTRATION_OPEN], a zero participant count and a [null]
    title; it changes no table. *)
Theorem C2_default_metadata eventId w r :
  In r (events_onchain (committed w)) ->
  EventOnchain.event_id r = Some eventId ->
  events_metadata (committed w) !! eventId = None ->
  pg_error pg (issued w) (SELECT_COMPLETE_EVENT eventId) = None ->
  exists ev,
    fst (getCompleteEvent pg eventId w) = Js.Returned (Some ev) /\
    EventMetadata.status (Event.metadata ev) = Some EventMetadata.REGISTRATION_OPEN /\
    EventMetadata.current_participants (Event.metadata ev) = Some 0 /\
    EventMetadata.title (Event.metadata ev) = None /\
    committed (snd (getCompleteEvent pg eventId w)) = committed w.
Proof.
  intros Hin Hid Hnone Hok.
  destruct (complete_event_rows_unjoined _ _ _ Hin Hid Hnone) as (row & Hhead & _ & Hem).
  unfold getCompleteEvent, query_complete_event, Js.bind, Js.ret, send.
  rewrite Hok, Hhead. cbn [fst snd].
  eexists. split; [reflexivity |].
  unfold em_column. rewrite Hem. repeat split.
Qed.

End CompleteEvent.

Lemma C2_default_metadata_witness :
  exists ev,
    fst (DatabaseService.getCompleteEvent Sample.strict "42" Sample.indexed_only) = Js.Returned (Some ev) /\
    EventMetadata.status (Event.metadata ev) = Some EventMetadata.REGISTRATION_OPEN /\
    EventMetadata.current_participants (Event.metadata ev) = Some 0 /\
    EventMetadata.title (Event.metadata ev) = None /\
    DatabaseService.committed (snd (DatabaseService.getCompleteEvent Sample.strict "42" Sample.indexed_only)) =
      DatabaseService.committed Sample.indexed_only.
Proof.
  apply (C2_default_metadata Sample.strict "42" Sample.indexed_only
           (Sample.delivery (Some "0xaa") "42"));
    [left; reflexivity | reflexivity | reflexivity | reflexivity].
Defined.

(** ** The indexer properties on sample data *)

Lemma C4_upsert_atomic_witness :
  DatabaseService.transaction Sample.fresh = None /\
  DatabaseService.transaction
    (snd (DatabaseService.upsertEventFromGoldsky Sample.flaky
            (Some (Sample.delivery (Some "0xa1") "1")) Sample.fresh)) = None /\
  DatabaseService.committed
    (snd (DatabaseService.upsertEventFromGoldsky Sample.flaky
            (Some (Sample.delivery (Some "0xa1") "1")) Sample.fresh)) =
    DatabaseService.committed Sample.fresh.
Proof.
  split; [reflexivity |].
  destruct (C4_upsert_atomic Sample.flaky (Some (Sample.delivery (Some "0xa1") "1"))
              Sample.fresh eq_refl) as (Hclosed & Hsame & _).
  split; [exact Hclosed |].
  apply (Hsame "connection terminated unexpectedly"). reflexivity.
Defined.

(** The lost metadata [INSERT] on the sample: the call throws the error of
    the server and the on-chain row written before it is gone. *)
Example upsert_rolled_back_on_sample :
  DatabaseService.upsertEventFromGoldsky Sample.flaky
    (Some (Sample.delivery (Some "0xa1") "1")) Sample.fresh =
  (Js.Thrown "connection terminated unexpectedly",
   {| DatabaseService.committed := Sample.no_tables;
      DatabaseService.transaction := None;
      DatabaseService.sent :=
        [ (DatabaseService.CONNECT, None);
          (DatabaseService.BEGIN, None);
          (DatabaseService.UPSERT_ONCHAIN (Sample.delivery (Some "0xa1") "1"), None);
          (DatabaseService.SELECT_METADATA (Some "1"), None);
          (DatabaseService.SELECT_ORGANIZER (Some "0xorganizer"), None);
          (DatabaseService.INSERT_METADATA (Some "1") "Event 1" None,
           Some "connection terminated unexpectedly");
          (DatabaseService.ROLLBACK, None) ] |}).
Proof. reflexivity. Qed.

Lemma C3_redelivery_idempotent_witness :
  let ev := Sample.delivery (Some "0xa1") "1" in
  let w1 := snd (DatabaseService.upsertEventFromGoldsky Sample.calm (Some ev) Sample.fresh) in
  let w2 := snd (DatabaseService.upsertEventFromGoldsky Sample.calm (Some ev) w1) in
  map EventOnchain.transaction_hash
      (DatabaseService.events_onchain (DatabaseService.committed w2)) =
    map EventOnchain.transaction_hash
      (DatabaseService.events_onchain (DatabaseService.committed w1)) /\
  DatabaseService.hash_count "0xa1" (DatabaseService.committed w2) =
    DatabaseService.hash_count "0xa1" (DatabaseService.committed w1) /\
  ((DatabaseService.hash_count "0xa1" (DatabaseService.committed Sample.fresh) <= 1)%nat ->
   DatabaseService.hash_count "0xa1" (DatabaseService.committed w2) = 1%nat) /\
  (exists e, EventOnchain.event_id ev = Some e /\
             is_Some (DatabaseService.events_metadata (DatabaseService.committed w1) !! e)) /\
  DatabaseService.events_metadata (DatabaseService.committed w2) =
    DatabaseService.events_metadata (DatabaseService.committed w1).
Proof.
  apply (C3_redelivery_idempotent Sample.calm (Sample.delivery (Some "0xa1") "1") "0xa1"
           Sample.fresh
           (EventOnchain.fromDatabaseRow
              (DatabaseService.onchain_row
                 (Some "2025-01-01 00:00:00+00", Some "2025-01-01 00:00:00+00")
                 (Sample.delivery (Some "0xa1") "1"))));
    reflexivity.
Defined.

(** The second delivery on the sample refreshes [updated_at] of the stored
    row and nothing else. *)
Example redelivery_on_sample :
  let ev := Sample.delivery (Some "0xa1") "1" in
  let later := {| DatabaseService.pg_error := DatabaseService.pg_error Sample.calm;
                  DatabaseService.pg_now := fun _ => "2025-01-02 00:00:00+00";
                  DatabaseService.onchain_stamps := DatabaseService.onchain_stamps Sample.calm;
                  DatabaseService.metadata_defaults :=
                    DatabaseService.metadata_defaults Sample.calm |} in
  let w1 := snd (DatabaseService.upsertEventFromGoldsky Sample.calm (Some ev) Sample.fresh) in
  let w2 := snd (DatabaseService.upsertEventFromGoldsky later (Some ev) w1) in
  DatabaseService.events_onchain (DatabaseService.committed w2) =
    map (EventOnchain.set_updated_at "2025-01-02 00:00:00+00")
        (DatabaseService.events_onchain (DatabaseService.committed w1)) /\
  length (DatabaseService.events_onchain (DatabaseService.committed w2)) = 1%nat.
Proof. split; reflexivity. Qed.

Lemma sample_strict_reliable : DatabaseService.reliable Sample.strict.
Proof. intros n. repeat split. Qed.

Lemma sample_batch_classified ev :
  In ev Sample.batch ->
  if Sample.lacks_hash ev
  then DatabaseService.malformed Sample.strict ev
  else DatabaseService.valid Sample.strict ev.
Proof.
  intros Hin. simpl in Hin.
  repeat (destruct Hin as [<- | Hin];
          [first [ left; intros n; discriminate
                 | split; [intros n; repeat split | discriminate] ] |]).
  destruct Hin.
Qed.

Lemma batch_of_objects_members_independent_witness :
  exists entries,
    fst (EventController.handleGoldskyWebhook Sample.strict
           (Some (map Some Sample.batch)) Sample.fresh) =
      Js.Returned {| EventController.code := 200;
                     EventController.json :=
                       EventController.Success entries (length entries) |} /\
    length entries = 10%nat /\
    length (EventController.errors entries) = 1%nat /\
    forall ev, In ev Sample.batch -> Sample.lacks_hash ev = false ->
      DatabaseService.persisted ev
        (DatabaseService.committed
           (snd (EventController.handleGoldskyWebhook Sample.strict
                   (Some (map Some Sample.batch)) Sample.fresh))).
Proof.
  destruct (batch_of_objects_members_independent Sample.strict Sample.batch Sample.fresh
              eq_refl)
    as (entries & Hr & _ & Hlen & _ & Hclass).
  destruct (Hclass Sample.lacks_hash sample_strict_reliable sample_batch_classified)
    as (_ & Herrors & Hstored).
  exists entries.
  split; [exact Hr |]. split; [exact Hlen |]. split; [exact Herrors | exact Hstored].
Defined.

(** The ten-member batch on the sample: nine entries processed, one error
    for the fourth member, nine on-chain rows stored. *)
Example batch_of_ten_on_sample :
  exists entries w',
    EventController.handleGoldskyWebhook Sample.strict (Some (map Some Sample.batch))
      Sample.fresh =
      (Js.Returned {| EventController.code := 200;
                      EventController.json := EventController.Success entries 10 |}, w') /\
    map EventController.status entries =
      [ "processed"; "processed"; "processed"; "error"; "processed";
        "processed"; "processed"; "processed"; "processed"; "processed" ] /\
    length (DatabaseService.events_onchain (DatabaseService.committed w')) = 9%nat /\
    size (DatabaseService.events_metadata (DatabaseService.committed w')) = 9%nat.
Proof.
  eexists _, _. split; [vm_compute; reflexivity |]. split; [reflexivity |].
  split; [reflexivity | vm_compute; reflexivity].
Qed.

(** C5 fails on a batch with a [null] member.  Of the ten members of the
    sample batch with [null] in fourth place, the first three are upserted;
    the upsert of [null] throws, the [catch] block of the loop throws again
    when it reads [goldskyEvent.event_id], and the handler leaves the loop:
    it answers 500 with no entry at all, and the six members after the
    [null] are never processed. *)
Lemma C5_null_member_aborts_batch :
  exists w',
    EventController.handleGoldskyWebhook Sample.calm (Some Sample.batch_with_null)
      Sample.fresh =
      (Js.Returned {| EventController.code := 500;
                      EventController.json :=
                        EventController.Failure "Failed to process webhook"
                          (Some "Cannot read properties of null") |}, w') /\
    length Sample.batch_with_null = 10%nat /\
    map EventOnchain.transaction_hash
        (DatabaseService.events_onchain (DatabaseService.committed w')) =
      [Some "0xa1"; Some "0xa2"; Some "0xa3"] /\
    DatabaseService.transaction w' = None.
Proof.
  eexists. split; [vm_compute; reflexivity |].
  split; [reflexivity |]. split; reflexivity.
Qed.

(** ** CreateEvent and the identifier it writes under *)

Section CreateEventIdentifier.

Import Http Handlers.

Variable env : environment.



(** The row [upsert_metadata] leaves under the identifier it is given
    holds the four values of the statement, and the [updated_at] of the
    row it replaced; every other row is as it was. *)
Lemma upsert_metadata_lookup id title description image_url status rows :
  upsert_metadata id title description image_url status rows !! id =
    Some {| Schema.EventsMetadata.title := title;
            Schema.EventsMetadata.description := Some description;
            Schema.EventsMetadata.image_url := Some image_url;
            Schema.EventsMetadata.status := status;
            Schema.EventsMetadata.updated_at :=
              rows !! id ≫= Schema.EventsMetadata.updated_at |}.
Proof.
  unfold upsert_metadata. rewrite lookup_insert_eq.
  destruct (rows !! id); reflexivity.
Qed.

Lemma upsert_metadata_lookup_ne id k title description image_url status rows :
  k <> id ->
  upsert_metadata id title description image_url status rows !! k = rows !! k.
Proof.
  intros Hne. unfold upsert_metadata. apply lookup_insert_ne. congruence.
Qed.



End CreateEventIdentifier.


(** The same request on the sample, run: the answer is 201 with the
    metadata written under 42, nothing is stored under 41, and the join
    under 41 finding no row is in the log. *)
Example create_event_on_sample :
  let run := Handlers.CreateEvent GoSample.offline (Some GoSample.create_41)
               GoSample.start in
  fst run =
    Http.JSON Http.StatusCreated
      (Http.Metadata {| Models.EventMetadata.EventID := 42;
                        Models.EventMetadata.Title := "Meetup";
                        Models.EventMetadata.Status := "REGISTRATION_OPEN";
                        Models.EventMetadata.Description := Some "Monthly meetup";
                        Models.EventMetadata.ImageURL := Some "" |}) /\
  Schema.events_metadata (Handlers.db (snd run)) !! 41 = None /\
  Handlers.logged (snd run) =
    [ "Creating event metadata for EventID: 41, Title: Meetup, Organizer: 0xorganizer";
      "Failed to retrieve complete event details: no rows in result set" ].
Proof. vm_compute. repeat split. Qed.

(** ** Settlement *)

Section Settlement.

Import Http Handlers.

Variable env : environment.

(** C6 (amended): for an event whose stored status is not [LIVE],
    [SettleEvent] changes no table; it answers 400 "Event is not live" when
    the database answers the status query and 500 when it does not.  The
    guard is [SettleEvent]'s alone: [ConfirmSettlement], given a body that
    binds and a database that answers, sets the status to [SETTLED]
    whatever it was and answers 200. *)
Theorem C6_settle_guard eventID id row w :
  int8_in env eventID = Some id ->
  Schema.events_metadata (db w) !! id = Some row ->
  Schema.EventsMetadata.status row <> "LIVE" ->
  db (snd (SettleEvent env eventID w)) = db w /\
  (db_error env (queries w) = None ->
   fst (SettleEvent env eventID w) =
     JSON StatusBadRequest (H_error "Event is not live")) /\
  (db_error env (queries w) <> None ->
   fst (SettleEvent env eventID w) =
     JSON StatusInternalServerError (H_error "Database error")) /\
  (forall req,
     TransactionHash req <> "" -> AttendedParticipants req <> None ->
     db_error env (queries w) = None ->
     code (fst (ConfirmSettlement env eventID (Some req) w)) = StatusOK /\
     Schema.EventsMetadata.status <$>
       Schema.events_metadata (db (snd (ConfirmSettlement env eventID (Some req) w))) !! id
       = Some "SETTLED").
Proof.
  intros Hid Hrow Hstatus.
  assert (Hnot : (Schema.EventsMetadata.status row =? "LIVE")%string = false)
    by (apply String.eqb_neq, Hstatus).
  unfold SettleEvent, ConfirmSettlement, handler, then_, continue, respond, read,
    statement, as_int8, Now, update_settled, bind_ConfirmSettlement.
  rewrite Hid. cbn [queries db logged].
  split; [| split; [| split]].
  - destruct (db_error env (queries w)); [reflexivity |].
    rewrite Hrow, Hnot. reflexivity.
  - intros Hok. rewrite Hok, Hrow, Hnot. reflexivity.
  - intros Hfail. destruct (db_error env (queries w)); [reflexivity | congruence].
  - intros req Hhash Hlist Hok.
    apply String.eqb_neq in Hhash. rewrite Hhash.
    destruct (AttendedParticipants req); [| congruence].
    cbn [queries db logged]. rewrite Hok. cbn [fst snd code db].
    split; [reflexivity |].
    cbn [Schema.with_events_metadata Schema.events_metadata].
    rewrite lookup_alter_eq, Hrow. reflexivity.
Qed.

End Settlement.

(** C6, as stated, fails twice on the stored event 7, whose status is
    [REGISTRATION_OPEN]: [SettleEvent] rejects the request with 400, which is
    not the conflict status 409, and [ConfirmSettlement] writes [SETTLED]
    over the status. *)
Lemma C6_not_a_conflict_and_unguarded_confirm :
  Schema.EventsMetadata.status <$>
    Schema.events_metadata (Handlers.db GoSample.start) !! 7 = Some "REGISTRATION_OPEN" /\
  Http.code (fst (Handlers.SettleEvent GoSample.offline "7" GoSample.start)) =
    Http.StatusBadRequest /\
  Http.StatusBadRequest <> Http.StatusConflict /\
  Schema.EventsMetadata.status <$>
    Schema.events_metadata
      (Handlers.db (snd (Handlers.ConfirmSettlement GoSample.offline "7"
                           (Some GoSample.confirm) GoSample.start))) !! 7
    = Some "SETTLED".
Proof.
  split; [reflexivity |]. split; [reflexivity |]. split; [discriminate | reflexivity].
Qed.

Lemma C6_settle_guard_witness :
  Handlers.db (snd (Handlers.SettleEvent GoSample.offline "7" GoSample.start)) =
    Handlers.db GoSample.start /\
  fst (Handlers.SettleEvent GoSample.offline "7" GoSample.start) =
    Http.JSON Http.StatusBadRequest (Http.H_error "Event is not live").
Proof.
  destruct (C6_settle_guard GoSample.offline "7" 7 (GoSample.metadata "REGISTRATION_OPEN")
              GoSample.start eq_refl eq_refl ltac:(discriminate))
    as (Hsame & Hrejected & _).
  split; [exact Hsame | exact (Hrejected eq_refl)].
Defined.

(** ** Check-in validation *)

Section CheckInValidation.

Import Http Handlers.

Variable env : environment.

Lemma mark_attended_absent u rows :
  List.filter (fun r => String.eqb (Schema.Participant.user_id r) u) rows = [] ->
  map (mark_attended u) rows = rows.
Proof.
  induction rows as [| r rows IH]; [reflexivity |].
  cbn [List.filter map]. unfold mark_attended at 1.
  destruct (Schema.Participant.user_id r =? u)%string; [discriminate |].
  intros Hrest. rewrite (IH Hrest). reflexivity.
Qed.

Lemma mark_attended_present u rows :
  List.filter (fun r => String.eqb (Schema.Participant.user_id r) u) rows <> [] ->
  exists r, In r (map (mark_attended u) rows) /\
            Schema.Participant.user_id r = u /\ Schema.Participant.is_attend r = true.
Proof.
  induction rows as [| r rows IH]; [intros H; destruct (H eq_refl) |].
  cbn [List.filter map].
  destruct (Schema.Participant.user_id r =? u)%string eqn:Hr.
  - intros _. exists (mark_attended u r). split; [left; reflexivity |].
    unfold mark_attended. rewrite Hr. apply String.eqb_eq in Hr. split; [exact Hr | reflexivity].
  - intros Hrest. destruct (IH Hrest) as (r' & Hin & Hu & Ha).
    exists r'. split; [right; exact Hin | split; assumption].
Qed.

(** The propagation never responds: whatever fails in it, the handler goes
    on to its final [c.JSON]; and it touches the [participant] table only. *)
Lemma propagate_attendance_continues checkin w :
  fst (propagate_attendance env checkin w) = Continue tt /\
  Schema.checkins (db (snd (propagate_attendance env checkin w))) = Schema.checkins (db w) /\
  carried_or_logged checkin w (snd (propagate_attendance env checkin w)).
Proof.
  unfold propagate_attendance, then_, continue, read, statement, Printf,
    update_participant, insert_participant, carried_or_logged.
  cbn [queries db logged].
  destruct (db_error env (queries w)) as [e |]; cbn [fst snd queries db logged].
  { split; [reflexivity |]. split; [reflexivity |]. right. eexists. repeat split. }
  destruct (Schema.profiles (db w) !! Models.CheckIn.UserAddress checkin) as [p |] eqn:Hp;
    cbn [fst snd queries db logged].
  2: { split; [reflexivity |]. split; [reflexivity |]. right. eexists. repeat split. }
  destruct (db_error env (S (queries w))) as [e |]; cbn [fst snd queries db logged].
  { split; [reflexivity |]. split; [reflexivity |]. right. eexists. repeat split. }
  set (mine := List.filter
                 (fun r => String.eqb (Schema.Participant.user_id r) (Schema.Profiles.id p))
                 (Schema.participant (db w))).
  destruct (Z.eqb_spec (Z.of_nat (length mine)) 0) as [Hnone | Hsome];
    cbn [fst snd queries db logged].
  - assert (Hmine : mine = []) by (destruct mine; [reflexivity | simpl in Hnone; lia]).
    pose proof (mark_attended_absent _ _ Hmine) as Hsame.
    cbn [Schema.with_participant Schema.participant Schema.events_onchain].
    rewrite Hsame.
    destruct (db_error env (S (S (queries w)))) as [e |];
      cbn [fst snd queries db logged Schema.with_participant Schema.participant
           Schema.checkins].
    { split; [reflexivity |]. split; [reflexivity |]. right. eexists. repeat split. }
    destruct (int8_in env (Models.CheckIn.EventID checkin)) as [id |];
      cbn [fst snd queries db logged Schema.with_participant Schema.participant
           Schema.checkins].
    2: { split; [reflexivity |]. split; [reflexivity |]. right. eexists. repeat split. }
    destruct (existsb _ (Schema.participant (db w)));
      cbn [fst snd queries db logged Schema.with_participant Schema.participant
           Schema.checkins].
    { split; [reflexivity |]. split; [reflexivity |]. right. eexists. repeat split. }
    destruct (existsb _ (Schema.participant (db w)));
      cbn [fst snd queries db logged Schema.with_participant Schema.participant
           Schema.checkins].
    { split; [reflexivity |]. split; [reflexivity |]. right. eexists. repeat split. }
    destruct (negb _);
      cbn [fst snd queries db logged Schema.with_participant Schema.participant
           Schema.checkins].
    { split; [reflexivity |]. split; [reflexivity |]. right. eexists. repeat split. }
    split; [reflexivity |]. split; [reflexivity |]. left.
    eexists p, _, _. split; [reflexivity |].
    split; [apply in_or_app; right; left; reflexivity |].
    repeat split.
  - assert (Hmine : mine <> []) by (intros H; rewrite H in Hsome; apply Hsome; reflexivity).
    destruct (mark_attended_present _ _ Hmine) as (r & Hin & Hu & Ha).
    split; [reflexivity |]. split; [reflexivity |]. left.
    exists p, r. eexists. cbn [Schema.with_participant Schema.participant].
    repeat split; assumption.
Qed.

(** C7: once the check-in row is updated, nothing that goes wrong while
    the attendance mark is carried to the [participant] table changes the
    answer.  When the request binds, the caller is the organizer of the
    event of the check-in and the database answers the first three
    statements, the handler answers 200 with the updated check-in and the
    update stays in [checkins], whatever the later statements do.  With
    [is_valid] set the handler writes exactly one log line: either a
    [participant] row of the user is marked attended and the line is the
    notice of it, or the [participant] table is untouched and the line is
    a warning.  Without [is_valid] nothing is carried and nothing is
    logged. *)
Theorem C7_propagation_failure_swallowed user_address req w row ev :
  Models.ValidateCheckInRequest.CheckInID req <> "" ->
  user_address <> "" ->
  Schema.checkins (db w) !! Models.ValidateCheckInRequest.CheckInID req = Some row ->
  Schema.events (db w) !! Schema.Checkins.event_id row = Some ev ->
  Schema.Events.organizer_address ev = user_address ->
  db_error env (queries w) = None ->
  db_error env (S (queries w)) = None ->
  db_error env (S (S (queries w))) = None ->
  let id := Models.ValidateCheckInRequest.CheckInID req in
  let is_valid := Models.ValidateCheckInRequest.IsValid req in
  let validatedAt := if is_valid then time_now env (S (S (queries w))) else zero_time in
  let row' := validate_row is_valid validatedAt user_address row in
  let w' := snd (ValidateCheckIn env user_address (Some req) w) in
  exists checkin,
    scan_checkin id row' = Ok checkin /\
    fst (ValidateCheckIn env user_address (Some req) w) = JSON StatusOK (CheckIn checkin) /\
    Schema.checkins (db w') = <[id := row']> (Schema.checkins (db w)) /\
    (is_valid = true ->
     (exists p r line,
        Schema.profiles (db w) !! Schema.Checkins.user_address row = Some p /\
        In r (Schema.participant (db w')) /\
        Schema.Participant.user_id r = Schema.Profiles.id p /\
        Schema.Participant.is_attend r = true /\
        logged w' = logged w ++ [line] /\
        is_notice line = true) \/
     (exists line,
        logged w' = logged w ++ [line] /\
        is_warning line = true /\
        Schema.participant (db w') = Schema.participant (db w))) /\
    (is_valid = false ->
     logged w' = logged w /\
     Schema.participant (db w') = Schema.participant (db w)).
Proof.
  intros Hid Huser Hrow Hev Horg H0 H1 H2 id is_valid validatedAt row' w'.
  subst id is_valid validatedAt row' w'. eexists. split; [reflexivity |].
  apply String.eqb_neq in Hid, Huser.
  unfold ValidateCheckIn, handler, then_, continue, respond, read, statement, Now,
    bind_ValidateCheckIn, update_checkin.
  rewrite Hid, Huser. cbn [queries db logged].
  rewrite H0, Hrow. cbn [queries db logged].
  rewrite H1, Hev, Horg, String.eqb_refl. cbn [negb queries db logged].
  destruct (Models.ValidateCheckInRequest.IsValid req) eqn:Hvalid;
    cbn [queries db logged]; rewrite H2, Hrow;
    cbn [scan_checkin validate_row Schema.Checkins.validated_by queries db logged
         fst snd].
  - match goal with
    | |- context [propagate_attendance env ?c ?w0] =>
        destruct (propagate_attendance_continues c w0) as (Hgo & Hkeep & Hmark);
        destruct (propagate_attendance env c w0) as [s w1]
    end.
    cbn [fst snd] in Hgo, Hkeep, Hmark. subst s. cbn [fst snd].
    split; [reflexivity |]. split; [exact Hkeep |].
    split; [intros _; exact Hmark | intros Hfalse; discriminate].
  - split; [reflexivity |]. split; [reflexivity |].
    split; [intros Hfalse; discriminate | intros _; split; reflexivity].
Qed.

End CheckInValidation.

Lemma C7_propagation_failure_swallowed_witness :
  exists checkin,
    fst (Handlers.ValidateCheckIn GoSample.degraded "0xorganizer" (Some GoSample.validate_c1)
           GoSample.start) = Http.JSON Http.StatusOK (Http.CheckIn checkin) /\
    Models.CheckIn.IsValidated checkin = true.
Proof.
  destruct (C7_propagation_failure_swallowed GoSample.degraded "0xorganizer"
              GoSample.validate_c1 GoSample.start GoSample.checkin_of_alice
              {| Schema.Events.organizer_address := "0xorganizer";
                 Schema.Events.status := "active" |}
              ltac:(discriminate) ltac:(discriminate)
              eq_refl eq_refl eq_refl eq_refl eq_refl eq_refl)
    as (checkin & Hscan & Hanswer & _).
  exists checkin. split; [exact Hanswer |].
  injection Hscan as <-. reflexivity.
Defined.

(** The degraded database on the sample: the profile lookup fails after the
    check-in update, the handler still answers 200, the check-in is
    validated, no participant row is written and the failure is in the log. *)
Example validate_checkin_on_degraded_database :
  let run := Handlers.ValidateCheckIn GoSample.degraded "0xorganizer"
               (Some GoSample.validate_c1) GoSample.start in
  Http.code (fst run) = Http.StatusOK /\
  Schema.Checkins.is_validated <$> Schema.checkins (Handlers.db (snd run)) !! "c1"
    = Some true /\
  Schema.participant (Handlers.db (snd run)) = [] /\
  Handlers.logged (snd run) =
    [ "Warning: Could not find user profile for wallet address " +:+
      GoSample.alice_wallet +:+ ": connection reset by peer" ].
Proof. vm_compute. repeat split. Qed.

(** The answering database on the sample: the profile is found, Alice has
    no participant row yet, so one is inserted as attended and the notice
    of it is the one line logged. *)
Example validate_checkin_on_answering_database :
  let run := Handlers.ValidateCheckIn GoSample.offline "0xorganizer"
               (Some GoSample.validate_c1) GoSample.start in
  Http.code (fst run) = Http.StatusOK /\
  Schema.participant (Handlers.db (snd run)) =
    [ {| Schema.Participant.event_id := 7;
         Schema.Participant.user_id := Schema.Profiles.id GoSample.alice;
         Schema.Participant.is_attend := true;
         Schema.Participant.is_claim := false |} ] /\
  Handlers.logged (snd run) =
    [ "Successfully inserted participant record: event 7, user " +:+
      Schema.Profiles.id GoSample.alice +:+ " marked as attended" ].
Proof. vm_compute. repeat split. Qed.

(** ** Reads that call the blockchain node *)

Section ContractReads.

Import Http Handlers.

Variable env : environment.

(** One event of the listing: the count is zero when the call for its
    vault fails, and no table changes. *)
Lemma current_participants_degrades event w :
  exists n,
    fst (current_participants env event w) = Continue n /\
    db (snd (current_participants env event w)) = db w /\
    queries (snd (current_participants env event w)) = queries w /\
    ((exists e, getParticipantCountFromContract env (Models.EventDetail.VaultAddress event)
                = Err e) -> n = 0).
Proof.
  unfold current_participants, then_, continue, Printf.
  destruct (negb _).
  - destruct (getParticipantCountFromContract env (Models.EventDetail.VaultAddress event))
      as [n | | e]; cbn [fst snd db queries].
    + eexists. repeat split. intros (e & He). discriminate.
    + eexists. repeat split.
    + eexists. repeat split.
  - eexists. repeat split.
Qed.

Lemma scan_events_degrades rows : forall events w,
  degraded_counts env events ->
  exists events',
    fst (scan_events env rows events w) = Continue events' /\
    db (snd (scan_events env rows events w)) = db w /\
    queries (snd (scan_events env rows events w)) = queries w /\
    length events' = (length events + length rows)%nat /\
    degraded_counts env events'.
Proof.
  induction rows as [| [event_id [eo em]] rows IH]; intros events w Hevents.
  - exists events. cbn [scan_events]. unfold continue. cbn [fst snd length].
    repeat split; [lia | exact Hevents].
  - cbn [scan_events]. unfold then_.
    destruct (current_participants_degrades (scan_detail event_id eo em) w)
      as (n & Hn & Hdb & Hq & Hzero).
    destruct (current_participants env (scan_detail event_id eo em) w) as [s w1].
    cbn [fst snd] in Hn, Hdb, Hq. subst s.
    match goal with
    | |- context [scan_events env rows ?acc w1] =>
        destruct (IH acc w1) as (events' & Hr & Hdb' & Hq' & Hlen & Hall)
    end.
    { apply Forall_app. split; [exact Hevents |].
      constructor; [| constructor]. exact Hzero. }
    exists events'. split; [exact Hr |]. split; [congruence |]. split; [congruence |].
    split; [| exact Hall].
    rewrite Hlen, length_app. cbn [length]. lia.
Qed.

(** C8: a failed contract call fails no read and changes no table.
    [GetProfile], for a stored profile and a database that answers, answers
    200 with the balance ["0"] when the balance call fails.  [GetEvents],
    for a database that answers its two statements, answers 200 with one
    event per selected row, and every event whose participant-count call
    fails reports zero participants. *)
Theorem C8_contract_failure_degrades :
  (forall walletAddress profile w e,
     Schema.profiles (db w) !! walletAddress = Some profile ->
     db_error env (queries w) = None ->
     getUSDCBalanceFromContract env walletAddress = Err e ->
     fst (GetProfile env walletAddress w) =
       JSON StatusOK
         (H_profile (Schema.Profiles.id profile) walletAddress
            (Schema.Profiles.name profile) (Schema.Profiles.email profile) "0") /\
     db (snd (GetProfile env walletAddress w)) = db w) /\
  (forall q rows w,
     select_events q (db w) = Ok rows ->
     db_error env (queries w) = None ->
     db_error env (S (queries w)) = None ->
     exists events total,
       fst (GetEvents env q w) = JSON StatusOK (H_events events total (page q) (limit q)) /\
       length events = length rows /\
       Forall (fun event =>
                 (exists e, getParticipantCountFromContract env
                              (Models.EventDetail.VaultAddress event) = Err e) ->
                 Models.EventDetail.CurrentParticipants event = 0) events /\
       db (snd (GetEvents env q w)) = db w).
Proof.
  split.
  - intros walletAddress profile w e Hprofile Hok Hcall.
    unfold GetProfile, handler, then_, continue, respond, read, statement, Printf.
    rewrite Hok, Hprofile, Hcall. cbn [fst snd db]. split; reflexivity.
  - intros q rows w Hrows Hok1 Hok2.
    unfold GetEvents, handler, then_, continue, respond, read, statement.
    rewrite Hok1, Hrows.
    match goal with
    | |- context [scan_events env rows [] ?w0] =>
        destruct (scan_events_degrades rows [] w0 (List.Forall_nil _))
          as (events & Hr & Hdb & Hq & Hlen & Hall);
        destruct (scan_events env rows [] w0) as [s w1]
    end.
    cbn [fst snd db queries] in Hr, Hdb, Hq. subst s.
    rewrite Hq, Hok2. unfold count_events. cbn [fst snd db].
    eexists events, _. split; [reflexivity |]. split; [exact Hlen |].
    split; [exact Hall | exact Hdb].
Qed.

End ContractReads.

Lemma C8_contract_failure_degrades_witness :
  fst (Handlers.GetProfile GoSample.offline GoSample.alice_wallet GoSample.start) =
    Http.JSON Http.StatusOK
      (Http.H_profile "5b1c1f0e-0000-4000-8000-000000000001" GoSample.alice_wallet
         (Some "Alice") None "0") /\
  exists events total,
    fst (Handlers.GetEvents GoSample.offline GoSample.first_page GoSample.start) =
      Http.JSON Http.StatusOK (Http.H_events events total 1 10) /\
    length events = 1%nat.
Proof.
  destruct (C8_contract_failure_degrades GoSample.offline) as [Hprofile Hevents].
  split.
  - apply (Hprofile GoSample.alice_wallet GoSample.alice GoSample.start
             "failed to call balanceOf: dial tcp: connection refused");
      reflexivity.
  - destruct (Hevents GoSample.first_page
                [(7, (GoSample.onchain "0xvault7", GoSample.metadata "REGISTRATION_OPEN"))]
                GoSample.start eq_refl eq_refl eq_refl)
      as (events & total & Hanswer & Hlen & _).
    exists events, total. split; [exact Hanswer | exact Hlen].
Defined.

(** The listing on the sample while the node is down: one event, with no
    participant, and the failure in the log. *)
Example get_events_while_node_is_down :
  let run := Handlers.GetEvents GoSample.offline GoSample.first_page GoSample.start in
  (exists event,
     fst run = Http.JSON Http.StatusOK (Http.H_events [event] 1 1 10) /\
     Models.EventDetail.EventID event = 7 /\
     Models.EventDetail.CurrentParticipants event = 0) /\
  Handlers.db (snd run) = Handlers.db GoSample.start /\
  Handlers.logged (snd run) =
    [ "Failed to get participant count for event 7: failed to call getParticipantCount: dial tcp: connection refused" ].
Proof.
  split; [eexists; split; [vm_compute; reflexivity | split; reflexivity] |].
  split; vm_compute; reflexivity.
Qed.


(** * Further properties of the models *)

Section MetadataMethods.

Import EventMetadata EventMetadataMethods.

(** The status the constructor leaves is the status given, or
    [REGISTRATION_OPEN] when none or an empty one is given. *)
Lemma new_status_valid data :
  status data = None \/ status data = Some "" \/
  includes validStatuses (status data) = true ->
  includes validStatuses (status (new data)) = true.
Proof.
  cbn [new status]. intros [-> | [-> | Hvalid]]; [reflexivity | reflexivity |].
  destruct (status data) as [s |]; [| discriminate].
  cbn [Js.or_else]. destruct (Js.truthy_string s); [exact Hvalid | reflexivity].
Qed.

Lemma invoke_status_valid m this :
  includes validStatuses (status this) = true ->
  includes validStatuses (status (invoke m this)) = true.
Proof.
  intros Hvalid. destruct m; cbn [invoke].
  - unfold updateStatusBasedOnTime.
    destruct (_ <? registrationDeadline); [reflexivity |].
    destruct (_ <? eventDate); [| reflexivity].
    destruct (0 <? _); reflexivity.
  - exact Hvalid.
  - reflexivity.
  - exact Hvalid.
  - unfold decrementParticipantCount. destruct (0 <? _); exact Hvalid.
Qed.

(** An instance built from data whose status is one of the five, or
    missing, or empty, has one of the five statuses after every sequence
    of calls: [validate()] then never reports the status, and whatever it
    reports is one of the three required fields. *)
Theorem status_valid_through_methods data ms :
  status data = None \/ status data = Some "" \/
  includes validStatuses (status data) = true ->
  includes validStatuses (status (invoke_all ms (new data))) = true /\
  forall e, In e (errors (validate (invoke_all ms (new data)))) ->
            In e ["event_id is required"; "title is required";
                  "organizer_profile_id is required"].
Proof.
  intros Hdata. apply new_status_valid in Hdata.
  assert (Hvalid : includes validStatuses (status (invoke_all ms (new data))) = true).
  { unfold invoke_all. generalize dependent (new data). clear data.
    induction ms as [| m ms IH]; intros this Hthis; [exact Hthis |].
    cbn [fold_left]. apply IH, invoke_status_valid, Hthis. }
  split; [exact Hvalid |].
  unfold validate. cbn [errors]. rewrite Hvalid. cbn [negb push_when].
  intros e.
  destruct (not_string (event_id _)), (not_string (title _)),
    (not_string (organizer_profile_id _)); cbn [push_when app In]; tauto.
Qed.

(** A request cannot set the state of the event it creates: whatever
    [status], participant count, yield flags and amounts or stamps the
    request data carries, the instance [fromApiRequest] makes has the
    status [REGISTRATION_OPEN], no participant, nothing deposited or
    settled and no stamps; and it passes [validate()] exactly when the
    identifier, the title and the organizer profile are given and not
    empty. *)
Theorem from_api_request_takes_no_state eventId requestData :
  let m := fromApiRequest eventId requestData in
  status m = Some REGISTRATION_OPEN /\
  current_participants m = Some 0 /\
  deposited_to_yield m = Some false /\
  event_settled m = Some false /\
  total_yield_earned m = Some 0 /\
  total_net_yield m = Some 0 /\
  created_at m = None /\ updated_at m = None /\
  (isValid (validate m) = true <->
   not_string eventId = false /\ not_string (title requestData) = false /\
   not_string (organizer_profile_id requestData) = false).
Proof.
  cbn zeta. repeat (split; [reflexivity |]).
  unfold validate, fromApiRequest.
  cbn [new event_id title organizer_profile_id status Js.or_else includes validStatuses
       existsb isValid].
  assert (Hnot : forall v, not_string (Js.or_null Js.truthy_string v) = not_string v).
  { intros [s |]; [| reflexivity]. cbn [Js.or_null not_string].
    destruct (Js.truthy_string s) eqn:Hs; cbn [not_string]; rewrite ?Hs; reflexivity. }
  rewrite !Hnot.
  destruct (not_string eventId), (not_string (title requestData)),
    (not_string (organizer_profile_id requestData));
    cbn; intuition discriminate.
Qed.

(** The status [updateStatusBasedOnTime] derives does not depend on the
    status before: it is the same for two instances with the same
    participant count, and never [SETTLED].  A settled event that is
    updated by time therefore leaves [SETTLED] while its [event_settled]
    flag stays set. *)
Theorem derived_status_forgets_settlement date_now iso_now registrationDeadline eventDate
    totalYieldEarned totalNetYield settled_at this :
  let settled := markAsSettled totalYieldEarned totalNetYield settled_at this in
  let updated :=
    updateStatusBasedOnTime date_now iso_now registrationDeadline eventDate settled in
  status settled = Some SETTLED /\
  status updated =
    status (updateStatusBasedOnTime date_now iso_now registrationDeadline eventDate this) /\
  status updated <> Some SETTLED /\
  event_settled updated = Some true.
Proof.
  cbn zeta. split; [reflexivity |].
  unfold updateStatusBasedOnTime.
  cbn [markAsSettled current_participants].
  destruct (_ <? registrationDeadline); [repeat split; discriminate |].
  destruct (_ <? eventDate); [| repeat split; discriminate].
  destruct (0 <? _); repeat split; discriminate.
Qed.

End MetadataMethods.

Lemma status_valid_through_methods_witness :
  EventMetadata.status
    (EventMetadataMethods.invoke_all
       [ EventMetadataMethods.IncrementParticipantCount "2025-01-01T00:00:00.000Z";
         EventMetadataMethods.MarkAsSettled (Some 5) (Some 4) "2025-01-03T00:00:00.000Z";
         EventMetadataMethods.UpdateStatusBasedOnTime 1735800000000
           "2025-01-03T00:00:01.000Z" 1735776000 1735862400 ]
       EventMetadata.empty)
  = Some "REGISTRATION_CLOSED" /\
  EventMetadataMethods.includes EventMetadataMethods.validStatuses
    (EventMetadata.status
       (EventMetadataMethods.invoke_all
          [ EventMetadataMethods.IncrementParticipantCount "2025-01-01T00:00:00.000Z";
            EventMetadataMethods.MarkAsSettled (Some 5) (Some 4)
              "2025-01-03T00:00:00.000Z";
            EventMetadataMethods.UpdateStatusBasedOnTime 1735800000000
              "2025-01-03T00:00:01.000Z" 1735776000 1735862400 ]
          EventMetadata.empty)) = true.
Proof.
  split; [reflexivity |].
  apply (status_valid_through_methods ModelCases.no_properties).
  left. reflexivity.
Defined.

(** ** Registration open, by two clocks *)

Section RegistrationOpen.

Import EventMethods.

(** [Event.isRegistrationOpen()] compares milliseconds and
    [EventMetadata.updateStatusBasedOnTime] whole seconds; for the
    deadline of the on-chain record (not zero, and a time a [Date] can
    hold) they agree at every instant: registration is open by the one
    exactly when the status derived by the other is [REGISTRATION_OPEN]. *)
Theorem registration_open_by_both_clocks date_now iso_now eventDate deadline this :
  EventOnchain.registration_deadline (Event.onchain this) = Some deadline ->
  deadline <> 0 ->
  Z.abs deadline <= 8640000000000 ->
  isRegistrationOpen date_now this = true <->
  EventMetadata.status
    (EventMetadata.updateStatusBasedOnTime date_now iso_now deadline eventDate
       (Event.metadata this)) = Some EventMetadata.REGISTRATION_OPEN.
Proof.
  intros Hdeadline Hnonzero Hrange.
  unfold isRegistrationOpen, getRegistrationDeadline, new_Date.
  rewrite Hdeadline. cbn [Js.or_null]. unfold Js.truthy_number.
  apply Z.eqb_neq in Hnonzero. rewrite Hnonzero. cbn [negb getTime].
  destruct (Z.leb_spec (Z.abs (deadline * 1000)) 8640000000000000) as [_ | Hout];
    [| lia].
  unfold EventMetadata.updateStatusBasedOnTime.
  destruct (Z.ltb_spec (date_now / 1000) deadline) as [Hs | Hs].
  - split; [reflexivity |]. intros _. apply Z.ltb_lt.
    pose proof (Z.div_mod date_now 1000 ltac:(lia)) as Hdiv.
    pose proof (Z.mod_pos_bound date_now 1000 ltac:(lia)) as Hmod. lia.
  - split.
    + intros Hms. apply Z.ltb_lt in Hms.
      pose proof (Z.div_mod date_now 1000 ltac:(lia)) as Hdiv.
      pose proof (Z.mod_pos_bound date_now 1000 ltac:(lia)) as Hmod. lia.
    + destruct (_ <? eventDate); [| discriminate].
      destruct (0 <? _); discriminate.
Qed.

(** An event whose on-chain record has no capacity -- [max_participant]
    missing or zero, which the constructor stores as [null] -- is full
    from the start: no one can register for it, at any time and whatever
    its status. *)
Theorem no_capacity_no_registration date_now onchain metadata :
  Js.or_null Js.truthy_number (EventOnchain.max_participant onchain) = None ->
  0 <= Js.to_number (EventMetadata.current_participants metadata) ->
  isEventFull (Event.new onchain metadata) = true /\
  canUserRegister date_now (Event.new onchain metadata) = false.
Proof.
  intros Hmax Hcount.
  assert (Hfull : isEventFull (Event.new onchain metadata) = true).
  { unfold isEventFull.
    cbn [Event.new Event.max_participants Event.metadata EventOnchain.new
         EventOnchain.max_participant EventMetadata.new
         EventMetadata.current_participants].
    rewrite Hmax. cbn [Js.to_number]. apply Z.leb_le.
    destruct (EventMetadata.current_participants metadata) as [n |];
      cbn [Js.or_else Js.to_number] in *; [| lia].
    destruct (Js.truthy_number n); cbn [Js.to_number]; lia. }
  split; [exact Hfull |].
  unfold canUserRegister. rewrite Hfull. cbn [negb]. rewrite andb_false_r. reflexivity.
Qed.

End RegistrationOpen.

(** One millisecond before the deadline of the sample event. *)
Lemma registration_open_by_both_clocks_witness :
  EventMethods.isRegistrationOpen 1735775999999 ModelCases.indexed = true /\
  EventMethods.isRegistrationOpen 1735776000000 ModelCases.indexed = false.
Proof.
  split.
  - apply (registration_open_by_both_clocks 1735775999999 "2025-01-01T23:59:59.999Z"
             1735862400 1735776000 ModelCases.indexed);
      [reflexivity | lia | vm_compute; discriminate | reflexivity].
  - apply not_true_is_false. intros Hopen.
    apply (registration_open_by_both_clocks 1735776000000 "2025-01-02T00:00:00.000Z"
             1735862400 1735776000 ModelCases.indexed) in Hopen;
      [discriminate | reflexivity | lia | vm_compute; discriminate].
Defined.

Lemma no_capacity_no_registration_witness :
  EventMethods.canUserRegister 1735689600000
    (Event.new ModelCases.no_seats ModelCases.no_properties) = false.
Proof.
  apply (no_capacity_no_registration 1735689600000 ModelCases.no_seats
           ModelCases.no_properties); [reflexivity | vm_compute; discriminate].
Defined.


(** * Further properties of the indexer path *)

Section IndexerKeeps.

Import DatabaseService EventController Indexed.

Variable pg : server.

Lemma extends_refl t : extends t t.
Proof.
  split; [exists []; rewrite app_nil_r; reflexivity |].
  split; [intros e m Hm; exact Hm | reflexivity].
Qed.

Lemma extends_trans t1 t2 t3 : extends t1 t2 -> extends t2 t3 -> extends t1 t3.
Proof.
  intros ([a1 H1] & Hm1 & Hp1) ([a2 H2] & Hm2 & Hp2).
  split; [exists (a1 ++ a2); rewrite H2, H1, app_assoc; reflexivity |].
  split; [intros e m Hm; apply Hm2, Hm1, Hm | congruence].
Qed.

Lemma unstamped_set_updated_at now r :
  unstamped (EventOnchain.set_updated_at now r) = unstamped r.
Proof. reflexivity. Qed.

(** The tables after a whole upsert hold whatever they held before. *)
Lemma extends_upsert_effect n ev t : extends t (upsert_effect pg n ev t).
Proof.
  unfold upsert_effect, upsert_onchain. split; [| split; [| reflexivity]].
  - cbn [events_onchain].
    destruct (existsb _ (events_onchain t)); cbn [fst].
    + exists []. rewrite app_nil_r.
      induction (events_onchain t) as [| r rows IH]; [reflexivity |].
      cbn [map]. rewrite IH. destruct (same_hash _ r); reflexivity.
    + eexists. rewrite map_app. reflexivity.
  - intros e m Hm. cbn [events_metadata].
    destruct (EventOnchain.event_id ev) as [e' |]; [| exact Hm].
    unfold insert_metadata. destruct (events_metadata t !! e') eqn:Hm'; [exact Hm |].
    rewrite lookup_insert_ne; [exact Hm | congruence].
Qed.

(** One upsert, of an object or of [null], whatever the server refuses:
    it ends with no transaction open and the committed tables hold
    whatever they held before. *)
Lemma upsert_member_extends member w :
  transaction w = None ->
  transaction (snd (upsertEventFromGoldsky pg member w)) = None /\
  extends (committed w) (committed (snd (upsertEventFromGoldsky pg member w))).
Proof.
  intros Hclean. destruct member as [ev |].
  - destruct (upsert_all_or_nothing pg ev w Hclean) as (log & _ & Htx & Hcase).
    split; [exact Htx |].
    destruct (fst (upsertEventFromGoldsky pg (Some ev) w)).
    + destruct Hcase as (_ & _ & _ & ->). apply extends_upsert_effect.
    + destruct Hcase as (_ & ->). apply extends_refl.
  - destruct (upsert_of_null pg w Hclean) as (_ & Htx & ->).
    split; [exact Htx | apply extends_refl].
Qed.

(** The upsert only adds.  Whatever the member is and whatever the server
    refuses, no on-chain row is removed or changed in a column other than
    [updated_at], no existing metadata row is changed, and no profile is
    touched. *)
Theorem upsert_only_adds member w :
  transaction w = None ->
  extends (committed w) (committed (snd (upsertEventFromGoldsky pg member w))).
Proof.
  intros Hclean. apply upsert_member_extends, Hclean.
Qed.

(** The [try]/[catch] of the loop: an object is always answered with an
    entry; [null] makes the [catch] block itself throw. *)
Lemma process_member member w :
  transaction w = None ->
  transaction (snd (process pg member w)) = None /\
  extends (committed w) (committed (snd (process pg member w))) /\
  match member with
  | Some _ => exists p, fst (process pg member w) = Js.Returned p
  | None => exists e, fst (process pg member w) = Js.Thrown e
  end.
Proof.
  intros Hclean.
  destruct (upsert_member_extends member w Hclean) as (Htx & Hext).
  destruct member as [ev |].
  - destruct (process_one pg ev w Hclean) as (p & Hp & _).
    revert Htx Hext Hp.
    unfold process, Js.try_catch, Js.bind, Js.object_of, Js.ret.
    destruct (upsertEventFromGoldsky pg (Some ev) w) as [[row | e] w'];
      cbn [fst snd]; intros Htx Hext Hp; (split; [exact Htx |]);
      (split; [exact Hext |]); eauto.
  - destruct (upsert_of_null pg w Hclean) as ((e & He) & _).
    revert Htx Hext He.
    unfold process, Js.try_catch, Js.bind, Js.object_of, Js.ret, Js.throw.
    destruct (upsertEventFromGoldsky pg None w) as [[row | e'] w'];
      cbn [fst snd]; intros Htx Hext He; [discriminate |].
    split; [exact Htx |]. split; [exact Hext |]. eauto.
Qed.

(** The loop: it returns one entry for each member when no member is
    [null], and throws when one is. *)
Lemma process_all_members events : forall acc w,
  transaction w = None ->
  transaction (snd (process_all pg events acc w)) = None /\
  extends (committed w) (committed (snd (process_all pg events acc w))) /\
  if existsb is_null events
  then exists e, fst (process_all pg events acc w) = Js.Thrown e
  else exists entries,
         fst (process_all pg events acc w) = Js.Returned entries /\
         length entries = (length acc + length events)%nat.
Proof.
  induction events as [| member events IH]; intros acc w Hclean.
  - cbn [process_all existsb length]. unfold Js.ret. cbn [fst snd].
    split; [exact Hclean |]. split; [apply extends_refl |].
    exists acc. split; [reflexivity | lia].
  - destruct (process_member member w Hclean) as (Htx & Hext & Hcase).
    cbn [process_all existsb length]. unfold Js.bind.
    destruct (process pg member w) as [[p | e] w1]; cbn [fst snd] in *.
    + destruct member as [ev |]; [| destruct Hcase; discriminate].
      cbn [is_null orb].
      destruct (IH (acc ++ [p]) w1 Htx) as (Htx' & Hext' & Hcase').
      split; [exact Htx' |].
      split; [exact (extends_trans _ _ _ Hext Hext') |].
      destruct (existsb is_null events); [exact Hcase' |].
      destruct Hcase' as (entries & Hentries & Hlen). exists entries.
      split; [exact Hentries |]. rewrite Hlen, length_app. cbn [length]. lia.
    + destruct member as [ev |]; [destruct Hcase; discriminate |].
      cbn [is_null orb fst snd].
      split; [exact Htx |]. split; [exact Hext |]. eauto.
Qed.

(** The webhook only adds: for every payload and whatever the server
    refuses, the committed tables afterwards hold whatever they held -- no
    on-chain row removed or changed outside [updated_at], no existing
    metadata row changed, no profile touched -- and no transaction is left
    open. *)
Theorem webhook_only_adds payload w :
  transaction w = None ->
  extends (committed w) (committed (snd (handleGoldskyWebhook pg payload w))) /\
  transaction (snd (handleGoldskyWebhook pg payload w)) = None.
Proof.
  intros Hclean.
  unfold handleGoldskyWebhook, Js.try_catch, Js.bind, Js.ret.
  destruct payload as [events |]; cbn [fst snd];
    [| split; [apply extends_refl | exact Hclean]].
  destruct (process_all_members events [] w Hclean) as (Htx & Hext & _).
  destruct (process_all pg events [] w) as [[entries | e] w1]; cbn [fst snd] in *;
    split; assumption.
Qed.

(** The webhook always answers, and its status code is decided by the
    shape of the payload alone: 400 for a payload whose [events] is not an
    array (nothing is sent to the database), 500 for an array with a
    [null] member, and 200 with one entry for each member for every other
    array -- whatever the server refuses. *)
Theorem webhook_status_by_payload payload w :
  transaction w = None ->
  exists response,
    fst (handleGoldskyWebhook pg payload w) = Js.Returned response /\
    match payload with
    | None =>
        response = {| code := 400; json := Failure "Invalid webhook payload" None |} /\
        snd (handleGoldskyWebhook pg payload w) = w
    | Some events =>
        if existsb is_null events then
          exists e,
            response = {| code := 500;
                          json := Failure "Failed to process webhook" (Some e) |}
        else
          exists entries,
            response = {| code := 200; json := Success entries (length events) |} /\
            length entries = length events
    end.
Proof.
  intros Hclean.
  unfold handleGoldskyWebhook, Js.try_catch, Js.bind, Js.ret.
  destruct payload as [events |]; cbn [fst snd];
    [| eexists; split; [reflexivity | split; reflexivity]].
  destruct (process_all_members events [] w Hclean) as (_ & _ & Hcase).
  destruct (process_all pg events [] w) as [result w1]. cbn [fst snd] in Hcase.
  destruct (existsb is_null events).
  - destruct Hcase as (e & ->). cbn [fst snd].
    eexists. split; [reflexivity |]. eauto.
  - destruct Hcase as (entries & -> & Hlen). cbn [fst snd].
    cbn [length Nat.add] in Hlen.
    eexists. split; [reflexivity |]. exists entries. rewrite Hlen.
    split; reflexivity.
Qed.

End IndexerKeeps.

Lemma upsert_only_adds_witness :
  Indexed.extends
    (DatabaseService.committed Sample.indexed_only)
    (DatabaseService.committed
       (snd (DatabaseService.upsertEventFromGoldsky Sample.calm
               (Some (Sample.delivery (Some "0xbb") "43")) Sample.indexed_only))).
Proof.
  apply (upsert_only_adds Sample.calm (Some (Sample.delivery (Some "0xbb") "43"))
           Sample.indexed_only).
  reflexivity.
Defined.

Lemma webhook_only_adds_witness :
  Indexed.extends
    (DatabaseService.committed Sample.indexed_only)
    (DatabaseService.committed
       (snd (EventController.handleGoldskyWebhook Sample.strict
               (Some Sample.batch_with_null) Sample.indexed_only))).
Proof.
  apply (webhook_only_adds Sample.strict (Some Sample.batch_with_null)
           Sample.indexed_only).
  reflexivity.
Defined.

Lemma webhook_status_by_payload_witness :
  exists response,
    fst (EventController.handleGoldskyWebhook Sample.strict
           (Some (map Some Sample.batch)) Sample.fresh) = Js.Returned response /\
    EventController.code response = 200 /\
    exists entries,
      EventController.json response = EventController.Success entries 10.
Proof.
  destruct (webhook_status_by_payload Sample.strict (Some (map Some Sample.batch))
              Sample.fresh eq_refl) as (response & Hanswer & Hshape).
  exists response. split; [exact Hanswer |].
  cbn [map existsb Indexed.is_null Sample.batch orb] in Hshape.
  destruct Hshape as (entries & -> & _).
  split; [reflexivity |]. exists entries. reflexivity.
Defined.

(** ** An indexed event, read back *)

Section IndexedEventReadBack.

Import DatabaseService.

Variable pg : server.

(** The first row of the join for an event whose on-chain row and
    metadata row are both stored. *)
Lemma complete_event_rows_joined eventId t r m :
  In r (events_onchain t) ->
  EventOnchain.event_id r = Some eventId ->
  events_metadata t !! eventId = Some m ->
  exists row, head (complete_event_rows eventId t) = Some row /\
              EventOnchain.event_id (eo row) = Some eventId /\ em row = Some m.
Proof.
  intros Hin Hid Hm. unfold complete_event_rows. rewrite Hm.
  assert (Hr : same_event (Some eventId) r = true)
    by (unfold same_event; rewrite Hid; apply String.eqb_refl).
  induction (events_onchain t) as [| r0 rows IH]; [destruct Hin |].
  rewrite filter_cons.
  destruct (decide (same_event (Some eventId) r0 = true)) as [Hr0 | Hr0].
  - eexists. split; [reflexivity |]. split; [| reflexivity]. simpl.
    unfold same_event in Hr0.
    destruct (EventOnchain.event_id r0) as [b |]; [| discriminate].
    apply String.eqb_eq in Hr0. congruence.
  - destruct Hin as [-> | Hin]; [congruence | apply IH, Hin].
Qed.

Lemma or_null_twice {A : Type} (truthy : A -> bool) (v : option A) :
  Js.or_null truthy (Js.or_null truthy v) = Js.or_null truthy v.
Proof.
  destruct v as [a |]; cbn [Js.or_null]; [| reflexivity].
  destruct (truthy a) eqn:Ha; cbn [Js.or_null]; rewrite ?Ha; reflexivity.
Qed.

Lemma or_else_twice {A : Type} (truthy : A -> bool) (v : option A) (d : A) :
  Js.or_else truthy (Js.or_else truthy v d) d = Js.or_else truthy v d.
Proof.
  destruct v as [a |]; cbn [Js.or_else].
  - destruct (truthy a) eqn:Ha; cbn [Js.or_else]; rewrite ?Ha; [reflexivity |].
    destruct (truthy d); reflexivity.
  - destruct (truthy d); reflexivity.
Qed.

(** What the indexer stores is what a reader gets.  After the upsert of a
    first delivery (no stored row has its transaction hash) of an event
    that had no metadata row has returned, [getCompleteEvent] for that
    event, when the server answers it, returns a record -- not [null] --
    whose title is the placeholder ["Event <id>"], whose organizer profile
    is the profile of the organizer wallet if there is one, and whose
    status is the column default, [REGISTRATION_OPEN] if that is empty. *)
Theorem indexed_event_reads_back ev e w saved :
  transaction w = None ->
  EventOnchain.event_id ev = Some e ->
  events_metadata (committed w) !! e = None ->
  existsb (same_hash (EventOnchain.transaction_hash ev)) (events_onchain (committed w))
    = false ->
  fst (upsertEventFromGoldsky pg (Some ev) w) = Js.Returned saved ->
  let w1 := snd (upsertEventFromGoldsky pg (Some ev) w) in
  pg_error pg (issued w1) (SELECT_COMPLETE_EVENT e) = None ->
  exists event,
    fst (getCompleteEvent pg e w1) = Js.Returned (Some event) /\
    EventMetadata.title (Event.metadata event) = Some ("Event " +:+ e) /\
    EventMetadata.organizer_profile_id (Event.metadata event) =
      organizer_profile (committed w) (EventOnchain.organizer ev) /\
    EventMetadata.status (Event.metadata event) =
      Js.or_else Js.truthy_string (EventMetadata.status (metadata_defaults pg))
        EventMetadata.REGISTRATION_OPEN /\
    committed (snd (getCompleteEvent pg e w1)) = committed w1.
Proof.
  intros Hclean He Hnone Hfresh Hsaved w1 Hok. subst w1.
  destruct (upsert_all_or_nothing pg ev w Hclean) as (log & _ & _ & Hcase).
  rewrite Hsaved in Hcase. destruct Hcase as (_ & _ & _ & Hcommitted).
  set (w1 := snd (upsertEventFromGoldsky pg (Some ev) w)) in *.
  set (row := metadata_row (metadata_defaults pg) e ("Event " +:+ e)
                (organizer_profile (committed w) (EventOnchain.organizer ev))).
  assert (Hm : events_metadata (committed w1) !! e = Some row).
  { rewrite Hcommitted. unfold upsert_effect, insert_metadata.
    cbn [events_metadata]. rewrite He, Hnone. apply lookup_insert_eq. }
  assert (Hin : In (onchain_row (onchain_stamps pg (pg_now pg (S (S (issued w))))) ev)
                   (events_onchain (committed w1))).
  { rewrite Hcommitted. unfold upsert_effect, upsert_onchain.
    cbn [events_onchain]. rewrite Hfresh. cbn [fst].
    apply in_or_app. right. left. reflexivity. }
  destruct (complete_event_rows_joined e (committed w1) _ row Hin He Hm)
    as (joined & Hhead & _ & Hem).
  unfold getCompleteEvent, query_complete_event, Js.bind, Js.ret, send.
  rewrite Hok, Hhead. cbn [fst snd committed record].
  eexists. split; [reflexivity |].
  unfold em_column. rewrite Hem.
  cbn [Event.fromDatabaseData Event.new Event.metadata EventMetadata.fromDatabaseRow
       EventMetadata.new EventMetadata.title EventMetadata.organizer_profile_id
       EventMetadata.status row metadata_row].
  split; [reflexivity |].
  split; [rewrite or_null_twice; unfold organizer_profile; apply or_null_twice |].
  split; [| reflexivity].
  rewrite or_else_twice. reflexivity.
Qed.

End IndexedEventReadBack.

Lemma indexed_event_reads_back_witness :
  exists event,
    fst (DatabaseService.getCompleteEvent Sample.calm "43"
           (snd (DatabaseService.upsertEventFromGoldsky Sample.calm
                   (Some (Sample.delivery (Some "0xbb") "43")) Sample.indexed_only)))
      = Js.Returned (Some event) /\
    EventMetadata.title (Event.metadata event) = Some "Event 43".
Proof.
  destruct (indexed_event_reads_back Sample.calm (Sample.delivery (Some "0xbb") "43") "43"
              Sample.indexed_only _ eq_refl eq_refl eq_refl eq_refl
              ltac:(vm_compute; reflexivity) eq_refl)
    as (event & Hread & Htitle & _).
  exists event. split; [exact Hread | exact Htitle].
Defined.

(** * Further properties of the Go handlers *)

(** ** Settlement, continued *)

Section SettleOnce.

Import Http Handlers.

Variable env : environment.

(** [SettleEvent] on a live event, with a database that answers its two
    statements: the answer is 200, the row of the event keeps its title,
    description and image, has the status [SETTLED] and the time of the
    update, and no other row changes.  Settling is once only: the same
    request sent again is refused (400, or 500 when the status query
    fails) and changes nothing. *)
Theorem settle_event_once eventID id row w :
  int8_in env eventID = Some id ->
  Schema.events_metadata (db w) !! id = Some row ->
  Schema.EventsMetadata.status row = "LIVE" ->
  db_error env (queries w) = None ->
  db_error env (S (queries w)) = None ->
  let first := SettleEvent env eventID w in
  let second := SettleEvent env eventID (snd first) in
  fst first = JSON StatusOK (H_message "Event settled successfully") /\
  Schema.events_metadata (db (snd first)) !! id =
    Some {| Schema.EventsMetadata.title := Schema.EventsMetadata.title row;
            Schema.EventsMetadata.description := Schema.EventsMetadata.description row;
            Schema.EventsMetadata.image_url := Schema.EventsMetadata.image_url row;
            Schema.EventsMetadata.status := "SETTLED";
            Schema.EventsMetadata.updated_at := Some (time_now env (S (queries w))) |} /\
  (forall k, k <> id ->
     Schema.events_metadata (db (snd first)) !! k = Schema.events_metadata (db w) !! k) /\
  (fst second = JSON StatusBadRequest (H_error "Event is not live") \/
   fst second = JSON StatusInternalServerError (H_error "Database error")) /\
  db (snd second) = db (snd first).
Proof.
  intros Hid Hrow Hlive Hok1 Hok2 first second. subst second first.
  unfold SettleEvent, handler, then_, continue, respond, read, statement, as_int8, Now,
    update_settled.
  rewrite Hid. cbn [queries db logged].
  rewrite Hok1, Hrow, Hlive. cbn [String.eqb Ascii.eqb Bool.eqb negb queries db logged].
  rewrite Hok2. cbn [fst snd queries db logged Schema.with_events_metadata
                     Schema.events_metadata].
  split; [reflexivity |].
  split; [rewrite lookup_alter_eq, Hrow; reflexivity |].
  split; [intros k Hk; apply lookup_alter_ne; congruence |].
  destruct (db_error env (S (S (queries w)))) as [e |]; cbn [fst snd db].
  - split; [right; reflexivity | reflexivity].
  - rewrite lookup_alter_eq, Hrow.
    cbn [fmap option_fmap option_map set_status Schema.EventsMetadata.status
         String.eqb Ascii.eqb Bool.eqb negb fst snd db].
    split; [left; reflexivity | reflexivity].
Qed.

(** [ConfirmSettlement] never looks whether its [UPDATE] found a row: for
    an identifier that has no metadata row, a body that binds and a
    database that answers, it confirms the settlement with 200 although
    no table has changed. *)
Theorem confirm_settlement_of_unknown_event eventID id req participants w :
  int8_in env eventID = Some id ->
  Schema.events_metadata (db w) !! id = None ->
  TransactionHash req <> "" ->
  AttendedParticipants req = Some participants ->
  db_error env (queries w) = None ->
  fst (ConfirmSettlement env eventID (Some req) w) =
    JSON StatusOK (H_confirmed "Event settlement confirmed successfully"
                     (TransactionHash req)) /\
  db (snd (ConfirmSettlement env eventID (Some req) w)) = db w.
Proof.
  intros Hid Hrow Hhash Hlist Hok.
  unfold ConfirmSettlement, handler, then_, continue, respond, statement, Now,
    update_settled, bind_ConfirmSettlement.
  apply String.eqb_neq in Hhash. rewrite Hhash, Hlist, Hid. cbn [queries db logged].
  rewrite Hok. cbn [fst snd db]. split; [reflexivity |].
  assert (Hsame : alter (set_status "SETTLED" (time_now env (queries w))) id
                    (Schema.events_metadata (db w)) = Schema.events_metadata (db w)).
  { apply map_eq. intros k. destruct (decide (k = id)) as [-> | Hk].
    - rewrite lookup_alter_eq, Hrow. reflexivity.
    - apply lookup_alter_ne. congruence. }
  rewrite Hsame. destruct (db w). reflexivity.
Qed.

End SettleOnce.

Lemma settle_event_once_witness :
  Schema.EventsMetadata.status <$>
    Schema.events_metadata
      (Handlers.db (snd (Handlers.SettleEvent GoSample.offline "7"
         GoCases.live))) !! 7 = Some "SETTLED".
Proof.
  destruct (settle_event_once GoSample.offline "7" 7 (GoSample.metadata "LIVE")
              GoCases.live eq_refl eq_refl eq_refl eq_refl eq_refl)
    as (_ & Hrow & _).
  etransitivity; [exact (f_equal (fmap Schema.EventsMetadata.status) Hrow) | reflexivity].
Defined.

Lemma confirm_settlement_of_unknown_event_witness :
  Http.code (fst (Handlers.ConfirmSettlement GoSample.offline "42" (Some GoSample.confirm)
                    GoSample.start)) = Http.StatusOK /\
  Handlers.db (snd (Handlers.ConfirmSettlement GoSample.offline "42"
                      (Some GoSample.confirm) GoSample.start)) = GoSample.stored.
Proof.
  destruct (confirm_settlement_of_unknown_event GoSample.offline "42" 42 GoSample.confirm []
              GoSample.start eq_refl eq_refl ltac:(discriminate) eq_refl eq_refl)
    as (Hanswer & Hdb).
  split; [rewrite Hanswer; reflexivity | exact Hdb].
Defined.


(** ** CreateEvent, continued *)

Section CreateEventWrites.

Import Http Handlers.

Variable env : environment.

(** The two outcomes of [CreateEvent]: either it answers something other
    than 201 and has changed no table, or it answers 201 to a request
    that binds and has written the row of the next identifier. *)
Lemma create_event_effect body w :
  (code (fst (CreateEvent env body w)) <> StatusCreated /\
   db (snd (CreateEvent env body w)) = db w) \/
  (exists req,
     body = Some req /\ EventID req <> 0 /\
     code (fst (CreateEvent env body w)) = StatusCreated /\
     db (snd (CreateEvent env body w)) =
       Schema.with_events_metadata
         (upsert_metadata (wrap64 (EventID req + 1)) (Title req) (Description req)
            (ImageURL req) "REGISTRATION_OPEN" (Schema.events_metadata (db w))) (db w)).
Proof.
  unfold CreateEvent, handler, then_, continue, respond, read, statement, Printf,
    bind_CreateEvent.
  destruct body as [req |]; [| left; split; [discriminate | reflexivity]].
  destruct (Z.eqb_spec (EventID req) 0) as [Hzero | Hzero];
    [left; split; [discriminate | reflexivity] |].
  destruct (Title req =? "")%string; [left; split; [discriminate | reflexivity] |].
  cbn [queries db logged].
  destruct (db_error env (queries w)); [left; split; [discriminate | reflexivity] |].
  cbn [queries db logged].
  destruct (bool_decide _) eqn:Hexists;
    [| left; split; [discriminate | reflexivity]].
  apply bool_decide_eq_true in Hexists. destruct Hexists as [eo Heo].
  cbn [negb queries db logged].
  destruct (db_error env (S (queries w))); [left; split; [discriminate | reflexivity] |].
  unfold insert_metadata. rewrite Heo. cbn [queries db logged].
  right. exists req. split; [reflexivity |]. split; [exact Hzero |].
  destruct (db_error env (S (S (queries w)))); cbn [fst snd db code];
    [split; reflexivity |].
  destruct (select_detail _ _); cbn [fst snd db code]; split; reflexivity.
Qed.

(** [CreateEvent] writes only when it answers 201: whatever the body, the
    tables and the database do, any other answer leaves every table as it
    was. *)
Theorem create_event_writes_only_when_created body w :
  code (fst (CreateEvent env body w)) <> StatusCreated ->
  db (snd (CreateEvent env body w)) = db w.
Proof.
  intros Hcode.
  destruct (create_event_effect body w) as [[_ Hdb] | (req & _ & _ & Hcreated & _)];
    [exact Hdb | contradiction].
Qed.

(** The on-chain row [CreateEvent] wants is the row of the next
    identifier; the row of the requested identifier is of no use to it.
    When the request binds, the first statement is answered and no
    on-chain row is stored under [N + 1], the answer is 400 with the
    requested identifier [N] in the body, and no table changes -- also
    when the on-chain row of [N] is there. *)
Theorem create_event_wants_the_next_identifier req w :
  EventID req <> 0 ->
  Title req <> "" ->
  db_error env (queries w) = None ->
  Schema.events_onchain (db w) !! wrap64 (EventID req + 1) = None ->
  fst (CreateEvent env (Some req) w) =
    JSON StatusBadRequest
      (H_error_event
         "On-chain event data not found. Make sure the smart contract transaction is confirmed and indexed."
         (EventID req)) /\
  db (snd (CreateEvent env (Some req) w)) = db w.
Proof.
  intros Hid Htitle Hok Hnone.
  unfold CreateEvent, handler, then_, continue, respond, read, statement, Printf,
    bind_CreateEvent.
  apply Z.eqb_neq in Hid. apply String.eqb_neq in Htitle. rewrite Hid, Htitle.
  cbn [queries db logged]. rewrite Hok. cbn [queries db logged]. rewrite Hnone.
  rewrite bool_decide_eq_false_2 by (intros [x Hx]; discriminate).
  split; reflexivity.
Qed.

(** No request makes [CreateEvent] write the metadata of the identifier 1:
    it writes under [N + 1], and the binding refuses [N = 0] as a missing
    field.  [N] is an [int64]. *)
Theorem create_event_skips_first_identifier req w :
  - 2 ^ 63 <= EventID req < 2 ^ 63 ->
  Schema.events_metadata (db (snd (CreateEvent env (Some req) w))) !! 1 =
  Schema.events_metadata (db w) !! 1.
Proof.
  intros Hrange.
  destruct (create_event_effect (Some req) w)
    as [[_ Hdb] | (req' & Hreq & Hzero & _ & Hdb)]; rewrite Hdb; [reflexivity |].
  injection Hreq as <-.
  cbn [Schema.with_events_metadata Schema.events_metadata].
  unfold upsert_metadata. apply lookup_insert_ne.
  unfold wrap64. intros Hone.
  pose proof (Z.div_mod (EventID req + 1 + 2 ^ 63) (2 ^ 64) ltac:(lia)) as Hdiv.
  pose proof (Z.mod_pos_bound (EventID req + 1 + 2 ^ 63) (2 ^ 64) ltac:(lia)) as Hmod.
  lia.
Qed.

End CreateEventWrites.

Lemma create_event_writes_only_when_created_witness :
  Handlers.db (snd (Handlers.CreateEvent GoSample.offline None GoSample.start)) =
  GoSample.stored.
Proof.
  apply (create_event_writes_only_when_created GoSample.offline None GoSample.start).
  vm_compute. discriminate.
Defined.

(** Event 7 is indexed and 8 is not: metadata for 7 is refused. *)
Lemma create_event_wants_the_next_identifier_witness :
  is_Some (Schema.events_onchain GoSample.stored !! 7) /\
  Http.code (fst (Handlers.CreateEvent GoSample.offline (Some GoCases.create_7)
                    GoSample.start)) = Http.StatusBadRequest.
Proof.
  split; [vm_compute; eauto |].
  destruct (create_event_wants_the_next_identifier GoSample.offline GoCases.create_7
              GoSample.start ltac:(discriminate) ltac:(discriminate) eq_refl eq_refl)
    as [Hanswer _].
  rewrite Hanswer. reflexivity.
Defined.

Lemma create_event_skips_first_identifier_witness :
  Schema.events_metadata
    (Handlers.db (snd (Handlers.CreateEvent GoSample.offline (Some GoCases.create_0)
                         GoCases.first_indexed))) !! 1 = None.
Proof.
  etransitivity;
    [apply (create_event_skips_first_identifier GoSample.offline GoCases.create_0
              GoCases.first_indexed); vm_compute; split; [discriminate | reflexivity]
    | reflexivity].
Defined.


(** ** GetEvents: the page *)

Section EventsPage.

Import Http Handlers.

Variable env : environment.

#[local] Instance event_id_desc_transitive : Transitive event_id_desc.
Proof. intros a b c. unfold event_id_desc. lia. Qed.

#[local] Instance event_id_desc_total : Total event_id_desc.
Proof. intros a b. unfold event_id_desc. lia. Qed.








End EventsPage.




(** ** UpdateEventStatus *)

Section StatusUpdates.

Import Http Handlers EventStatus.

Variable env : environment.

(** [UpdateEventStatus] has no rule about transitions: for a stored event,
    whatever its status, one of the five statuses and a database that
    answers, it answers 200 and the row has the requested status and the
    time of the update; the other columns and the other rows are as they
    were.  A settled event can so be opened for registration again. *)
Theorem update_event_status_unguarded eventID id row req w :
  int8_in env eventID = Some id ->
  Schema.events_metadata (db w) !! id = Some row ->
  In (Status req) validStatuses ->
  db_error env (queries w) = None ->
  let w' := snd (UpdateEventStatus env eventID (Some req) w) in
  fst (UpdateEventStatus env eventID (Some req) w) =
    JSON StatusOK (H_message "Event status updated successfully") /\
  Schema.events_metadata (db w') !! id =
    Some {| Schema.EventsMetadata.title := Schema.EventsMetadata.title row;
            Schema.EventsMetadata.description := Schema.EventsMetadata.description row;
            Schema.EventsMetadata.image_url := Schema.EventsMetadata.image_url row;
            Schema.EventsMetadata.status := Status req;
            Schema.EventsMetadata.updated_at := Some (time_now env (queries w)) |} /\
  (forall k, k <> id ->
     Schema.events_metadata (db w') !! k = Schema.events_metadata (db w) !! k) /\
  logged w' = logged w ++ ["Event " +:+ eventID +:+ " status updated to " +:+ Status req].
Proof.
  intros Hid Hrow Hvalid Hok w'. subst w'.
  assert (Hnonempty : (Status req =? "")%string = false).
  { apply String.eqb_neq. intros Hempty. rewrite Hempty in Hvalid.
    cbn in Hvalid. intuition discriminate. }
  assert (Hexists : existsb (String.eqb (Status req)) validStatuses = true).
  { apply existsb_exists. exists (Status req). split; [exact Hvalid |].
    apply String.eqb_refl. }
  unfold UpdateEventStatus, handler, then_, continue, respond, statement, Now, Printf,
    update_status, bind_UpdateEventStatus.
  rewrite Hnonempty, Hexists, Hid. cbn [negb queries db logged].
  rewrite Hok, Hrow. cbn [Z.eqb fst snd db logged queries Schema.with_events_metadata
                          Schema.events_metadata].
  split; [reflexivity |].
  split; [rewrite lookup_alter_eq, Hrow; reflexivity |].
  split; [intros k Hk; apply lookup_alter_ne; congruence | reflexivity].
Qed.

(** What [UpdateEventStatus] refuses: a status outside the five is
    answered with 400 before any statement is sent, and an identifier
    without a metadata row with 404; neither changes a table or writes a
    log line. *)
Theorem update_event_status_refused eventID req w :
  (~ In (Status req) validStatuses ->
   code (fst (UpdateEventStatus env eventID (Some req) w)) = StatusBadRequest /\
   snd (UpdateEventStatus env eventID (Some req) w) = w) /\
  (forall id,
     In (Status req) validStatuses ->
     int8_in env eventID = Some id ->
     Schema.events_metadata (db w) !! id = None ->
     db_error env (queries w) = None ->
     fst (UpdateEventStatus env eventID (Some req) w) =
       JSON StatusNotFound (H_error "Event not found") /\
     db (snd (UpdateEventStatus env eventID (Some req) w)) = db w /\
     logged (snd (UpdateEventStatus env eventID (Some req) w)) = logged w).
Proof.
  split.
  - intros Hinvalid.
    unfold UpdateEventStatus, handler, then_, continue, respond, bind_UpdateEventStatus.
    destruct (Status req =? "")%string; [split; reflexivity |].
    destruct (existsb (String.eqb (Status req)) validStatuses) eqn:Hexists;
      [| split; reflexivity].
    apply existsb_exists in Hexists. destruct Hexists as (s & Hin & Heq).
    apply String.eqb_eq in Heq. subst s. contradiction.
  - intros id Hvalid Hid Hrow Hok.
    assert (Hnonempty : (Status req =? "")%string = false).
    { apply String.eqb_neq. intros Hempty. rewrite Hempty in Hvalid.
      cbn in Hvalid. intuition discriminate. }
    assert (Hexists : existsb (String.eqb (Status req)) validStatuses = true).
    { apply existsb_exists. exists (Status req). split; [exact Hvalid |].
      apply String.eqb_refl. }
    unfold UpdateEventStatus, handler, then_, continue, respond, statement, Now, Printf,
      update_status, bind_UpdateEventStatus.
    rewrite Hnonempty, Hexists, Hid. cbn [negb queries db logged].
    rewrite Hok, Hrow. cbn [Z.eqb fst snd db logged queries].
    split; [reflexivity |]. split; [| reflexivity].
    assert (Hsame : alter (set_status (Status req) (time_now env (queries w))) id
                      (Schema.events_metadata (db w)) = Schema.events_metadata (db w)).
    { apply map_eq. intros k. destruct (decide (k = id)) as [-> | Hk].
      - rewrite lookup_alter_eq, Hrow. reflexivity.
      - apply lookup_alter_ne. congruence. }
    rewrite Hsame. destruct (db w). reflexivity.
Qed.

(** The guard of [SettleEvent] is passed in two requests: whatever the
    status of a stored event, [UpdateEventStatus] to [LIVE] followed by
    [SettleEvent] answers 200 twice and leaves the event settled. *)
Theorem any_event_settled_in_two_requests eventID id row w :
  int8_in env eventID = Some id ->
  Schema.events_metadata (db w) !! id = Some row ->
  db_error env (queries w) = None ->
  db_error env (S (queries w)) = None ->
  db_error env (S (S (queries w))) = None ->
  let first := UpdateEventStatus env eventID (Some {| Status := "LIVE" |}) w in
  let second := SettleEvent env eventID (snd first) in
  code (fst first) = StatusOK /\
  code (fst second) = StatusOK /\
  Schema.EventsMetadata.status <$> Schema.events_metadata (db (snd second)) !! id =
    Some "SETTLED".
Proof.
  intros Hid Hrow Hok1 Hok2 Hok3 first second. subst second first.
  unfold UpdateEventStatus, SettleEvent, handler, then_, continue, respond, read,
    statement, as_int8, Now, Printf, update_status, update_settled,
    bind_UpdateEventStatus.
  cbn [Status String.eqb Ascii.eqb Bool.eqb existsb validStatuses orb negb].
  rewrite Hid. cbn [queries db logged].
  rewrite Hok1, Hrow. cbn [Z.eqb fst snd db logged queries Schema.with_events_metadata
                           Schema.events_metadata].
  rewrite Hok2. rewrite lookup_alter_eq, Hrow.
  cbn [fmap option_fmap option_map set_status Schema.EventsMetadata.status
       String.eqb Ascii.eqb Bool.eqb negb fst snd db queries logged].
  rewrite Hok3. cbn [fst snd db code Schema.with_events_metadata Schema.events_metadata].
  split; [reflexivity |]. split; [reflexivity |].
  rewrite !lookup_alter_eq, Hrow. reflexivity.
Qed.

(** [set_status] with one of the five keeps the stored statuses valid. *)
Lemma statuses_valid_alter status now id t :
  In status validStatuses ->
  statuses_valid t ->
  statuses_valid
    (Schema.with_events_metadata
       (alter (set_status status now) id (Schema.events_metadata t)) t).
Proof.
  intros Hstatus Hvalid k row.
  cbn [Schema.with_events_metadata Schema.events_metadata].
  destruct (decide (k = id)) as [-> | Hk].
  - rewrite lookup_alter_eq.
    destruct (Schema.events_metadata t !! id); [| discriminate].
    intros Hrow. injection Hrow as <-. exact Hstatus.
  - rewrite lookup_alter_ne by congruence. apply Hvalid.
Qed.

Lemma serve_keeps_statuses_valid r w :
  statuses_valid (db w) -> statuses_valid (db (snd (serve env r w))).
Proof.
  intros Hvalid. destruct r as [body | eventID body | eventID | eventID body];
    cbn [serve].
  - destruct (create_event_effect env body w) as [[_ Hdb] | (req & _ & _ & _ & Hdb)];
      rewrite Hdb; [exact Hvalid |].
    intros k row. cbn [Schema.with_events_metadata Schema.events_metadata].
    destruct (decide (k = wrap64 (EventID req + 1))) as [-> | Hk].
    + rewrite upsert_metadata_lookup. intros Hrow. injection Hrow as <-.
      cbn. tauto.
    + rewrite upsert_metadata_lookup_ne by exact Hk. apply Hvalid.
  - unfold UpdateEventStatus, handler, then_, continue, respond, statement, Now, Printf,
      update_status, bind_UpdateEventStatus.
    destruct body as [req |]; [| exact Hvalid].
    destruct (Status req =? "")%string; [exact Hvalid |].
    destruct (existsb (String.eqb (Status req)) validStatuses) eqn:Hexists;
      [| exact Hvalid].
    apply existsb_exists in Hexists. destruct Hexists as (s & Hin & Heq).
    apply String.eqb_eq in Heq. subst s.
    cbn [negb queries db logged].
    destruct (db_error env (queries w)); [exact Hvalid |].
    destruct (int8_in env eventID) as [id |]; [| exact Hvalid].
    destruct (Schema.events_metadata (db w) !! id); cbn [Z.eqb fst snd db];
      apply statuses_valid_alter; assumption.
  - unfold SettleEvent, handler, then_, continue, respond, read, statement, as_int8, Now,
      update_settled.
    destruct (db_error env (queries w)); [exact Hvalid |].
    destruct (int8_in env eventID) as [id |]; [| exact Hvalid].
    destruct (Schema.events_metadata (db w) !! id) as [row |]; [| exact Hvalid].
    cbn [fst snd db queries logged].
    destruct (negb _); [exact Hvalid |]. cbn [fst snd db queries logged].
    destruct (db_error env (S (queries w))); [exact Hvalid |].
    cbn [fst snd db]. apply statuses_valid_alter; [cbn; tauto | exact Hvalid].
  - unfold ConfirmSettlement, handler, then_, continue, respond, statement, Now,
      update_settled, bind_ConfirmSettlement.
    destruct body as [req |]; [| exact Hvalid].
    destruct (TransactionHash req =? "")%string; [exact Hvalid |].
    destruct (AttendedParticipants req); [| exact Hvalid].
    cbn [fst snd db queries logged].
    destruct (db_error env (queries w)); [exact Hvalid |].
    destruct (int8_in env eventID) as [id |]; [| exact Hvalid].
    cbn [fst snd db]. apply statuses_valid_alter; [cbn; tauto | exact Hvalid].
Qed.

(** No sequence of requests to the four handlers that write
    [events_metadata] -- [CreateEvent], [UpdateEventStatus], [SettleEvent]
    and [ConfirmSettlement] -- stores a status outside the five, whatever
    the bodies and whatever the database refuses. *)
Theorem stored_statuses_stay_valid rs w :
  statuses_valid (db w) -> statuses_valid (db (serve_all env rs w)).
Proof.
  revert w. induction rs as [| r rs IH]; intros w Hvalid; [exact Hvalid |].
  cbn [serve_all fold_left]. apply IH, serve_keeps_statuses_valid, Hvalid.
Qed.

End StatusUpdates.

Lemma update_event_status_unguarded_witness :
  Schema.EventsMetadata.status <$>
    Schema.events_metadata
      (Handlers.db (snd (EventStatus.UpdateEventStatus GoSample.offline "7"
                           (Some EventStatus.reopen) GoCases.settled))) !! 7
  = Some "REGISTRATION_OPEN".
Proof.
  destruct (update_event_status_unguarded GoSample.offline "7" 7
              (GoSample.metadata "SETTLED") EventStatus.reopen GoCases.settled
              eq_refl eq_refl ltac:(simpl; tauto) eq_refl) as (_ & Hrow & _).
  etransitivity; [exact (f_equal (fmap Schema.EventsMetadata.status) Hrow) | reflexivity].
Defined.

Lemma update_event_status_refused_witness :
  Http.code (fst (EventStatus.UpdateEventStatus GoSample.offline "7"
                    (Some EventStatus.cancel) GoSample.start)) = Http.StatusBadRequest /\
  fst (EventStatus.UpdateEventStatus GoSample.offline "42" (Some EventStatus.reopen)
         GoSample.start) = Http.JSON Http.StatusNotFound (Http.H_error "Event not found").
Proof.
  split.
  - apply (update_event_status_refused GoSample.offline "7" EventStatus.cancel GoSample.start).
    simpl. intuition discriminate.
  - apply (update_event_status_refused GoSample.offline "42" EventStatus.reopen GoSample.start)
      with (id := 42); [simpl; tauto | reflexivity | reflexivity | reflexivity].
Defined.

Lemma any_event_settled_in_two_requests_witness :
  Schema.EventsMetadata.status <$>
    Schema.events_metadata
      (Handlers.db
         (snd (Handlers.SettleEvent GoSample.offline "7"
                 (snd (EventStatus.UpdateEventStatus GoSample.offline "7"
                         (Some {| EventStatus.Status := "LIVE" |}) GoSample.start))))) !! 7
  = Some "SETTLED".
Proof.
  exact (proj2 (proj2 (any_event_settled_in_two_requests GoSample.offline "7" 7
                         (GoSample.metadata "REGISTRATION_OPEN") GoSample.start
                         eq_refl eq_refl eq_refl eq_refl eq_refl))).
Defined.

Lemma sample_statuses_valid : EventStatus.statuses_valid GoSample.stored.
Proof.
  intros id row. destruct (decide (id = 7)) as [-> | Hid].
  - intros Hrow. vm_compute in Hrow. injection Hrow as <-. simpl. tauto.
  - intros Hrow.
    assert (Hnone : Schema.events_metadata GoSample.stored !! id = None)
      by (apply lookup_singleton_ne; congruence).
    congruence.
Qed.

Lemma stored_statuses_stay_valid_witness :
  EventStatus.statuses_valid
    (Handlers.db
       (EventStatus.serve_all GoSample.offline
          [ EventStatus.PUT_status "7" (Some {| EventStatus.Status := "LIVE" |});
            EventStatus.POST_settle "7";
            EventStatus.POST_events (Some GoSample.create_41);
            EventStatus.POST_confirm "42" (Some GoSample.confirm) ]
          GoSample.start)).
Proof.
  apply stored_statuses_stay_valid. exact sample_statuses_valid.
Defined.


(** ** ValidateCheckIn: who may validate *)

Section CheckInByOrganizer.

Import Http Handlers CheckInAuthority.

Variable env : environment.

(** Only the organizer validates.  Unless the caller's address is not
    empty and is the organizer address of the event of the check-in named
    in the body, [ValidateCheckIn] does not answer 200, changes no table
    and writes no log line -- whatever the body says and whatever the
    database does. *)
Theorem validate_checkin_only_by_organizer user_address body w :
  ~ organizer_of_checkin user_address body (db w) ->
  let run := ValidateCheckIn env user_address body w in
  code (fst run) <> StatusOK /\
  db (snd run) = db w /\
  logged (snd run) = logged w.
Proof.
  intros Hnot. cbn zeta.
  unfold ValidateCheckIn, handler, then_, continue, respond, read, statement, Now,
    bind_ValidateCheckIn.
  destruct body as [req |]; cbn [fst snd code db logged];
    [| repeat split; discriminate].
  destruct (Models.ValidateCheckInRequest.CheckInID req =? "")%string;
    cbn [fst snd code db logged]; [repeat split; discriminate |].
  destruct (String.eqb_spec user_address "") as [Hempty | Hcaller];
    cbn [fst snd code db logged]; [repeat split; discriminate |].
  destruct (db_error env (queries w)); cbn [fst snd code db logged queries];
    [repeat split; discriminate |].
  destruct (Schema.checkins (db w) !! Models.ValidateCheckInRequest.CheckInID req)
    as [row |] eqn:Hrow; cbn [fst snd code db logged queries];
    [| repeat split; discriminate].
  destruct (db_error env (S (queries w))); cbn [fst snd code db logged queries];
    [repeat split; discriminate |].
  destruct (Schema.events (db w) !! Schema.Checkins.event_id row) as [ev |] eqn:Hev;
    cbn [fst snd code db logged queries]; [| repeat split; discriminate].
  destruct (String.eqb_spec (Schema.Events.organizer_address ev) user_address)
    as [Horganizer | Hother]; cbn [negb fst snd code db logged queries];
    [| repeat split; discriminate].
  destruct Hnot. split; [exact Hcaller |]. exists req, row, ev.
  repeat split; assumption.
Qed.

End CheckInByOrganizer.

(** On the sample, a caller who is not the organizer of event 7. *)
Lemma validate_checkin_only_by_organizer_witness :
  Http.code (fst (Handlers.ValidateCheckIn GoSample.offline "0xstranger"
                    (Some GoSample.validate_c1) GoSample.start)) <> Http.StatusOK /\
  Handlers.db (snd (Handlers.ValidateCheckIn GoSample.offline "0xstranger"
                      (Some GoSample.validate_c1) GoSample.start)) = GoSample.stored.
Proof.
  destruct (validate_checkin_only_by_organizer GoSample.offline "0xstranger"
              (Some GoSample.validate_c1) GoSample.start) as (Hcode & Hdb & _);
    [| split; [exact Hcode | exact Hdb]].
  intros (_ & req & row & ev & Hreq & Hrow & Hev & Horganizer).
  injection Hreq as <-. vm_compute in Hrow. injection Hrow as <-.
  vm_compute in Hev. injection Hev as <-. discriminate.
Defined.
